(** * palworld_save_pal: the save-file session handlers

    A shallow embedding of
    [src/palworld_save_pal/ws/handlers/save_file_handler.py]: the four
    websocket handlers (load a single save, load a zip bundle, update,
    download), the application state they mutate and the envelopes they
    send, together with the parts of the Python library they rely on
    ([str] methods, [os.path], [repr], [uuid.UUID], [base64], [dict]). *)

From Stdlib Require Import String Ascii List Bool Arith ZArith NArith Lia.
From Stdlib Require Import Strings.Byte.
Import ListNotations.
Local Open Scope list_scope.
Local Open Scope string_scope.

(** ** Python values used by the handlers *)

(** A Python [str] is the sequence of its code points; the model covers
    code points below 256 (a character of a source literal above that
    range appears as its UTF-8 bytes).  [bytes] is a sequence of octets. *)
Definition str := string.
Definition bytes := list byte.

(** The exceptions the handlers can see.  [str e] below is Python's
    [str(e)], the text the handlers put into the [ERROR] envelope.
    [Raised] stands for an [Exception] raised by a collaborator (the save
    engine, the encoder, the zip reader), carrying its text. *)
Inductive Exn : Type :=
| ValueError (msg : str)
| IndexError (msg : str)
| KeyError (msg : str)
| AttributeError (msg : str)
| Raised (msg : str).

Module PyStr.

(** [s.startswith(p)] *)
Definition startswith (s p : str) : bool := String.prefix p s.

(** [s.endswith(p)] *)
Definition endswith (s p : str) : bool :=
  (String.length p <=? String.length s)%nat &&
  String.eqb
    (substring (String.length s - String.length p) (String.length p) s) p.

(** [s.split(sep)[0]] for a one-character separator: the text before the
    first separator, the whole string when there is none. *)
Fixpoint split_first (sep : ascii) (s : str) : str :=
  match s with
  | EmptyString => EmptyString
  | String c r =>
      if Ascii.eqb c sep then EmptyString else String c (split_first sep r)
  end.

(** [sep in s] for a one-character [sep] *)
Fixpoint has_char (sep : ascii) (s : str) : bool :=
  match s with
  | EmptyString => false
  | String c r => Ascii.eqb c sep || has_char sep r
  end.

(** [x in l] for a list of strings *)
Definition str_in (x : str) (l : list str) : bool :=
  existsb (String.eqb x) l.

(** [posixpath.basename(p)]: [p[p.rfind('/') + 1:]] *)
Fixpoint basename (p : str) : str :=
  match p with
  | EmptyString => EmptyString
  | String c r =>
      if has_char "/" r then basename r
      else if Ascii.eqb c "/" then r else p
  end.

(** Is there a character other than [.] in [s]? *)
Fixpoint has_non_dot (s : str) : bool :=
  match s with
  | EmptyString => false
  | String c r => negb (Ascii.eqb c ".") || has_non_dot r
  end.

(** [posixpath.splitext(p)[0]] on a name without [/]: cut at the last dot,
    unless only dots precede it ([genericpath._splitext] skips leading
    dots, so [".sav"] has no extension). *)
Fixpoint splitext_root_aux (seen_non_dot : bool) (p : str) : str :=
  match p with
  | EmptyString => EmptyString
  | String c r =>
      if Ascii.eqb c "." && negb (has_char "." r) then
        if seen_non_dot then EmptyString else p
      else String c (splitext_root_aux
                       (seen_non_dot || negb (Ascii.eqb c ".")) r)
  end.

Definition splitext_root (p : str) : str := splitext_root_aux false p.

(** [s.replace(old, "")] for a non-empty [old]: occurrences are removed
    from left to right without overlap; [skip] counts the characters of
    the occurrence being dropped. *)
Fixpoint remove_from (old : str) (skip : nat) (s : str) : str :=
  match s with
  | EmptyString => EmptyString
  | String c r =>
      match skip with
      | S k => remove_from old k r
      | O =>
          if String.prefix old s
          then remove_from old (String.length old - 1) r
          else String c (remove_from old 0 r)
      end
  end.

Definition replace_del (old s : str) : str := remove_from old 0 s.

(** [s.lstrip(chars)] and [s.rstrip(chars)], [s.strip(chars)] *)
Fixpoint lstrip (chars : str) (s : str) : str :=
  match s with
  | EmptyString => EmptyString
  | String c r => if has_char c chars then lstrip chars r else s
  end.

Fixpoint rstrip (chars : str) (s : str) : str :=
  match s with
  | EmptyString => EmptyString
  | String c r =>
      match rstrip chars r with
      | EmptyString => if has_char c chars then EmptyString
                       else String c EmptyString
      | r' => String c r'
      end
  end.

Definition strip (chars : str) (s : str) : str := rstrip chars (lstrip chars s).

(** [sep.join(l)] *)
Definition join (sep : str) (l : list str) : str := String.concat sep l.

End PyStr.

(** ** [repr] of strings and lists of strings *)

Module PyRepr.

Definition hex_digit (n : N) : ascii :=
  match String.get (N.to_nat n) "0123456789abcdef" with
  | Some c => c
  | None => "?"%char
  end.

(** [\xhh] with two lower-case hexadecimal digits *)
Definition hex_escape (c : ascii) : str :=
  let n := N_of_ascii c in
  String "\" (String "x" (String (hex_digit (n / 16))
                            (String (hex_digit (n mod 16)) EmptyString))).

(** Code points below 256 that [str.isprintable] rejects: the C0 and C1
    controls, DEL, the no-break space and the soft hyphen. *)
Definition printable (c : ascii) : bool :=
  let n := N_of_ascii c in
  ((32 <=? n) && (n <? 127) || (161 <=? n) && negb (n =? 173))%N.

(** One character of [repr(s)] for the chosen [quote]. *)
Definition repr_char (quote : ascii) (c : ascii) : str :=
  if Ascii.eqb c quote || Ascii.eqb c "\" then String "\" (String c EmptyString)
  else if Ascii.eqb c "009" then "\t"
  else if Ascii.eqb c "010" then "\n"
  else if Ascii.eqb c "013" then "\r"
  else if printable c then String c EmptyString
  else hex_escape c.

Fixpoint repr_body (quote : ascii) (s : str) : str :=
  match s with
  | EmptyString => EmptyString
  | String c r => repr_char quote c ++ repr_body quote r
  end.

(** [repr(s)]: single quotes, unless the text has a single quote and no
    double quote. *)
Definition repr (s : str) : str :=
  let quote : ascii :=
    if PyStr.has_char "'" s && negb (PyStr.has_char "034" s)
    then "034"%char else "'"%char in
  String quote (repr_body quote s ++ String quote EmptyString).

(** [repr(l)], also [str(l)] and [f"{l}"], for a list of strings *)
Definition repr_list (l : list str) : str :=
  "[" ++ PyStr.join ", " (map repr l) ++ "]".

End PyRepr.

(** [str(e)]: the message, except for [KeyError], which shows the [repr]
    of its argument. *)
Definition str_of_exn (e : Exn) : str :=
  match e with
  | ValueError m | IndexError m | AttributeError m | Raised m => m
  | KeyError m => PyRepr.repr m
  end.

(** ** [int(s, 16)] and [uuid.UUID(s)] *)

Module PyUUID.

(** A [uuid.UUID] is compared and hashed through its 128-bit [int]. *)
Definition UUID := N.

(** The value of a character as a digit ([_PyLong_DigitValue]), when it is
    a hexadecimal digit. *)
Definition hex_value (c : ascii) : option N :=
  let n := N_of_ascii c in
  if ((48 <=? n) && (n <=? 57))%N then Some (n - 48)%N
  else if ((97 <=? n) && (n <=? 102))%N then Some (n - 87)%N
  else if ((65 <=? n) && (n <=? 70))%N then Some (n - 55)%N
  else None.

(** White space that [int] skips around the literal: the ASCII white
    space of [Py_ISSPACE], and NEL and the no-break space, which are turned
    into a blank before parsing. *)
Definition int_space (c : ascii) : bool :=
  let n := N_of_ascii c in
  ((9 <=? n) && (n <=? 13) || (n =? 32) || (n =? 133) || (n =? 160))%N.

Fixpoint skip_space (s : str) : str :=
  match s with
  | EmptyString => EmptyString
  | String c r => if int_space c then skip_space r else s
  end.

Fixpoint all_space (s : str) : bool :=
  match s with
  | EmptyString => true
  | String c r => int_space c && all_space r
  end.

(** The digits of the literal: hexadecimal digits with single underscores
    between them, then optional white space up to the end.  [acc] is the
    value so far, [prev_us] tells that the previous character was an
    underscore, [seen] that a digit has been read. *)
Fixpoint int_digits (acc : N) (prev_us seen : bool) (s : str) : option N :=
  match s with
  | EmptyString => if seen && negb prev_us then Some acc else None
  | String c r =>
      match hex_value c with
      | Some d => int_digits (acc * 16 + d) false true r
      | None =>
          if Ascii.eqb c "_" then
            if prev_us || negb seen then None
            else int_digits acc true seen r
          else if seen && negb prev_us && all_space s then Some acc
          else None
      end
  end.

(** After the sign: an optional [0x] or [0X], which may be followed by one
    underscore. *)
Definition int_after_sign (s : str) : option N :=
  match s with
  | String "0" (String x r) =>
      if Ascii.eqb x "x" || Ascii.eqb x "X" then
        match r with
        | String "_" r' => int_digits 0 false false r'
        | _ => int_digits 0 false false r
        end
      else int_digits 0 false false s
  | _ => int_digits 0 false false s
  end.

(** [int(s, 16)] as a sign and a magnitude; [None] is the [ValueError]. *)
Definition int16 (s : str) : option (bool * N) :=
  match skip_space s with
  | String "+" r => option_map (pair false) (int_after_sign r)
  | String "-" r => option_map (pair true) (int_after_sign r)
  | r => option_map (pair false) (int_after_sign r)
  end.

(** [uuid.UUID(hex)]: drop [urn:] and [uuid:], strip braces, drop hyphens,
    demand 32 characters and read them as a base-16 integer below
    [2^128]. *)
Definition UUID_of_str (hex : str) : Exn + UUID :=
  let hex := PyStr.replace_del "uuid:" (PyStr.replace_del "urn:" hex) in
  let hex := PyStr.replace_del "-" (PyStr.strip "{}" hex) in
  if negb (String.length hex =? 32)%nat then
    inl (ValueError "badly formed hexadecimal UUID string")
  else
    match int16 hex with
    | None =>
        inl (ValueError ("invalid literal for int() with base 16: "
                           ++ PyRepr.repr hex))
    | Some (neg, n) =>
        if negb neg && (n <? 2 ^ 128)%N then inr n
        else inl (ValueError "int is out of range (need a 128-bit value)")
    end.

(** The text with its ASCII capital letters turned into small ones, and
    the texts made of hexadecimal digits and hyphens only. *)
Definition ascii_lower (c : ascii) : ascii :=
  let n := N_of_ascii c in
  if ((65 <=? n) && (n <=? 90))%N then ascii_of_N (n + 32) else c.

Fixpoint lower (s : str) : str :=
  match s with
  | EmptyString => EmptyString
  | String c r => String (ascii_lower c) (lower r)
  end.

Definition is_hex (c : ascii) : bool :=
  match hex_value c with
  | Some _ => true
  | None => false
  end.

Fixpoint all_hex (s : str) : bool :=
  match s with
  | EmptyString => true
  | String c r => is_hex c && all_hex r
  end.

Fixpoint canonical (s : str) : bool :=
  match s with
  | EmptyString => true
  | String c r => (is_hex c || Ascii.eqb c "-") && canonical r
  end.

End PyUUID.

(** ** [base64.b64encode] and the matching decoder *)

Module PyBase64.

Definition alphabet : str :=
  "ABCDEFGHIJKLMNOPQRSTUVWXYZabcdefghijklmnopqrstuvwxyz0123456789+/".

Definition pad : ascii := "="%char.

(** The character of a 6-bit value. *)
Definition enc_char (i : N) : ascii :=
  match String.get (N.to_nat i) alphabet with
  | Some c => c
  | None => pad
  end.

(** The 6-bit value of a character of the alphabet. *)
Definition dec_char (c : ascii) : option N :=
  let n := N_of_ascii c in
  if ((65 <=? n) && (n <=? 90))%N then Some (n - 65)%N
  else if ((97 <=? n) && (n <=? 122))%N then Some (n - 71)%N
  else if ((48 <=? n) && (n <=? 57))%N then Some (n + 4)%N
  else if (n =? 43)%N then Some 62%N
  else if (n =? 47)%N then Some 63%N
  else None.

(** Three octets as one 24-bit group. *)
Definition group24 (a b c : byte) : N :=
  (Byte.to_N a * 65536 + Byte.to_N b * 256 + Byte.to_N c)%N.

Definition sextet (k : N) (g : N) : ascii :=
  enc_char ((g / 2 ^ (6 * k)) mod 64)%N.

Definition x00 : byte := Byte.x00.

(** [base64.b64encode(s).decode("utf-8")]: each group of three octets
    gives four characters; a last group of one or two octets is filled
    with zero bits and padded with [=]. *)
Fixpoint b64encode (s : bytes) : str :=
  match s with
  | [] => EmptyString
  | [a] =>
      let g := group24 a x00 x00 in
      String (sextet 3 g) (String (sextet 2 g)
        (String pad (String pad EmptyString)))
  | [a; b] =>
      let g := group24 a b x00 in
      String (sextet 3 g) (String (sextet 2 g)
        (String (sextet 1 g) (String pad EmptyString)))
  | a :: b :: c :: rest =>
      let g := group24 a b c in
      String (sextet 3 g) (String (sextet 2 g)
        (String (sextet 1 g) (String (sextet 0 g) (b64encode rest))))
  end.

Definition octet (k : N) (g : N) : option byte :=
  Byte.of_N ((g / 2 ^ (8 * k)) mod 256)%N.

Definition cons_opt {A} (x : option A) (l : option (list A)) : option (list A) :=
  match x, l with
  | Some x, Some l => Some (x :: l)
  | _, _ => None
  end.

(** The decoder of padded base64 text: four characters at a time, the
    padding allowed in the last group only. *)
Fixpoint b64decode (s : str) : option bytes :=
  match s with
  | EmptyString => Some []
  | String c1 (String c2 (String c3 (String c4 rest))) =>
      match dec_char c1, dec_char c2 with
      | Some v1, Some v2 =>
          match dec_char c3, dec_char c4 with
          | Some v3, Some v4 =>
              let g := (v1 * 262144 + v2 * 4096 + v3 * 64 + v4)%N in
              cons_opt (octet 2 g) (cons_opt (octet 1 g)
                (cons_opt (octet 0 g) (b64decode rest)))
          | Some v3, None =>
              let g := (v1 * 262144 + v2 * 4096 + v3 * 64)%N in
              if Ascii.eqb c4 pad && String.eqb rest EmptyString
              then cons_opt (octet 2 g) (cons_opt (octet 1 g) (Some []))
              else None
          | None, _ =>
              let g := (v1 * 262144 + v2 * 4096)%N in
              if Ascii.eqb c3 pad && Ascii.eqb c4 pad
                 && String.eqb rest EmptyString
              then cons_opt (octet 2 g) (Some [])
              else None
          end
      | _, _ => None
      end
  | _ => None
  end.

End PyBase64.

(** ** [dict] with insertion order *)

Module PyDict.

Section Dict.
Context {K V : Type} (eqb : K -> K -> bool).

(** [d[k] = v]: a present key keeps its place and takes the new value, a
    new key goes last. *)
Fixpoint setitem (d : list (K * V)) (k : K) (v : V) : list (K * V) :=
  match d with
  | [] => [(k, v)]
  | (k', v') :: d' =>
      if eqb k' k then (k', v) :: d' else (k', v') :: setitem d' k v
  end.

(** [d.get(k)] *)
Fixpoint get (d : list (K * V)) (k : K) : option V :=
  match d with
  | [] => None
  | (k', v') :: d' => if eqb k' k then Some v' else get d' k
  end.

End Dict.

End PyDict.

(** ** [zipfile.ZipFile] once opened *)

Module PyZip.

(** A member of the archive: its name and what [ZipFile.read] gives for
    it, the octets or the exception of a member that cannot be read. *)
Record ZipInfo : Type := mkZipInfo {
  filename : str;
  content : Exn + bytes
}.

(** The central directory in its order; a name may occur twice. *)
Definition Archive := list ZipInfo.

(** [zip_ref.namelist()] *)
Definition namelist (z : Archive) : list str := map filename z.

(** [zip_ref.read(name)]: the member is found through [NameToInfo], where
    a later member of the same name replaces an earlier one. *)
Definition read (z : Archive) (name : str) : Exn + bytes :=
  match find (fun m => String.eqb (filename m) name) (rev z) with
  | Some m => content m
  | None =>
      inl (KeyError ("There is no item named " ++ PyRepr.repr name
                       ++ " in the archive"))
  end.

End PyZip.

(** ** Messages and envelopes *)

Inductive MessageType : Type :=
| PROGRESS_MESSAGE
| LOAD_SAVE_FILE
| LOAD_ZIP_FILE
| UPDATE_SAVE_FILE
| DOWNLOAD_SAVE_FILE
| GET_PLAYERS
| ERROR.

Definition MessageType_eqb (a b : MessageType) : bool :=
  match a, b with
  | PROGRESS_MESSAGE, PROGRESS_MESSAGE
  | LOAD_SAVE_FILE, LOAD_SAVE_FILE
  | LOAD_ZIP_FILE, LOAD_ZIP_FILE
  | UPDATE_SAVE_FILE, UPDATE_SAVE_FILE
  | DOWNLOAD_SAVE_FILE, DOWNLOAD_SAVE_FILE
  | GET_PLAYERS, GET_PLAYERS
  | ERROR, ERROR => true
  | _, _ => false
  end.

(** A value inside a [dict] of an envelope: text or a number. *)
Inductive Scalar : Type :=
| SStr (s : str)
| SInt (n : Z).

(** The data of an envelope: text, a [dict] with string keys, or what
    [jsonable_encoder] returned. *)
Inductive Payload (J : Type) : Type :=
| PStr (s : str)
| PDict (items : list (str * Scalar))
| PJson (j : J).

Arguments PStr {J} s.
Arguments PDict {J} items.
Arguments PJson {J} j.

Record Envelope (J : Type) : Type := mkEnvelope {
  msg_type : MessageType;
  msg_data : Payload J
}.

Arguments mkEnvelope {J} msg_type msg_data.
Arguments msg_type {J} e.
Arguments msg_data {J} e.

(** Modelled from the spec: [build_response] of [palworld_save_pal.ws.utils]
    is not among the sources; section 4.1 gives the envelope shape
    [{ type: enum, data: payload }], pure data without behaviour. *)
Definition build_response {J} (t : MessageType) (data : Payload J) : Envelope J :=
  mkEnvelope t data.

(** [d[key]] on the [dict] of an envelope *)
Fixpoint dict_item (items : list (str * Scalar)) (key : str) : option Scalar :=
  match items with
  | [] => None
  | (k, v) :: rest => if String.eqb k key then Some v else dict_item rest key
  end.

(** The [UPDATE_SAVE_FILE] request: each of the two patch sequences may be
    absent ([None]) or empty; both are falsy in Python. *)
Record UpdateData (PalPatch PlayerPatch : Type) : Type := mkUpdateData {
  modified_pals : option (list PalPatch);
  modified_players : option (list PlayerPatch)
}.

Arguments mkUpdateData {PalPatch PlayerPatch} modified_pals modified_players.
Arguments modified_pals {PalPatch PlayerPatch} u.
Arguments modified_players {PalPatch PlayerPatch} u.

(** Truth value of an optional sequence: [None] and the empty sequence are
    false. *)
Definition truthy {A} (x : option (list A)) : bool :=
  match x with
  | Some (_ :: _) => true
  | _ => false
  end.

(** ** The collaborators of the handlers *)

(** Everything the handlers call that is not in this file of the sources:
    the save engine behind [app_state.save_file] (a [SaveFile] object with
    [name], [size], [update_pals], [update_players], [get_players] and
    [sav]), the two ingestion operations of the engine, FastAPI's
    [jsonable_encoder] and the parser of [zipfile.ZipFile].  An operation
    that takes the progress callback returns the texts it reported, in
    order; one that can raise returns the exception or the value (reading
    [name] and [size] included, which may be computed); one that mutates
    the [SaveFile] returns the object as it left it, also when it raises. *)
Record Externals : Type := mkExternals {
  SaveFile : Type;
  Players : Type;
  PalPatch : Type;
  PlayerPatch : Type;
  Json : Type;
  sf_name : SaveFile -> Exn + str;
  sf_size : SaveFile -> Exn + Z;
  engine_load : bytes -> list str * (Exn + SaveFile);
  engine_load_bundle :
    str -> bytes -> list (PyUUID.UUID * bytes) -> list str * (Exn + SaveFile);
  update_pals : list PalPatch -> SaveFile -> list str * SaveFile * option Exn;
  update_players :
    list PlayerPatch -> SaveFile -> list str * SaveFile * option Exn;
  get_players : SaveFile -> Exn + Players;
  sav : SaveFile -> Exn + bytes;
  jsonable_encoder : Players -> Exn + Json;
  ZipFile : bytes -> Exn + PyZip.Archive
}.

(** ** The handlers *)

Section Handlers.

Context (E : Externals).

(** [AppState] of [palworld_save_pal.state], as far as the handlers touch
    it: the loaded [SaveFile] object (or [None]) and the player listing. *)
Record AppState : Type := mkAppState {
  save_file : option (SaveFile E);
  players : Players E
}.

(** A call into the save engine, recorded with its arguments. *)
Inductive EngineCall : Type :=
| CallLoad (data : bytes)
| CallLoadBundle (save_id : str) (level_sav : bytes)
    (player_data : list (PyUUID.UUID * bytes))
| CallUpdatePals (patches : list (PalPatch E))
| CallUpdatePlayers (patches : list (PlayerPatch E))
| CallGetPlayers
| CallSav.

(** What a handler acts on: the application state behind
    [get_app_state()], the envelopes written to the websocket so far (the
    connection is taken to stay open: [ws.send_json] always hands the
    envelope over), and the record of the engine calls made so far. *)
Record World : Type := mkWorld {
  app_state : AppState;
  ws : list (Envelope (Json E));
  engine_log : list EngineCall
}.

(** A handler step: it may raise, and the world it leaves is kept in both
    cases, since Python does not undo effects when an exception
    propagates. *)
Definition M (A : Type) : Type := World -> (Exn + A) * World.

Definition ret {A} (x : A) : M A := fun w => (inr x, w).

Definition bind {A B} (m : M A) (k : A -> M B) : M B :=
  fun w =>
    match m w with
    | (inr x, w') => k x w'
    | (inl e, w') => (inl e, w')
    end.

Definition raise {A} (e : Exn) : M A := fun w => (inl e, w).

(** [try: body except Exception as e: handler] *)
Definition try_except {A} (body : M A) (handler : Exn -> M A) : M A :=
  fun w =>
    match body w with
    | (inl e, w') => handler e w'
    | (inr x, w') => (inr x, w')
    end.

(** A computation without effects that may raise. *)
Definition lift {A} (r : Exn + A) : M A := fun w => (r, w).

End Handlers.

Arguments mkAppState {E} save_file players.
Arguments save_file {E} a.
Arguments players {E} a.
Arguments CallLoad {E} data.
Arguments CallLoadBundle {E} save_id level_sav player_data.
Arguments CallUpdatePals {E} patches.
Arguments CallUpdatePlayers {E} patches.
Arguments CallGetPlayers {E}.
Arguments CallSav {E}.
Arguments mkWorld {E} app_state ws engine_log.
Arguments app_state {E} w.
Arguments ws {E} w.
Arguments engine_log {E} w.
Arguments ret {E A} x.
Arguments bind {E A B} m k.
Arguments raise {E A} e.
Arguments try_except {E A} body handler.
Arguments lift {E A} r.

Declare Scope handler_scope.
Delimit Scope handler_scope with handler.

Notation "x <- m ;; k" := (bind m (fun x => k))
  (at level 61, m at next level, right associativity) : handler_scope.
Notation "m ;; k" := (bind m (fun _ => k))
  (at level 61, right associativity) : handler_scope.

Local Open Scope handler_scope.

Section Operations.

Context {E : Externals}.

(** [await ws.send_json(response)] *)
Definition send_json (response : Envelope (Json E)) : M E unit :=
  fun w =>
    (inr tt, mkWorld (app_state w) (ws w ++ [response])%list (engine_log w)).

(** The closure [ws_callback] each handler defines. *)
Definition ws_callback (message : str) : M E unit :=
  send_json (build_response PROGRESS_MESSAGE (PStr message)).

(** The progress texts an engine operation reported through the callback,
    in order. *)
Fixpoint report (messages : list str) : M E unit :=
  match messages with
  | [] => ret tt
  | m :: rest => ws_callback m ;; report rest
  end.

Definition log_call (c : EngineCall E) : M E unit :=
  fun w => (inr tt, mkWorld (app_state w) (ws w) (engine_log w ++ [c])%list).

(** [app_state.save_file] and [app_state.players], read and assigned *)
Definition get_save_file : M E (option (SaveFile E)) :=
  fun w => (inr (save_file (app_state w)), w).

Definition get_players_attr : M E (Players E) :=
  fun w => (inr (players (app_state w)), w).

Definition set_save_file (sf : option (SaveFile E)) : M E unit :=
  fun w =>
    (inr tt,
     mkWorld (mkAppState sf (players (app_state w))) (ws w) (engine_log w)).

Definition set_players (p : Players E) : M E unit :=
  fun w =>
    (inr tt,
     mkWorld (mkAppState (save_file (app_state w)) p) (ws w) (engine_log w)).

(** [app_state.save_file.<attr>]: an [AttributeError] when no save is
    loaded, otherwise what the attribute or the method call gives. *)
Definition with_save_file {A} (attr : str) (k : SaveFile E -> M E A) : M E A :=
  sf <- get_save_file ;;
  match sf with
  | Some s => k s
  | None =>
      raise (AttributeError
               ("'NoneType' object has no attribute '" ++ attr ++ "'"))
  end.

Definition save_file_attr {A} (attr : str) (f : SaveFile E -> Exn + A) : M E A :=
  with_save_file attr (fun s => lift (f s)).

(** A method of the loaded [SaveFile] object that mutates it in place:
    [app_state.save_file] and the handler's local [save_file] name the
    same object, so the object as the method left it is what both see
    afterwards, also when the method raised. *)
Definition save_file_mutate (attr : str) (c : EngineCall E)
  (f : SaveFile E -> list str * SaveFile E * option Exn) : M E unit :=
  with_save_file attr
    (fun s =>
       let '(messages, s', r) := f s in
       log_call c ;;
       report messages ;;
       set_save_file (Some s') ;;
       match r with
       | Some e => raise e
       | None => ret tt
       end).

(** [save_file.get_players()] and [save_file.sav()] *)
Definition save_file_get_players : M E (Players E) :=
  with_save_file "get_players"
    (fun s => log_call CallGetPlayers ;; lift (get_players E s)).

Definition save_file_sav : M E bytes :=
  with_save_file "sav" (fun s => log_call CallSav ;; lift (sav E s)).

End Operations.

Section SaveFileHandler.

Context {E : Externals}.

(** Replace the session: the new [SaveFile] and its listing. *)
Definition replace_session (sf : SaveFile E) (p : Players E) : M E unit :=
  fun w => (inr tt, mkWorld (mkAppState (Some sf) p) (ws w) (engine_log w)).

(** Modelled from the spec: [AppState.process_save_file] of
    [palworld_save_pal.state] is not among the sources.  Section 4.4
    ([load_single]): the octets and the progress callback are forwarded to
    the engine's single-artifact ingestion; on success the Session State is
    replaced wholesale and the entity listing is recomputed from the new
    handle; on any failure the Session State is left unchanged. *)
Definition process_save_file (file_data : bytes) : M E unit :=
  let '(messages, r) := engine_load E file_data in
  log_call (CallLoad file_data) ;;
  report messages ;;
  sf <- lift r ;;
  log_call CallGetPlayers ;;
  p <- lift (get_players E sf) ;;
  replace_session sf p.

(** Modelled from the spec: [AppState.process_save_files] of
    [palworld_save_pal.state] is not among the sources.  Section 4.4
    ([load_bundle]): [(root_id, primary_blob, keyed_blobs, progress)] are
    forwarded to the engine's bundle ingestion, then the session is
    replaced as for [load_single], and left unchanged on any failure. *)
Definition process_save_files (save_id : str) (level_sav_data : bytes)
  (player_data : list (PyUUID.UUID * bytes)) : M E unit :=
  let '(messages, r) := engine_load_bundle E save_id level_sav_data player_data in
  log_call (CallLoadBundle save_id level_sav_data player_data) ;;
  report messages ;;
  sf <- lift r ;;
  log_call CallGetPlayers ;;
  p <- lift (get_players E sf) ;;
  replace_session sf p.

(** [load_save_file_handler], lines 23-52.  [bytes(message.data)] copies
    the octets of the message; the logger and [traceback.print_exc] touch
    neither the application state nor the websocket and are left out. *)
Definition load_save_file_handler (message_data : bytes) : M E unit :=
  try_except
    (let file_data := message_data in
     process_save_file file_data ;;
     name <- save_file_attr "name" (sf_name E) ;;
     size <- save_file_attr "size" (sf_size E) ;;
     let data := PDict [("name", SStr name); ("size", SInt size)] in
     ws_callback
       "File uploaded and processed successfully, results coming right up!" ;;
     send_json (build_response LOAD_SAVE_FILE data) ;;
     p <- get_players_attr ;;
     data <- lift (jsonable_encoder E p) ;;
     send_json (build_response GET_PLAYERS (PJson data)))
    (fun e =>
       send_json
         (build_response ERROR
            (PStr ("Error processing file: " ++ str_of_exn e)))).

(** The sequence behind an optional sequence. *)
Definition seq_of {A} (x : option (list A)) : list A :=
  match x with
  | Some l => l
  | None => []
  end.

(** [update_save_file_handler], lines 55-92.  A loaded [SaveFile] object
    is true in [if not save_file]. *)
Definition update_save_file_handler
  (message_data : UpdateData (PalPatch E) (PlayerPatch E)) : M E unit :=
  try_except
    (let modified_pals :=
       if truthy (modified_pals message_data)
       then modified_pals message_data else None in
     let modified_players :=
       if truthy (modified_players message_data)
       then modified_players message_data else None in
     save_file <- get_save_file ;;
     match save_file with
     | None => raise (ValueError "No save file loaded")
     | Some _ =>
         (if truthy modified_pals
          then save_file_mutate "update_pals"
                 (CallUpdatePals (seq_of modified_pals))
                 (update_pals E (seq_of modified_pals))
          else ret tt) ;;
         (if truthy modified_players
          then save_file_mutate "update_players"
                 (CallUpdatePlayers (seq_of modified_players))
                 (update_players E (seq_of modified_players))
          else ret tt) ;;
         p <- save_file_get_players ;;
         set_players p ;;
         send_json (build_response UPDATE_SAVE_FILE (PStr "Changes saved")) ;;
         p <- get_players_attr ;;
         data <- lift (jsonable_encoder E p) ;;
         send_json (build_response GET_PLAYERS (PJson data))
     end)
    (fun e =>
       send_json
         (build_response ERROR
            (PStr ("Error processing changes: " ++ str_of_exn e)))).

(** [download_save_file_handler], lines 95-126;
    [.decode("utf-8")] of base64 text keeps its characters. *)
Definition download_save_file_handler : M E unit :=
  try_except
    (save_file <- get_save_file ;;
     match save_file with
     | None => raise (ValueError "No save file loaded")
     | Some _ =>
         ws_callback "Compressing GVAS to sav 💪..." ;;
         sav_file <- save_file_sav ;;
         ws_callback
           "Encoding sav file to base64 🤖, get ready here it comes..." ;;
         let encoded_data := PyBase64.b64encode sav_file in
         let data :=
           PDict [("name", SStr "Level.sav"); ("content", SStr encoded_data)] in
         send_json (build_response DOWNLOAD_SAVE_FILE data)
     end)
    (fun e =>
       send_json
         (build_response ERROR
            (PStr ("Error downloading file: " ++ str_of_exn e)))).

End SaveFileHandler.

(** ** The zip bundle: lines 140-165 of [load_zip_file_handler] *)

Module Bundle.

Import PyZip.

(** [file_list is None]: [namelist()] returns a list object, which is
    never [None]. *)
Definition is_None {A} (file_list : list A) : bool := false.

(** [file_list[0]] *)
Definition first_item (file_list : list str) : Exn + str :=
  match file_list with
  | f :: _ => inr f
  | [] => inl (IndexError "list index out of range")
  end.

(** [f"{save_id}/Level.sav"] *)
Definition level_sav_of (save_id : str) : str := save_id ++ "/Level.sav".

(** The condition of the comprehension that selects the player files. *)
Definition is_player_file (save_id : str) (f : str) : bool :=
  PyStr.startswith f (save_id ++ "/Players/") && PyStr.endswith f ".sav".

(** [os.path.splitext(os.path.basename(player_file))[0]] *)
Definition player_id_of (player_file : str) : str :=
  PyStr.splitext_root (PyStr.basename player_file).

(** The loop over [player_files], filling [player_data]. *)
Fixpoint read_players (zip_ref : Archive) (player_files : list str)
  (player_data : list (PyUUID.UUID * bytes))
  : Exn + list (PyUUID.UUID * bytes) :=
  match player_files with
  | [] => inr player_data
  | player_file :: rest =>
      let player_id := player_id_of player_file in
      match PyUUID.UUID_of_str player_id with
      | inl e => inl e
      | inr player_uuid =>
          match read zip_ref player_file with
          | inl e => inl e
          | inr blob =>
              read_players zip_ref rest
                (PyDict.setitem N.eqb player_data player_uuid blob)
          end
      end
  end.

(** What is handed to [process_save_files]. *)
Record t : Type := mk {
  save_id : str;
  level_sav_data : bytes;
  player_data : list (PyUUID.UUID * bytes)
}.

(** Lines 146-165: with [save_id] known, the check for [Level.sav], its
    octets, the player files and their octets. *)
Definition extract_from (save_id : str) (zip_ref : Archive) : Exn + t :=
  let file_list := namelist zip_ref in
  let level_sav := level_sav_of save_id in
  if negb (PyStr.str_in level_sav file_list) then
    inl (ValueError
           ("Zip file does not contain 'Level.sav', available files: "
              ++ PyRepr.repr_list file_list))
  else
    match read zip_ref level_sav with
    | inl e => inl e
    | inr level_sav_data =>
        let player_files := filter (is_player_file save_id) file_list in
        match read_players zip_ref player_files [] with
        | inl e => inl e
        | inr player_data => inr (mk save_id level_sav_data player_data)
        end
    end.

(** The body of the [with] block up to the call of the engine, lines
    141-165. *)
Definition extract (zip_ref : Archive) : Exn + t :=
  let file_list := namelist zip_ref in
  if is_None file_list then inl (ValueError "Zip file is empty")
  else
    match first_item file_list with
    | inl e => inl e
    | inr first =>
        let save_id := PyStr.split_first "/" first in
        extract_from save_id zip_ref
    end.

(** The root identifier of a listing: the first path segment of the first
    listed entry. *)
Definition root_id (zip_ref : Archive) : str :=
  match namelist zip_ref with
  | first :: _ => PyStr.split_first "/" first
  | [] => EmptyString
  end.

(** The player files of an archive, in listing order. *)
Definition player_files (zip_ref : Archive) : list str :=
  filter (is_player_file (root_id zip_ref)) (namelist zip_ref).

End Bundle.

Section ZipFileHandler.

Context {E : Externals}.

(** [load_zip_file_handler], lines 129-198. *)
Definition load_zip_file_handler (message_data : bytes) : M E unit :=
  try_except
    (let zip_data := message_data in
     zip_ref <- lift (ZipFile E zip_data) ;;
     b <- lift (Bundle.extract zip_ref) ;;
     process_save_files (Bundle.save_id b) (Bundle.level_sav_data b)
       (Bundle.player_data b) ;;
     name <- save_file_attr "name" (sf_name E) ;;
     size <- save_file_attr "size" (sf_size E) ;;
     let data := PDict [("name", SStr name); ("size", SInt size)] in
     ws_callback
       "Zip file uploaded and processed successfully, results coming right up!" ;;
     send_json (build_response LOAD_ZIP_FILE data) ;;
     p <- get_players_attr ;;
     data <- lift (jsonable_encoder E p) ;;
     send_json (build_response GET_PLAYERS (PJson data)))
    (fun e =>
       send_json
         (build_response ERROR
            (PStr ("Error processing zip file: " ++ str_of_exn e)))).

(** The four inbound messages and their handlers. *)
Inductive Inbound : Type :=
| LoadSaveFileMessage (data : bytes)
| LoadZipFileMessage (data : bytes)
| UpdateSaveFileMessage (data : UpdateData (PalPatch E) (PlayerPatch E))
| DownloadSaveFileMessage.

Definition handle (m : Inbound) : M E unit :=
  match m with
  | LoadSaveFileMessage data => load_save_file_handler data
  | LoadZipFileMessage data => load_zip_file_handler data
  | UpdateSaveFileMessage data => update_save_file_handler data
  | DownloadSaveFileMessage => download_save_file_handler
  end.

(** The success envelope that ends the handling of a message. *)
Definition success_type (m : Inbound) : MessageType :=
  match m with
  | LoadSaveFileMessage _ => LOAD_SAVE_FILE
  | LoadZipFileMessage _ => LOAD_ZIP_FILE
  | UpdateSaveFileMessage _ => UPDATE_SAVE_FILE
  | DownloadSaveFileMessage => DOWNLOAD_SAVE_FILE
  end.

End ZipFileHandler.

Arguments Inbound E : clear implicits.

(** ** What a run of a handler shows *)

Section Observations.

Context {E : Externals}.

Definition progress (m : str) : Envelope (Json E) :=
  build_response PROGRESS_MESSAGE (PStr m).

(** The [ERROR] envelope of an [except] clause. *)
Definition error_envelope (prefix : str) (e : Exn) : Envelope (Json E) :=
  build_response ERROR (PStr (prefix ++ str_of_exn e)).

(** The envelopes a step writes when started in [w], the engine calls it
    makes, the application state it leaves and the exception that leaves
    it, if any. *)
Definition emitted {A} (m : M E A) (w : World E) : list (Envelope (Json E)) :=
  skipn (length (ws w)) (ws (snd (m w))).

Definition calls {A} (m : M E A) (w : World E) : list (EngineCall E) :=
  skipn (length (engine_log w)) (engine_log (snd (m w))).

Definition state_after {A} (m : M E A) (w : World E) : AppState E :=
  app_state (snd (m w)).

Definition escaped {A} (m : M E A) (w : World E) : option Exn :=
  match fst (m w) with
  | inl e => Some e
  | inr _ => None
  end.

(** How many envelopes of type [t] a sequence holds. *)
Definition count_type (t : MessageType) (out : list (Envelope (Json E))) : nat :=
  length (filter (fun e => MessageType_eqb (msg_type e) t) out).

(** A world started from [w] with more envelopes and more calls. *)
Definition extend (st : AppState E) (out : list (Envelope (Json E)))
  (cl : list (EngineCall E)) (w : World E) : World E :=
  mkWorld st (ws w ++ out)%list (engine_log w ++ cl)%list.

(** The [{name, size}] summary of a save, or the exception of the first
    of the two that cannot be read. *)
Definition summary (sf : SaveFile E) : Exn + Payload (Json E) :=
  match sf_name E sf with
  | inl e => inl e
  | inr name =>
      match sf_size E sf with
      | inl e => inl e
      | inr size => inr (PDict [("name", SStr name); ("size", SInt size)])
      end
  end.

(** What follows a successful [process_save_file] or
    [process_save_files]: the [ERROR] of a summary that cannot be read, or
    the progress text [done] and the summary under the handler's success
    type [t], then the listing, or the [ERROR] of an encoder that raised. *)
Definition after_load (t : MessageType) (done prefix : str)
  (sf : SaveFile E) (p : Players E) : list (Envelope (Json E)) :=
  match summary sf with
  | inl e => [error_envelope prefix e]
  | inr data =>
      [progress done; build_response t data] ++
      match jsonable_encoder E p with
      | inl e => [error_envelope prefix e]
      | inr j => [build_response GET_PLAYERS (PJson j)]
      end
  end.

(** The world a load leaves: [res] is what the engine's ingestion gave,
    [call] the record of that call. *)
Definition loaded (call : EngineCall E) (res : list str * (Exn + SaveFile E))
  (t : MessageType) (done prefix : str) (w : World E) : World E :=
  match snd res with
  | inl e =>
      extend (app_state w)
        (map progress (fst res) ++ [error_envelope prefix e]) [call] w
  | inr sf =>
      match get_players E sf with
      | inl e =>
          extend (app_state w)
            (map progress (fst res) ++ [error_envelope prefix e])
            [call; CallGetPlayers] w
      | inr p =>
          extend (mkAppState (Some sf) p)
            (map progress (fst res) ++ after_load t done prefix sf p)
            [call; CallGetPlayers] w
      end
  end.

(** A patch application that happens only for a non-empty sequence. *)
Definition apply_if {P} (patches : option (list P))
  (f : list P -> SaveFile E -> list str * SaveFile E * option Exn)
  (sf : SaveFile E) : list str * SaveFile E * option Exn :=
  if truthy patches then f (seq_of patches) sf else ([], sf, None).

Definition call_if {P} (patches : option (list P))
  (c : list P -> EngineCall E) : list (EngineCall E) :=
  if truthy patches then [c (seq_of patches)] else [].

(** The acknowledgement and the listing that end a successful update. *)
Definition after_update (p : Players E) : list (Envelope (Json E)) :=
  build_response UPDATE_SAVE_FILE (PStr "Changes saved") ::
  match jsonable_encoder E p with
  | inl e => [error_envelope "Error processing changes: " e]
  | inr j => [build_response GET_PLAYERS (PJson j)]
  end.

(** The world an update of the loaded save [sf] leaves. *)
Definition updated (d : UpdateData (PalPatch E) (PlayerPatch E))
  (sf : SaveFile E) (w : World E) : World E :=
  let err := error_envelope "Error processing changes: " in
  let p0 := players (app_state w) in
  let '(m1, sf1, r1) := apply_if (modified_pals d) (update_pals E) sf in
  let c1 := call_if (modified_pals d) CallUpdatePals in
  match r1 with
  | Some e => extend (mkAppState (Some sf1) p0) (map progress m1 ++ [err e]) c1 w
  | None =>
      let '(m2, sf2, r2) :=
        apply_if (modified_players d) (update_players E) sf1 in
      let c2 := call_if (modified_players d) CallUpdatePlayers in
      let ms := (map progress m1 ++ map progress m2)%list in
      match r2 with
      | Some e => extend (mkAppState (Some sf2) p0) (ms ++ [err e]) (c1 ++ c2) w
      | None =>
          match get_players E sf2 with
          | inl e =>
              extend (mkAppState (Some sf2) p0) (ms ++ [err e])
                (c1 ++ c2 ++ [CallGetPlayers]) w
          | inr p =>
              extend (mkAppState (Some sf2) p) (ms ++ after_update p)
                (c1 ++ c2 ++ [CallGetPlayers]) w
          end
      end
  end.

(** The world a download of the loaded save [sf] leaves. *)
Definition downloaded (sf : SaveFile E) (w : World E) : World E :=
  match sav E sf with
  | inl e =>
      extend (app_state w)
        [progress "Compressing GVAS to sav 💪...";
         error_envelope "Error downloading file: " e] [CallSav] w
  | inr sav_file =>
      extend (app_state w)
        [progress "Compressing GVAS to sav 💪...";
         progress "Encoding sav file to base64 🤖, get ready here it comes...";
         build_response DOWNLOAD_SAVE_FILE
           (PDict [("name", SStr "Level.sav");
                   ("content", SStr (PyBase64.b64encode sav_file))])]
        [CallSav] w
  end.

(** The world a request leaves that was turned down with [e] before any
    engine call. *)
Definition rejected (prefix : str) (e : Exn) (w : World E) : World E :=
  extend (app_state w) [error_envelope prefix e] [] w.

(** The world a request leaves when no save is loaded. *)
Definition refused (prefix : str) (w : World E) : World E :=
  rejected prefix (ValueError "No save file loaded") w.

End Observations.

(** ** Notions of the specification *)

Section Notions.

Context (E : Externals).

(** The save engine is lossless: serializing what was ingested from [x]
    gives [x] back. *)
Definition lossless : Prop :=
  forall (x : bytes) (sf : SaveFile E),
    snd (engine_load E x) = inr sf -> sav E sf = inr x.

(** [x] is a valid single save artifact: the engine ingests it and the
    listing of the new save can be computed. *)
Definition valid_artifact (x : bytes) : Prop :=
  exists (sf : SaveFile E) (p : Players E),
    snd (engine_load E x) = inr sf /\ get_players E sf = inr p.

(** Loading [data] fails with [e] inside [process_save_file]: at the
    engine ingestion or at the computation of the listing. *)
Definition ingestion_fails (data : bytes) (e : Exn) : Prop :=
  snd (engine_load E data) = inl e \/
  exists sf : SaveFile E,
    snd (engine_load E data) = inr sf /\ get_players E sf = inl e.

(** The envelopes that end the handling of [m]: its success type and
    [ERROR], in the order they were written. *)
Definition terminals (m : Inbound E) (out : list (Envelope (Json E)))
  : list MessageType :=
  filter (fun t => MessageType_eqb t (success_type m) || MessageType_eqb t ERROR)
    (map msg_type out).

(** The ways the terminal envelopes of [m] can look, given the state [st]
    and the envelopes [out] its handling left: the success envelope alone,
    [ERROR] alone, or the success envelope and then [ERROR] because the
    encoder raised on the listing. *)
Definition ends_well (m : Inbound E) (st : AppState E)
  (out : list (Envelope (Json E))) : Prop :=
  terminals m out = [success_type m] \/
  terminals m out = [ERROR] \/
  (terminals m out = [success_type m; ERROR] /\
   m <> DownloadSaveFileMessage /\
   exists e : Exn, jsonable_encoder E (players st) = inl e).

(** A request failed when its handling wrote an [ERROR] envelope. *)
Definition failed {A} (h : M E A) (w : World E) : Prop :=
  1 <= count_type ERROR (emitted h w).

(** Section 4.4 on a failed [load_single]: the Session State is as before,
    one [ERROR] envelope, no success-class envelope. *)
Definition failed_load_is_clean (data : bytes) (w : World E) : Prop :=
  failed (load_save_file_handler data) w ->
  state_after (load_save_file_handler data) w = app_state w /\
  count_type ERROR (emitted (load_save_file_handler data) w) = 1 /\
  count_type LOAD_SAVE_FILE (emitted (load_save_file_handler data) w) = 0 /\
  count_type GET_PLAYERS (emitted (load_save_file_handler data) w) = 0.

(** Section 4.1: exactly one terminal envelope for an inbound message, and
    no exception leaves the handler. *)
Definition one_terminal (m : Inbound E) (w : World E) : Prop :=
  escaped (handle m) w = None /\
  length (terminals m (emitted (handle m) w)) = 1.

(** An update of the loaded save [sf] fails with [e] before the listing
    is reassigned, at the first or the second patch application or at the
    recomputation of the listing, and leaves the save object [sf']. *)
Definition update_fails (d : UpdateData (PalPatch E) (PlayerPatch E))
  (sf : SaveFile E) (e : Exn) (sf' : SaveFile E) : Prop :=
  let r1 := apply_if (modified_pals d) (update_pals E) sf in
  let sf1 := snd (fst r1) in
  let r2 := apply_if (modified_players d) (update_players E) sf1 in
  let sf2 := snd (fst r2) in
  (snd r1 = Some e /\ sf' = sf1) \/
  (snd r1 = None /\ snd r2 = Some e /\ sf' = sf2) \/
  (snd r1 = None /\ snd r2 = None /\ get_players E sf2 = inl e /\ sf' = sf2).

End Notions.

Arguments terminals {E} m out.
Arguments ends_well {E} m st out.
Arguments failed {E A} h w.

(** [needle] occurs in [hay]. *)
Definition occurs_in (needle hay : str) : Prop :=
  exists a b : str, hay = a ++ needle ++ b.

(** [needle in hay] *)
Fixpoint contains (hay needle : str) : bool :=
  String.prefix needle hay ||
  match hay with
  | EmptyString => false
  | String _ rest => contains rest needle
  end.

(** Section 8 on a non-empty bundle without [<root_id>/Level.sav]: the
    ingestion fails and the text of the error names the missing entry
    [<root_id>/Level.sav]. *)
Definition names_missing_entry (zip_ref : PyZip.Archive) : Prop :=
  zip_ref <> [] ->
  PyStr.str_in (Bundle.level_sav_of (Bundle.root_id zip_ref))
    (PyZip.namelist zip_ref) = false ->
  exists e : Exn,
    Bundle.extract zip_ref = inl e /\
    occurs_in (Bundle.level_sav_of (Bundle.root_id zip_ref)) (str_of_exn e).

(** An entry [m] that is neither [<root_id>/Level.sav] nor a player file
    never causes the bundle to be rejected: the bundle that is accepted
    without the entry is accepted with it, wherever the entry is listed. *)
Definition never_rejects (pre post : PyZip.Archive) (m : PyZip.ZipInfo) : Prop :=
  let z := (pre ++ m :: post)%list in
  PyZip.filename m <> Bundle.level_sav_of (Bundle.root_id z) ->
  Bundle.is_player_file (Bundle.root_id z) (PyZip.filename m) = false ->
  forall b : Bundle.t,
    Bundle.extract (pre ++ post)%list = inr b -> Bundle.extract z = inr b.

(** ** A stub of the collaborators *)

Module Stub.

(** A save object is the octets it was loaded from, followed by the
    patches applied to it; a patch is one octet and the patch [x00] is
    rejected after the object has taken the whole set; the listing is the
    number of octets.  [encodes] tells whether [jsonable_encoder] accepts
    the listing, [zip] is the archive parser. *)
Definition apply_patches (ps : bytes) (s : bytes)
  : list str * bytes * option Exn :=
  (["patching"], (s ++ ps)%list,
   if existsb (Byte.eqb Byte.x00) ps then Some (Raised "bad patch") else None).

Definition externals (encodes : bool) (zip : bytes -> Exn + PyZip.Archive)
  : Externals :=
  {| SaveFile := bytes;
     Players := nat;
     PalPatch := byte;
     PlayerPatch := byte;
     Json := nat;
     sf_name := fun _ => inr "Level.sav";
     sf_size := fun s => inr (Z.of_nat (length s));
     engine_load := fun data =>
       (["loading"],
        match data with
        | [] => inl (Raised "not a save")
        | _ => inr data
        end);
     engine_load_bundle := fun _ level _ => (["loading bundle"], inr level);
     update_pals := apply_patches;
     update_players := apply_patches;
     get_players := fun s => inr (length s);
     sav := fun s => inr s;
     jsonable_encoder := fun p =>
       if encodes then inr p else inl (Raised "not serializable");
     ZipFile := zip |}.

(** A parser that knows one archive. *)
Definition opens (z : PyZip.Archive) : bytes -> Exn + PyZip.Archive :=
  fun _ => inr z.

(** The stub with a working encoder and an empty archive. *)
Definition plain : Externals := externals true (opens []).

(** The stub whose encoder raises on every listing. *)
Definition failing_encoder : Externals := externals false (opens []).

(** A session with the save [sf] and the listing [p], nothing sent. *)
Definition session (E : Externals) (sf : SaveFile E) (p : Players E) : World E :=
  mkWorld (mkAppState (Some sf) p) [] [].

(** The archive of the scenario of section 8 without [Level.sav]. *)
Definition no_level : PyZip.Archive :=
  [PyZip.mkZipInfo "S1/Players/bogus.sav" (inr [Byte.x01])].

(** A bundle with a good player file and one whose name is no UUID. *)
Definition bad_player : PyZip.Archive :=
  [PyZip.mkZipInfo "S1/Level.sav" (inr [Byte.x2a]);
   PyZip.mkZipInfo "S1/Players/11111111-1111-1111-1111-111111111111.sav"
     (inr [Byte.x01]);
   PyZip.mkZipInfo "S1/Players/bogus.sav" (inr [Byte.x02])].

(** A bundle with an entry that cannot be read and is neither
    [Level.sav] nor a player file. *)
Definition level_entry : PyZip.ZipInfo :=
  PyZip.mkZipInfo "S1/Level.sav" (inr [Byte.x2a]).

Definition player_entry : PyZip.ZipInfo :=
  PyZip.mkZipInfo "S1/Players/11111111-1111-1111-1111-111111111111.sav"
    (inr [Byte.x01]).

Definition unread_entry : PyZip.ZipInfo :=
  PyZip.mkZipInfo "S1/Players/notes.txt" (inl (Raised "Bad CRC-32")).

Definition mixed : PyZip.Archive := [level_entry; unread_entry; player_entry].

(** An entry under another first path segment, as the archiver of macOS
    adds them for resource forks. *)
Definition foreign_entry : PyZip.ZipInfo :=
  PyZip.mkZipInfo "__MACOSX/._S1" (inr [Byte.x00]).

(** A bundle with two player files of one UUID, in upper and in lower
    case. *)
Definition upper_name : str :=
  "S1/Players/AAAAAAAA-1111-1111-1111-11111111111F.sav".

Definition lower_name : str :=
  "S1/Players/aaaaaaaa-1111-1111-1111-11111111111f.sav".

Definition twice_uuid : PyUUID.UUID := 0xAAAAAAAA11111111111111111111111F%N.

Definition twice : PyZip.Archive :=
  [level_entry;
   PyZip.mkZipInfo upper_name (inr [Byte.x01]);
   PyZip.mkZipInfo lower_name (inr [Byte.x02])].

(** An update whose only patch is the rejected one. *)
Definition bad_update : UpdateData (PalPatch plain) (PlayerPatch plain) :=
  mkUpdateData (Some [Byte.x00]) None.

(** No session yet. *)
Definition fresh (E : Externals) (p : Players E) : World E :=
  mkWorld (mkAppState None p) [] [].

End Stub.

(** ** The shape of what a handler writes *)

Section Shapes.

Context {E : Externals}.

(** The text a handler puts before [str(e)] in its [ERROR] envelope. *)
Definition error_prefix (m : Inbound E) : str :=
  match m with
  | LoadSaveFileMessage _ => "Error processing file: "
  | LoadZipFileMessage _ => "Error processing zip file: "
  | UpdateSaveFileMessage _ => "Error processing changes: "
  | DownloadSaveFileMessage => "Error downloading file: "
  end.

(** The envelopes a handler writes after its progress envelopes: the
    [ERROR] of its [except] clause alone; or its success envelope followed
    by the listing or by that [ERROR]; or, for the download, the file. *)
Inductive ending (m : Inbound E) : list (Envelope (Json E)) -> Prop :=
| ending_error (e : Exn) :
    ending m [error_envelope (error_prefix m) e]
| ending_listing (d : Payload (Json E)) (j : Json E) :
    m <> DownloadSaveFileMessage ->
    ending m [build_response (success_type m) d;
              build_response GET_PLAYERS (PJson j)]
| ending_late_error (d : Payload (Json E)) (e : Exn) :
    m <> DownloadSaveFileMessage ->
    ending m [build_response (success_type m) d;
              error_envelope (error_prefix m) e]
| ending_file (d : Payload (Json E)) :
    m = DownloadSaveFileMessage ->
    ending m [build_response DOWNLOAD_SAVE_FILE d].

(** The type of the last envelope of a sequence. *)
Definition last_type (out : list (Envelope (Json E))) : option MessageType :=
  match rev out with
  | e :: _ => Some (msg_type e)
  | [] => None
  end.

End Shapes.

(** ** More stubs *)

Module Stub2.

(** The stub whose [sav()] raises. *)
Definition unsavable : Externals :=
  {| SaveFile := bytes;
     Players := nat;
     PalPatch := byte;
     PlayerPatch := byte;
     Json := nat;
     sf_name := fun _ => inr "Level.sav";
     sf_size := fun s => inr (Z.of_nat (length s));
     engine_load := fun data => (["loading"], inr data);
     engine_load_bundle := fun _ level _ => (["loading bundle"], inr level);
     update_pals := Stub.apply_patches;
     update_players := Stub.apply_patches;
     get_players := fun s => inr (length s);
     sav := fun _ => inl (Raised "cannot compress");
     jsonable_encoder := fun p => inr p;
     ZipFile := fun _ => inl (Raised "File is not a zip file") |}.

(** Updates of the plain stub: none, pals and players, a rejected pal
    patch before a player patch. *)
Definition no_patches
  : UpdateData (PalPatch Stub.plain) (PlayerPatch Stub.plain) :=
  mkUpdateData (Some []) None.

Definition both_patches
  : UpdateData (PalPatch Stub.plain) (PlayerPatch Stub.plain) :=
  mkUpdateData (Some [Byte.x01]) (Some [Byte.x02]).

Definition bad_pals_then_players
  : UpdateData (PalPatch Stub.plain) (PlayerPatch Stub.plain) :=
  mkUpdateData (Some [Byte.x00]) (Some [Byte.x02]).

End Stub2.

(** ** More on listings *)

(** No name of the listing has a [/]: all entries lie at the top level. *)
Definition flat_listing (zip_ref : PyZip.Archive) : bool :=
  forallb (fun f => negb (PyStr.has_char "/" f)) (PyZip.namelist zip_ref).

(** The UUID of a player file, when its name carries one. *)
Definition uuid_of_file (player_file : str) : option PyUUID.UUID :=
  match PyUUID.UUID_of_str (Bundle.player_id_of player_file) with
  | inr u => Some u
  | inl _ => None
  end.

(** A player file and the entry of [player_data] made from it. *)
Definition keyed_from (zip_ref : PyZip.Archive) (player_file : str)
  (entry : PyUUID.UUID * bytes) : Prop :=
  PyUUID.UUID_of_str (Bundle.player_id_of player_file) = inr (fst entry) /\
  PyZip.read zip_ref player_file = inr (snd entry).

(** The text has only characters of the base64 alphabet and [=]. *)
Fixpoint base64_text (s : str) : bool :=
  match s with
  | EmptyString => true
  | String c r =>
      (match PyBase64.dec_char c with
       | Some _ => true
       | None => Ascii.eqb c PyBase64.pad
       end) && base64_text r
  end.

Module Stub3.

(** An archive with all entries at the top level. *)
Definition flat : PyZip.Archive :=
  [PyZip.mkZipInfo "Level.sav" (inr [Byte.x2a]);
   PyZip.mkZipInfo "11111111-1111-1111-1111-111111111111.sav" (inr [Byte.x01])].

(** A bundle with two player files of different UUIDs. *)
Definition second_name : str :=
  "S1/Players/22222222-2222-2222-2222-222222222222.sav".

Definition two_players : PyZip.Archive :=
  [Stub.level_entry;
   PyZip.mkZipInfo second_name (inr [Byte.x02]);
   Stub.player_entry].

(** The stub whose parser gives the bundle with two player files. *)
Definition reads_two : Externals :=
  Stub.externals true (Stub.opens two_players).

(** The player data of that bundle. *)
Definition two_keys : list (PyUUID.UUID * bytes) :=
  [(0x22222222222222222222222222222222%N, [Byte.x02]);
   (0x11111111111111111111111111111111%N, [Byte.x01])].

End Stub3.


(** * The runs of the handlers *)

(** ** Runs of the handler steps *)

Section RunFacts.

Context {E : Externals}.
Implicit Types (w : World E) (st : AppState E)
  (out : list (Envelope (Json E))) (cl : list (EngineCall E)).

Lemma extend_nil w : extend (app_state w) [] [] w = w.
Proof. destruct w; unfold extend; simpl; now rewrite !app_nil_r. Qed.

Lemma skipn_length_app {A} (l l' : list A) : skipn (length l) (l ++ l')%list = l'.
Proof. induction l as [|a l IH]; simpl; auto. Qed.

(** A step that ends in [extend st out cl w] wrote [out], made the calls
    [cl] and left the state [st]. *)
Lemma observe {A} (m : M E A) w (r : Exn + A) st out cl :
  m w = (r, extend st out cl w) ->
  emitted m w = out /\ calls m w = cl /\ state_after m w = st /\
  escaped m w = match r with inl e => Some e | inr _ => None end.
Proof.
  intros H. unfold emitted, calls, state_after, escaped. rewrite H.
  unfold extend; simpl. now rewrite !skipn_length_app.
Qed.

Lemma report_run (msgs : list str) w :
  report msgs w = (inr tt, extend (app_state w) (map progress msgs) [] w).
Proof.
  revert w. induction msgs as [|m msgs IH]; intros w.
  - now rewrite extend_nil.
  - simpl. unfold bind, ws_callback, send_json. simpl. rewrite IH.
    unfold extend. simpl. now rewrite <- !app_assoc.
Qed.

Lemma count_type_app t out out' :
  count_type t (out ++ out')%list = count_type t out + count_type t out'.
Proof. unfold count_type. now rewrite filter_app, length_app. Qed.

Lemma count_type_progress t (msgs : list str) :
  t <> PROGRESS_MESSAGE -> count_type t (map (@progress E) msgs) = 0.
Proof.
  intros Ht. induction msgs as [|m msgs IH]; [reflexivity|].
  unfold count_type in *. simpl. destruct t; try contradiction; simpl; exact IH.
Qed.

Lemma terminals_app (m : Inbound E) out out' :
  terminals m (out ++ out')%list = (terminals m out ++ terminals m out')%list.
Proof. unfold terminals. now rewrite map_app, filter_app. Qed.

Lemma terminals_progress (m : Inbound E) (msgs : list str) :
  terminals m (map progress msgs) = [].
Proof.
  induction msgs as [|x msgs IH]; [reflexivity|].
  unfold terminals in *. simpl. destruct m; simpl; exact IH.
Qed.

End RunFacts.

(** Unfold the steps of a handler started in a world given by its three
    components; [report] is kept and rewritten by its equation. *)
Ltac unfold_run :=
  cbv beta iota zeta delta
    [bind try_except ret raise lift send_json ws_callback log_call
     get_save_file get_players_attr set_save_file set_players save_file_attr
     with_save_file
     save_file_mutate save_file_get_players save_file_sav replace_session
     process_save_file process_save_files extend fst snd app_state ws
     engine_log save_file players handle truthy seq_of modified_pals
     modified_players
     load_save_file_handler update_save_file_handler
     download_save_file_handler load_zip_file_handler].

Ltac run := repeat (unfold_run; rewrite ?report_run).

Ltac tidy := rewrite <- ?app_assoc; cbn [app].

(** Case analysis on what the collaborators return along a run. *)
Ltac crunch :=
  repeat (run;
          match goal with
          | |- context [update_pals ?E ?l ?s] =>
              destruct (update_pals E l s) as [[? ?] [?|]]
          | |- context [update_players ?E ?l ?s] =>
              destruct (update_players E l s) as [[? ?] [?|]]
          | |- context [get_players ?E ?s] =>
              destruct (get_players E s) as [?|?]
          | |- context [jsonable_encoder ?E ?p] =>
              destruct (jsonable_encoder E p) as [?|?]
          | |- context [sav ?E ?s] =>
              destruct (sav E s) as [?|?]
          | |- context [sf_name ?E ?s] =>
              destruct (sf_name E s) as [?|?]
          | |- context [sf_size ?E ?s] =>
              destruct (sf_size E s) as [?|?]
          end);
  run; cbn [map]; tidy; rewrite ?app_nil_r.

Section HandlerRuns.

Context {E : Externals}.
Implicit Types (w : World E) (st : AppState E).

Lemma load_save_file_handler_run (data : bytes) w :
  load_save_file_handler data w =
  (inr tt,
   loaded (CallLoad data) (engine_load E data) LOAD_SAVE_FILE
     "File uploaded and processed successfully, results coming right up!"
     "Error processing file: " w).
Proof.
  destruct w as [st0 out0 log0]. unfold loaded, after_load, summary.
  destruct (engine_load E data) as [msgs [e|sf]] eqn:He.
  - run. rewrite ?Hz, ?Hb, He. run. tidy. reflexivity.
  - run. rewrite ?Hz, ?Hb, He. crunch; reflexivity.
Qed.

Lemma download_save_file_handler_run w :
  download_save_file_handler w =
  (inr tt,
   match save_file (app_state w) with
   | None => refused "Error downloading file: " w
   | Some sf => downloaded sf w
   end).
Proof.
  destruct w as [[[sf|] p0] out0 log0]; unfold downloaded, refused, rejected.
  - run. destruct (sav E sf) as [e|b]; run; tidy; rewrite ?app_nil_r; reflexivity.
  - run. now rewrite app_nil_r.
Qed.

Lemma update_save_file_handler_run
  (d : UpdateData (PalPatch E) (PlayerPatch E)) w :
  update_save_file_handler d w =
  (inr tt,
   match save_file (app_state w) with
   | None => refused "Error processing changes: " w
   | Some sf => updated d sf w
   end).
Proof.
  destruct w as [[[sf|] p0] out0 log0]; unfold updated, refused, rejected.
  2: { run. now rewrite app_nil_r. }
  destruct d as [mp mpl]. unfold apply_if, call_if, after_update.
  cbn [modified_pals modified_players].
  destruct mp as [[|a l]|], mpl as [[|b l']|]; cbn [truthy seq_of];
    crunch; reflexivity.
Qed.

Lemma load_zip_file_handler_run (data : bytes) w :
  load_zip_file_handler data w =
  (inr tt,
   match ZipFile E data with
   | inl e => rejected "Error processing zip file: " e w
   | inr zip_ref =>
       match Bundle.extract zip_ref with
       | inl e => rejected "Error processing zip file: " e w
       | inr b =>
           loaded
             (CallLoadBundle (Bundle.save_id b) (Bundle.level_sav_data b)
                (Bundle.player_data b))
             (engine_load_bundle E (Bundle.save_id b)
                (Bundle.level_sav_data b) (Bundle.player_data b))
             LOAD_ZIP_FILE
             "Zip file uploaded and processed successfully, results coming right up!"
             "Error processing zip file: " w
       end
   end).
Proof.
  destruct w as [st0 out0 log0]. unfold loaded, after_load, summary, rejected.
  destruct (ZipFile E data) as [e|z] eqn:Hz;
    [run; rewrite Hz; now rewrite app_nil_r|].
  destruct (Bundle.extract z) as [e|b] eqn:Hb;
    [run; rewrite Hz, Hb; now rewrite app_nil_r|].
  destruct (engine_load_bundle E (Bundle.save_id b) (Bundle.level_sav_data b)
              (Bundle.player_data b)) as [msgs [e|sf]] eqn:He.
  - run. rewrite ?Hz, ?Hb, He. run. tidy. reflexivity.
  - run. rewrite ?Hz, ?Hb, He. crunch; reflexivity.
Qed.

End HandlerRuns.

(** ** Base64 *)

Module Base64Facts.

Import PyBase64.

Lemma list_ind3 {A} (P : list A -> Prop) :
  P [] -> (forall a, P [a]) -> (forall a b, P [a; b]) ->
  (forall a b c l, P l -> P (a :: b :: c :: l)) -> forall l, P l.
Proof.
  intros H0 H1 H2 H3. fix IH 1.
  intros [|a [|b [|c l]]]; [apply H0 | apply H1 | apply H2 | apply H3, IH].
Qed.

Lemma sextets_In (i : N) : (i < 64)%N -> In i (map N.of_nat (seq 0 64)).
Proof.
  intros H. apply in_map_iff. exists (N.to_nat i). split.
  - apply N2Nat.id.
  - apply in_seq. lia.
Qed.

(** Decoding a character of the alphabet gives its index back. *)
Lemma dec_enc_char (i : N) : (i < 64)%N -> dec_char (enc_char i) = Some i.
Proof.
  intros H.
  assert (Hall : forallb (fun i => match dec_char (enc_char i) with
                                   | Some j => N.eqb i j
                                   | None => false
                                   end) (map N.of_nat (seq 0 64)) = true)
    by (vm_compute; reflexivity).
  rewrite forallb_forall in Hall. specialize (Hall i (sextets_In i H)).
  destruct (dec_char (enc_char i)); [|discriminate].
  apply N.eqb_eq in Hall. now subst.
Qed.

Lemma dec_sextet k g : dec_char (sextet k g) = Some ((g / 2 ^ (6 * k)) mod 64)%N.
Proof. unfold sextet. apply dec_enc_char. apply N.mod_lt. discriminate. Qed.

Lemma dec_pad : dec_char pad = None.
Proof. reflexivity. Qed.

Lemma octet_spec k g (b : byte) :
  ((g / 2 ^ (8 * k)) mod 256 = Byte.to_N b)%N -> octet k g = Some b.
Proof. intros H. unfold octet. rewrite H. apply Byte.of_to_N. Qed.

Lemma to_N_lt (b : byte) : (Byte.to_N b < 256)%N.
Proof. pose proof (Byte.to_N_bounded b). lia. Qed.

Ltac pow2 :=
  change (2 ^ (6 * 3))%N with 262144%N in *;
  change (2 ^ (6 * 2))%N with 4096%N in *;
  change (2 ^ (6 * 1))%N with 64%N in *;
  change (2 ^ (6 * 0))%N with 1%N in *;
  change (2 ^ (8 * 2))%N with 65536%N in *;
  change (2 ^ (8 * 1))%N with 256%N in *;
  change (2 ^ (8 * 0))%N with 1%N in *.

Ltac euclid := zify; Z.to_euclidean_division_equations; lia.

(** The four sextets of a 24-bit group put it together again. *)
Lemma regroup (g : N) :
  (g < 16777216)%N ->
  ((g / 2 ^ (6 * 3)) mod 64 * 262144 + (g / 2 ^ (6 * 2)) mod 64 * 4096
   + (g / 2 ^ (6 * 1)) mod 64 * 64 + (g / 2 ^ (6 * 0)) mod 64 = g)%N.
Proof. intros H. pow2. euclid. Qed.

Lemma regroup2 (g : N) :
  (g < 16777216)%N -> (g mod 256 = 0)%N ->
  ((g / 2 ^ (6 * 3)) mod 64 * 262144 + (g / 2 ^ (6 * 2)) mod 64 * 4096
   + (g / 2 ^ (6 * 1)) mod 64 * 64 = g)%N.
Proof. intros H H0. pow2. euclid. Qed.

Lemma regroup1 (g : N) :
  (g < 16777216)%N -> (g mod 65536 = 0)%N ->
  ((g / 2 ^ (6 * 3)) mod 64 * 262144 + (g / 2 ^ (6 * 2)) mod 64 * 4096 = g)%N.
Proof. intros H H0. pow2. euclid. Qed.

Lemma group24_lt a b c : (group24 a b c < 16777216)%N.
Proof.
  unfold group24. pose proof (to_N_lt a). pose proof (to_N_lt b).
  pose proof (to_N_lt c). lia.
Qed.

Lemma octets_of_group a b c :
  octet 2 (group24 a b c) = Some a /\ octet 1 (group24 a b c) = Some b /\
  octet 0 (group24 a b c) = Some c.
Proof.
  pose proof (to_N_lt a). pose proof (to_N_lt b). pose proof (to_N_lt c).
  repeat split; apply octet_spec; unfold group24; pow2; euclid.
Qed.

(** Decoding undoes [b64encode]. *)
Theorem b64decode_b64encode (s : bytes) : b64decode (b64encode s) = Some s.
Proof.
  induction s as [|a|a b|a b c s IH] using list_ind3.
  - reflexivity.
  - cbn [b64encode b64decode]. rewrite !dec_sextet, dec_pad.
    cbn [Ascii.eqb]. 
    rewrite regroup1.
    + destruct (octets_of_group a x00 x00) as [Ha _]. rewrite Ha. reflexivity.
    + apply group24_lt.
    + unfold group24. change (Byte.to_N x00) with 0%N.
      pose proof (to_N_lt a). euclid.
  - cbn [b64encode b64decode]. rewrite !dec_sextet, dec_pad.
    rewrite regroup2.
    + destruct (octets_of_group a b x00) as (Ha & Hb & _). rewrite Ha, Hb.
      reflexivity.
    + apply group24_lt.
    + unfold group24. change (Byte.to_N x00) with 0%N.
      pose proof (to_N_lt a). pose proof (to_N_lt b). euclid.
  - cbn [b64encode b64decode]. rewrite !dec_sextet, regroup by apply group24_lt.
    destruct (octets_of_group a b c) as (Ha & Hb & Hc). rewrite Ha, Hb, Hc, IH.
    reflexivity.
Qed.

End Base64Facts.

(** * The session: load, update and download *)

Section RoundTrip.

Context (E : Externals).

(** C1.  With a lossless save engine, loading a valid single save artifact
    [x] and downloading right after it, with no update in between, ends in
    one [DOWNLOAD_SAVE_FILE] envelope, after the two progress envelopes
    of the download, whose base64 content decodes to exactly [x]; no
    exception leaves the handler. *)
Theorem load_then_download_round_trip (x : bytes) (w : World E) :
  lossless E -> valid_artifact E x ->
  let w1 := snd (load_save_file_handler x w) in
  escaped download_save_file_handler w1 = None /\
  exists content : str,
    emitted download_save_file_handler w1 =
      [progress "Compressing GVAS to sav 💪...";
       progress "Encoding sav file to base64 🤖, get ready here it comes...";
       build_response DOWNLOAD_SAVE_FILE
         (PDict [("name", SStr "Level.sav"); ("content", SStr content)])] /\
    PyBase64.b64decode content = Some x.
Proof.
  intros Hloss (sf & p & Hsf & Hp) w1.
  assert (Hw1 : save_file (app_state w1) = Some sf).
  { subst w1. rewrite load_save_file_handler_run. unfold loaded.
    cbn [snd]. rewrite Hsf, Hp. reflexivity. }
  pose proof (download_save_file_handler_run w1) as Hrun.
  rewrite Hw1 in Hrun. unfold downloaded in Hrun.
  rewrite (Hloss x sf Hsf) in Hrun.
  destruct (observe _ _ _ _ _ _ Hrun) as (Hout & _ & _ & Hesc).
  split; [exact Hesc|].
  exists (PyBase64.b64encode x). split; [exact Hout|].
  apply Base64Facts.b64decode_b64encode.
Qed.

End RoundTrip.

(** The stub engine is lossless and takes the one-octet save. *)
Lemma load_then_download_round_trip_witness :
  lossless Stub.plain /\ valid_artifact Stub.plain [Byte.x2a] /\
  exists content : str,
    emitted download_save_file_handler
      (snd (load_save_file_handler [Byte.x2a] (Stub.fresh Stub.plain 0))) =
      [progress "Compressing GVAS to sav 💪...";
       progress "Encoding sav file to base64 🤖, get ready here it comes...";
       build_response DOWNLOAD_SAVE_FILE
         (PDict [("name", SStr "Level.sav"); ("content", SStr content)])] /\
    PyBase64.b64decode content = Some [Byte.x2a].
Proof.
  assert (Hl : lossless Stub.plain).
  { intros x sf. simpl. destruct x; [discriminate|].
    intros H. injection H as <-. reflexivity. }
  assert (Hv : valid_artifact Stub.plain [Byte.x2a]).
  { exists [Byte.x2a], 1. split; reflexivity. }
  split; [exact Hl|]. split; [exact Hv|].
  exact (proj2 (load_then_download_round_trip Stub.plain [Byte.x2a]
                  (Stub.fresh Stub.plain 0) Hl Hv)).
Defined.

(** What [observe] tells about a run whose closed form is [H]. *)
Ltac observe_in H :=
  let Hout := fresh "Hout" in
  let Hcl := fresh "Hcl" in
  let Hst := fresh "Hst" in
  let Hesc := fresh "Hesc" in
  apply observe in H; destruct H as (Hout & Hcl & Hst & Hesc).

Section LoadFailure.

Context (E : Externals).

Lemma count_type_error_tail t (msgs : list str) prefix e :
  t <> PROGRESS_MESSAGE ->
  count_type t (map (@progress E) msgs ++ [error_envelope prefix e])%list =
  if MessageType_eqb t ERROR then 1 else 0.
Proof.
  intros Ht. rewrite count_type_app, count_type_progress by exact Ht.
  now destruct t.
Qed.

(** C2, as the code has it.  When loading fails inside
    [process_save_file], at the engine's ingestion or at the computation of
    the listing, the application state is as before the request, the
    envelopes are the engine's progress texts and then one [ERROR]
    envelope, and neither [LOAD_SAVE_FILE] nor [GET_PLAYERS] is sent. *)
Theorem failed_ingestion_leaves_session (data : bytes) (w : World E) (e : Exn) :
  ingestion_fails E data e ->
  state_after (load_save_file_handler data) w = app_state w /\
  emitted (load_save_file_handler data) w =
    (map progress (fst (engine_load E data))
       ++ [error_envelope "Error processing file: " e])%list /\
  count_type ERROR (emitted (load_save_file_handler data) w) = 1 /\
  count_type LOAD_SAVE_FILE (emitted (load_save_file_handler data) w) = 0 /\
  count_type GET_PLAYERS (emitted (load_save_file_handler data) w) = 0.
Proof.
  intros Hfail.
  pose proof (load_save_file_handler_run data w) as H. unfold loaded in H.
  destruct Hfail as [He | (sf & Hsf & Hp)].
  - rewrite He in H. observe_in H. rewrite Hout, Hst.
    rewrite !count_type_error_tail by discriminate. auto.
  - rewrite Hsf, Hp in H. observe_in H. rewrite Hout, Hst.
    rewrite !count_type_error_tail by discriminate. auto.
Qed.

(** When the encoder raises on the listing of the new save, the session
    has already been replaced and [LOAD_SAVE_FILE] has been sent: the
    [ERROR] envelope comes after it. *)
Lemma failed_encoding_after_load (data : bytes) (w : World E)
  (sf : SaveFile E) (p : Players E) (summ : Payload (Json E)) (e : Exn) :
  snd (engine_load E data) = inr sf -> get_players E sf = inr p ->
  summary sf = inr summ ->
  jsonable_encoder E p = inl e ->
  state_after (load_save_file_handler data) w = mkAppState (Some sf) p /\
  emitted (load_save_file_handler data) w =
    (map progress (fst (engine_load E data))
       ++ [progress
             "File uploaded and processed successfully, results coming right up!";
           build_response LOAD_SAVE_FILE summ;
           error_envelope "Error processing file: " e])%list.
Proof.
  intros Hsf Hp Hsum He.
  pose proof (load_save_file_handler_run data w) as H. unfold loaded in H.
  rewrite Hsf, Hp in H. unfold after_load in H. rewrite Hsum, He in H.
  observe_in H. now rewrite Hout, Hst.
Qed.

(** When [name] or [size] of the new save cannot be read, the session has
    already been replaced as well; the [ERROR] envelope is the only one
    after the engine's progress texts. *)
Lemma failed_summary_after_load (data : bytes) (w : World E)
  (sf : SaveFile E) (p : Players E) (e : Exn) :
  snd (engine_load E data) = inr sf -> get_players E sf = inr p ->
  summary sf = inl e ->
  state_after (load_save_file_handler data) w = mkAppState (Some sf) p /\
  emitted (load_save_file_handler data) w =
    (map progress (fst (engine_load E data))
       ++ [error_envelope "Error processing file: " e])%list.
Proof.
  intros Hsf Hp Hsum.
  pose proof (load_save_file_handler_run data w) as H. unfold loaded in H.
  rewrite Hsf, Hp in H. unfold after_load in H. rewrite Hsum in H.
  observe_in H. now rewrite Hout, Hst.
Qed.

End LoadFailure.

(** The stub rejects the empty save: nothing changes but the envelopes. *)
Lemma failed_ingestion_leaves_session_witness :
  ingestion_fails Stub.plain [] (Raised "not a save") /\
  state_after (load_save_file_handler []) (Stub.fresh Stub.plain 7) =
    app_state (Stub.fresh Stub.plain 7).
Proof.
  assert (H : ingestion_fails Stub.plain [] (Raised "not a save"))
    by (left; reflexivity).
  split; [exact H|].
  exact (proj1 (failed_ingestion_leaves_session Stub.plain []
                  (Stub.fresh Stub.plain 7) (Raised "not a save") H)).
Defined.

(** C2 fails as stated: with an encoder that raises on the listing, the
    load of a good save fails after the session was replaced and
    [LOAD_SAVE_FILE] was sent. *)
Lemma failed_load_is_not_clean :
  ~ failed_load_is_clean Stub.failing_encoder
      [Byte.x2a] (Stub.fresh Stub.failing_encoder 0).
Proof.
  intros H. assert (Hf : failed (load_save_file_handler [Byte.x2a])
      (Stub.fresh Stub.failing_encoder 0))
    by (vm_compute; auto).
  destruct (H Hf) as (_ & _ & Hload & _).
  vm_compute in Hload. discriminate.
Qed.

Section Terminals.

Context (E : Externals).
Implicit Types (w : World E) (m : Inbound E).

Lemma rejected_ends_well m prefix e w :
  exists st out cl,
    rejected prefix e w = extend st out cl w /\ ends_well m st out.
Proof.
  eexists _, _, _. split; [reflexivity|].
  right; left. now destruct m.
Qed.

Lemma loaded_ends_well m call res done prefix w :
  m <> DownloadSaveFileMessage ->
  exists st out cl,
    loaded call res (success_type m) done prefix w = extend st out cl w /\
    ends_well m st out.
Proof.
  intros Hm. unfold loaded.
  destruct (snd res) as [e|sf].
  - eexists _, _, _. split; [reflexivity|]. right; left.
    rewrite terminals_app, terminals_progress. now destruct m.
  - destruct (get_players E sf) as [e|p].
    + eexists _, _, _. split; [reflexivity|]. right; left.
      rewrite terminals_app, terminals_progress. now destruct m.
    + eexists _, _, _. split; [reflexivity|]. unfold ends_well, after_load.
      rewrite terminals_app, terminals_progress. cbn [players].
      destruct (summary sf) as [e|summ]; [right; left; now destruct m|].
      destruct (jsonable_encoder E p) as [e|j] eqn:He.
      * right; right. split; [now destruct m|]. split; [exact Hm|].
        now exists e.
      * left. now destruct m.
Qed.

Lemma updated_ends_well d sf w :
  exists st out cl,
    updated d sf w = extend st out cl w /\
    ends_well (UpdateSaveFileMessage d) st out.
Proof.
  unfold updated.
  destruct (apply_if (modified_pals d) (update_pals E) sf) as [[m1 sf1] [e|]].
  { eexists _, _, _. split; [reflexivity|]. right; left.
    now rewrite terminals_app, terminals_progress. }
  destruct (apply_if (modified_players d) (update_players E) sf1)
    as [[m2 sf2] [e|]].
  { eexists _, _, _. split; [reflexivity|]. right; left.
    now rewrite !terminals_app, !terminals_progress. }
  destruct (get_players E sf2) as [e|p].
  { eexists _, _, _. split; [reflexivity|]. right; left.
    now rewrite !terminals_app, !terminals_progress. }
  eexists _, _, _. split; [reflexivity|]. unfold ends_well, after_update.
  rewrite !terminals_app, !terminals_progress. cbn [players].
  destruct (jsonable_encoder E p) as [e|j] eqn:He.
  - right; right. split; [reflexivity|]. split; [discriminate|]. now exists e.
  - left. reflexivity.
Qed.

Lemma downloaded_ends_well sf w :
  exists st out cl,
    downloaded sf w = extend st out cl w /\
    ends_well DownloadSaveFileMessage st out.
Proof.
  unfold downloaded. destruct (sav E sf) as [e|b].
  - eexists _, _, _. split; [reflexivity|]. right; left. reflexivity.
  - eexists _, _, _. split; [reflexivity|]. left. reflexivity.
Qed.

(** Every handler returns normally, in a world that extends the one it
    started in, with terminal envelopes of one of the three shapes. *)
Lemma handle_ends_well m w :
  exists st out cl,
    handle m w = (inr tt, extend st out cl w) /\ ends_well m st out.
Proof.
  destruct m as [data|data|d|]; cbn [handle].
  - rewrite load_save_file_handler_run.
    destruct (loaded_ends_well (LoadSaveFileMessage data) (CallLoad data)
                (engine_load E data)
                "File uploaded and processed successfully, results coming right up!"
                "Error processing file: " w) as (st & out & cl & Hw & Hends);
      [discriminate|].
    cbn [success_type] in Hw. rewrite Hw. now exists st, out, cl.
  - rewrite load_zip_file_handler_run.
    destruct (ZipFile E data) as [e|z].
    { destruct (rejected_ends_well (LoadZipFileMessage data)
                  "Error processing zip file: " e w)
        as (st & out & cl & Hw & Hends).
      rewrite Hw. now exists st, out, cl. }
    destruct (Bundle.extract z) as [e|b].
    { destruct (rejected_ends_well (LoadZipFileMessage data)
                  "Error processing zip file: " e w)
        as (st & out & cl & Hw & Hends).
      rewrite Hw. now exists st, out, cl. }
    match goal with
    | |- context [loaded ?c ?r LOAD_ZIP_FILE ?d ?p w] =>
        destruct (loaded_ends_well (LoadZipFileMessage data) c r d p w)
          as (st & out & cl & Hw & Hends); [discriminate|]
    end.
    cbn [success_type] in Hw. rewrite Hw. now exists st, out, cl.
  - rewrite update_save_file_handler_run.
    destruct (save_file (app_state w)) as [sf|].
    + destruct (updated_ends_well d sf w) as (st & out & cl & Hw & Hends).
      rewrite Hw. now exists st, out, cl.
    + destruct (rejected_ends_well (UpdateSaveFileMessage d)
                  "Error processing changes: "
                  (ValueError "No save file loaded") w)
        as (st & out & cl & Hw & Hends).
      unfold refused. rewrite Hw. now exists st, out, cl.
  - rewrite download_save_file_handler_run.
    destruct (save_file (app_state w)) as [sf|].
    + destruct (downloaded_ends_well sf w) as (st & out & cl & Hw & Hends).
      rewrite Hw. now exists st, out, cl.
    + destruct (rejected_ends_well DownloadSaveFileMessage
                  "Error downloading file: "
                  (ValueError "No save file loaded") w)
        as (st & out & cl & Hw & Hends).
      unfold refused. rewrite Hw. now exists st, out, cl.
Qed.

(** C3, as the code has it.  No exception leaves a handler, and the
    envelopes that end the handling of a message are its success envelope
    alone, an [ERROR] envelope alone, or, for the three handlers that send
    the listing after their success envelope, the success envelope and
    then an [ERROR] envelope when the encoder raised on the listing. *)
Theorem terminal_envelopes m w :
  escaped (handle m) w = None /\
  (terminals m (emitted (handle m) w) = [success_type m] \/
   terminals m (emitted (handle m) w) = [ERROR] \/
   (terminals m (emitted (handle m) w) = [success_type m; ERROR] /\
    m <> DownloadSaveFileMessage /\
    exists e : Exn,
      jsonable_encoder E (players (state_after (handle m) w)) = inl e)).
Proof.
  destruct (handle_ends_well m w) as (st & out & cl & H & Hends).
  observe_in H. rewrite Hout, Hst. split; [exact Hesc | exact Hends].
Qed.

(** With an encoder that never raises there is exactly one terminal
    envelope. *)
Corollary one_terminal_when_encoding_succeeds m w :
  (forall p : Players E, exists j : Json E, jsonable_encoder E p = inr j) ->
  one_terminal E m w.
Proof.
  intros Henc.
  destruct (handle_ends_well m w) as (st & out & cl & H & Hends).
  observe_in H. unfold one_terminal. rewrite Hout.
  split; [exact Hesc|].
  destruct Hends as [Ht | [Ht | (_ & _ & e & He)]]; try now rewrite Ht.
  destruct (Henc (players st)) as (j & Hj). congruence.
Qed.

End Terminals.

(** C3 fails as stated: an update of a loaded save, with an encoder that
    raises on the listing, writes [UPDATE_SAVE_FILE] and then [ERROR]. *)
Lemma two_terminal_envelopes :
  ~ one_terminal Stub.failing_encoder
      (UpdateSaveFileMessage (mkUpdateData None None))
      (Stub.session Stub.failing_encoder [Byte.x2a] 1).
Proof.
  intros [_ H]. vm_compute in H. discriminate.
Qed.

Section NoSaveLoaded.

Context (E : Externals).

(** C5.  With no save loaded, an update and a download each write one
    [ERROR] envelope and nothing else, telling that no save file is
    loaded; they make no engine call, leave the application state as it
    was and return normally. *)
Theorem update_and_download_need_a_save
  (d : UpdateData (PalPatch E) (PlayerPatch E)) (p : Players E)
  (out : list (Envelope (Json E))) (log : list (EngineCall E)) :
  let w := mkWorld (mkAppState None p) out log in
  (emitted (update_save_file_handler d) w =
     [build_response ERROR
        (PStr "Error processing changes: No save file loaded")] /\
   calls (update_save_file_handler d) w = [] /\
   state_after (update_save_file_handler d) w = app_state w /\
   escaped (update_save_file_handler d) w = None) /\
  (emitted download_save_file_handler w =
     [build_response ERROR (PStr "Error downloading file: No save file loaded")] /\
   calls download_save_file_handler w = [] /\
   state_after download_save_file_handler w = app_state w /\
   escaped download_save_file_handler w = None).
Proof.
  intros w. split.
  - pose proof (update_save_file_handler_run d w) as H.
    cbn [w app_state save_file] in H. unfold refused, rejected in H.
    observe_in H. auto.
  - pose proof (download_save_file_handler_run w) as H.
    cbn [w app_state save_file] in H. unfold refused, rejected in H.
    observe_in H. auto.
Qed.

End NoSaveLoaded.

Section UpdateFailure.

Context (E : Externals).

(** C8.  When an update of a loaded save fails at a patch application or
    at the recomputation of the listing, [app_state.players] keeps the
    value it had before the request, while [app_state.save_file] is the
    object as the engine left it; one [ERROR] envelope is written and no
    [UPDATE_SAVE_FILE]. *)
Theorem failed_update_keeps_listing
  (d : UpdateData (PalPatch E) (PlayerPatch E)) (w : World E)
  (sf sf' : SaveFile E) (e : Exn) :
  save_file (app_state w) = Some sf ->
  update_fails E d sf e sf' ->
  players (state_after (update_save_file_handler d) w) = players (app_state w) /\
  save_file (state_after (update_save_file_handler d) w) = Some sf' /\
  count_type UPDATE_SAVE_FILE (emitted (update_save_file_handler d) w) = 0 /\
  count_type ERROR (emitted (update_save_file_handler d) w) = 1.
Proof.
  intros Hsf Hfail.
  pose proof (update_save_file_handler_run d w) as H.
  rewrite Hsf in H. unfold updated in H. unfold update_fails in Hfail.
  destruct (apply_if (modified_pals d) (update_pals E) sf) as [[m1 sf1] r1].
  cbn [fst snd] in Hfail.
  destruct (apply_if (modified_players d) (update_players E) sf1)
    as [[m2 sf2] r2].
  cbn [fst snd] in Hfail.
  destruct Hfail as [(Hr1 & ->) | [(Hr1 & Hr2 & ->) | (Hr1 & Hr2 & Hg & ->)]];
    subst; rewrite ?Hg in H; observe_in H; rewrite Hout, Hst;
    rewrite ?app_assoc, <- ?map_app, !count_type_error_tail by discriminate;
    auto.
Qed.

(** The listing is reassigned only after both patch applications and the
    recomputation of the listing went through. *)
Lemma listing_reassigned_after_patches
  (d : UpdateData (PalPatch E) (PlayerPatch E)) (w : World E) (sf : SaveFile E) :
  save_file (app_state w) = Some sf ->
  players (state_after (update_save_file_handler d) w) <> players (app_state w) ->
  let r1 := apply_if (modified_pals d) (update_pals E) sf in
  let r2 := apply_if (modified_players d) (update_players E) (snd (fst r1)) in
  snd r1 = None /\ snd r2 = None /\
  get_players E (snd (fst r2)) =
    inr (players (state_after (update_save_file_handler d) w)).
Proof.
  intros Hsf Hne.
  pose proof (update_save_file_handler_run d w) as H.
  rewrite Hsf in H. unfold updated in H. cbv zeta.
  destruct (apply_if (modified_pals d) (update_pals E) sf) as [[m1 sf1] r1].
  cbn [fst snd].
  destruct r1 as [e|]; [observe_in H; rewrite Hst in Hne; now elim Hne|].
  destruct (apply_if (modified_players d) (update_players E) sf1)
    as [[m2 sf2] r2].
  cbn [fst snd].
  destruct r2 as [e|]; [observe_in H; rewrite Hst in Hne; now elim Hne|].
  destruct (get_players E sf2) as [e|p];
    [observe_in H; rewrite Hst in Hne; now elim Hne|].
  observe_in H. rewrite Hst. auto.
Qed.

End UpdateFailure.

(** In the stub the patch [x00] is rejected after the object has taken
    it: the listing stays, the save object has changed. *)
Lemma failed_update_keeps_listing_witness :
  save_file (app_state (Stub.session Stub.plain [Byte.x2a] 1)) =
    Some [Byte.x2a] /\
  update_fails Stub.plain Stub.bad_update [Byte.x2a] (Raised "bad patch")
    [Byte.x2a; Byte.x00] /\
  players (state_after (update_save_file_handler Stub.bad_update)
             (Stub.session Stub.plain [Byte.x2a] 1)) = 1 /\
  save_file (state_after (update_save_file_handler Stub.bad_update)
               (Stub.session Stub.plain [Byte.x2a] 1)) =
    Some [Byte.x2a; Byte.x00].
Proof.
  assert (Hsf : save_file (app_state (Stub.session Stub.plain [Byte.x2a] 1)) =
                Some [Byte.x2a]) by reflexivity.
  assert (Hf : update_fails Stub.plain Stub.bad_update [Byte.x2a]
                 (Raised "bad patch") [Byte.x2a; Byte.x00])
    by (left; split; reflexivity).
  split; [exact Hsf|]. split; [exact Hf|].
  destruct (failed_update_keeps_listing Stub.plain Stub.bad_update
              (Stub.session Stub.plain [Byte.x2a] 1) [Byte.x2a]
              [Byte.x2a; Byte.x00] (Raised "bad patch") Hsf Hf)
    as (Hp & Hs & _).
  split; [exact Hp | exact Hs].
Defined.

(** * The zip bundle *)

(** ** Texts *)

Section TextFacts.

Lemma append_assoc (a b c : str) : (a ++ b) ++ c = a ++ b ++ c.
Proof. induction a as [|x a IH]; simpl; [reflexivity | now rewrite IH]. Qed.

Lemma append_nil_r (a : str) : a ++ EmptyString = a.
Proof. induction a as [|x a IH]; simpl; [reflexivity | now rewrite IH]. Qed.

Lemma occurs_in_refl (s : str) : occurs_in s s.
Proof. exists EmptyString, EmptyString. simpl. now rewrite append_nil_r. Qed.

Lemma occurs_in_wrap (x y a b : str) :
  occurs_in x y -> occurs_in x (a ++ y ++ b).
Proof.
  intros (a' & b' & ->). exists (a ++ a'), (b' ++ b).
  now rewrite !append_assoc.
Qed.

Lemma occurs_in_join (sep x : str) (l : list str) :
  In x l -> occurs_in x (PyStr.join sep l).
Proof.
  unfold PyStr.join. induction l as [|y l IH]; [contradiction|].
  intros [-> | Hin].
  - destruct l as [|z l]; [apply occurs_in_refl|].
    exists EmptyString, (sep ++ String.concat sep (z :: l)). reflexivity.
  - destruct l as [|z l]; [contradiction|].
    change (String.concat sep (y :: z :: l))
      with (y ++ sep ++ String.concat sep (z :: l)).
    destruct (IH Hin) as (a & b & Hab). rewrite Hab.
    exists (y ++ sep ++ a), b. now rewrite !append_assoc.
Qed.

(** Every listed name shows, in its [repr], in the [repr] of the list. *)
Lemma occurs_in_repr_list (f : str) (l : list str) :
  In f l -> occurs_in (PyRepr.repr f) (PyRepr.repr_list l).
Proof.
  intros Hin. unfold PyRepr.repr_list. apply occurs_in_wrap.
  apply occurs_in_join. now apply in_map.
Qed.

Lemma prefix_append (n b : str) : String.prefix n (n ++ b) = true.
Proof.
  induction n as [|c n IH]; simpl; [now destruct b|].
  destruct (ascii_dec c c) as [_|Hc]; [exact IH | now elim Hc].
Qed.

(** [contains] finds every occurrence. *)
Lemma occurs_in_contains (needle hay : str) :
  occurs_in needle hay -> contains hay needle = true.
Proof.
  intros (a & b & ->). induction a as [|c a IH].
  - cbn [append]. destruct (needle ++ b) eqn:Hnb; cbn [contains];
      rewrite <- Hnb, prefix_append; reflexivity.
  - cbn [append contains]. rewrite IH. apply orb_true_r.
Qed.

End TextFacts.

(** ** The bundle *)

Section BundleFacts.

Import PyZip.

Lemma extract_root (z : Archive) :
  z <> [] -> Bundle.extract z = Bundle.extract_from (Bundle.root_id z) z.
Proof.
  destruct z as [|m z]; [intros H; now elim H|]. reflexivity.
Qed.

(** One player file with a name that is no UUID makes the loop fail,
    whatever it has read so far. *)
Lemma read_players_bad_name (z : Archive) (files : list str) (f : str)
  (d : list (PyUUID.UUID * bytes)) :
  In f files ->
  (exists e, PyUUID.UUID_of_str (Bundle.player_id_of f) = inl e) ->
  exists e, Bundle.read_players z files d = inl e.
Proof.
  intros Hin (e & He). revert d.
  induction files as [|g files IH]; [contradiction|]. intros d.
  cbn [Bundle.read_players].
  destruct Hin as [-> | Hin].
  - rewrite He. now exists e.
  - destruct (PyUUID.UUID_of_str (Bundle.player_id_of g)) as [e'|u];
      [now exists e'|].
    destruct (read z g) as [e'|blob]; [now exists e'|].
    now apply IH.
Qed.

End BundleFacts.

Section ZipClaims.

Context (E : Externals).

Import PyZip.

(** C4.  An archive without members: [file_list is None] is false for the
    empty list, so [file_list[0]] raises [IndexError]; the envelope is the
    [ERROR] of that exception, not a [ValueError] for an empty zip file. *)
Theorem empty_archive_raises_index_error (data : bytes) (w : World E) :
  ZipFile E data = inr [] ->
  Bundle.extract [] = inl (IndexError "list index out of range") /\
  emitted (load_zip_file_handler data) w =
    [build_response ERROR
       (PStr "Error processing zip file: list index out of range")] /\
  calls (load_zip_file_handler data) w = [] /\
  state_after (load_zip_file_handler data) w = app_state w.
Proof.
  intros Hz. split; [reflexivity|].
  pose proof (load_zip_file_handler_run data w) as H. rewrite Hz in H.
  cbn [Bundle.extract namelist map Bundle.is_None Bundle.first_item] in H.
  unfold rejected in H. observe_in H. auto.
Qed.

(** C6.  A bundle with a player file whose name, without its extension, is
    no UUID is turned down as a whole: the extraction returns an exception
    and no bundle, one [ERROR] envelope is written, the engine is not
    called and the application state is as before. *)
Theorem bad_player_file_rejects_bundle (data : bytes) (z : Archive)
  (w : World E) (f : str) :
  ZipFile E data = inr z ->
  In f (namelist z) ->
  Bundle.is_player_file (Bundle.root_id z) f = true ->
  (exists e, PyUUID.UUID_of_str (Bundle.player_id_of f) = inl e) ->
  exists e : Exn,
    Bundle.extract z = inl e /\
    emitted (load_zip_file_handler data) w =
      [error_envelope "Error processing zip file: " e] /\
    calls (load_zip_file_handler data) w = [] /\
    state_after (load_zip_file_handler data) w = app_state w /\
    escaped (load_zip_file_handler data) w = None.
Proof.
  intros Hz Hin Hpf Hbad.
  assert (Hex : exists e, Bundle.extract z = inl e).
  { rewrite extract_root by (intros ->; contradiction).
    unfold Bundle.extract_from.
    destruct (negb (PyStr.str_in _ _)); [eauto|].
    destruct (read z _) as [e|lvl]; [eauto|].
    destruct (read_players_bad_name z
                (filter (Bundle.is_player_file (Bundle.root_id z)) (namelist z))
                f [] (proj2 (filter_In _ _ _) (conj Hin Hpf)) Hbad) as (e & He).
    rewrite He. eauto. }
  destruct Hex as (e & He). exists e. split; [exact He|].
  pose proof (load_zip_file_handler_run data w) as H. rewrite Hz, He in H.
  unfold rejected in H. observe_in H. auto.
Qed.

(** C7, as the code has it.  A non-empty bundle without
    [<root_id>/Level.sav] is turned down with the text
    [Zip file does not contain 'Level.sav', available files: ] followed by
    the [repr] of the listing: the text names the missing entry as
    ['Level.sav'] and shows every listed name. *)
Theorem missing_level_sav_message (data : bytes) (z : Archive) (w : World E) :
  ZipFile E data = inr z ->
  z <> [] ->
  PyStr.str_in (Bundle.level_sav_of (Bundle.root_id z)) (namelist z) = false ->
  let msg :=
    "Zip file does not contain 'Level.sav', available files: "
      ++ PyRepr.repr_list (namelist z) in
  Bundle.extract z = inl (ValueError msg) /\
  emitted (load_zip_file_handler data) w =
    [build_response ERROR (PStr ("Error processing zip file: " ++ msg))] /\
  occurs_in "'Level.sav'" msg /\
  forall f : str, In f (namelist z) -> occurs_in (PyRepr.repr f) msg.
Proof.
  intros Hz Hne Hlvl msg.
  assert (He : Bundle.extract z = inl (ValueError msg)).
  { rewrite extract_root by exact Hne. unfold Bundle.extract_from.
    now rewrite Hlvl. }
  split; [exact He|]. split.
  - pose proof (load_zip_file_handler_run data w) as H. rewrite Hz, He in H.
    unfold rejected in H. observe_in H. exact Hout.
  - split.
    + exists "Zip file does not contain ",
        (", available files: " ++ PyRepr.repr_list (namelist z)).
      reflexivity.
    + intros f Hin. subst msg. apply occurs_in_repr_list in Hin.
      apply (occurs_in_wrap _ _
               "Zip file does not contain 'Level.sav', available files: "
               EmptyString) in Hin.
      rewrite append_nil_r in Hin. exact Hin.
Qed.

End ZipClaims.

(** The stub parser gives the archive without members. *)
Lemma empty_archive_raises_index_error_witness :
  ZipFile Stub.plain [] = inr [] /\
  emitted (load_zip_file_handler []) (Stub.fresh Stub.plain 0) =
    [build_response ERROR
       (PStr "Error processing zip file: list index out of range")].
Proof.
  split; [reflexivity|].
  exact (proj1 (proj2 (empty_archive_raises_index_error Stub.plain []
                         (Stub.fresh Stub.plain 0) eq_refl))).
Defined.

(** [bogus] is no UUID: the bundle with a good and a bad player file is
    turned down. *)
Lemma bad_player_file_rejects_bundle_witness :
  ZipFile (Stub.externals true (Stub.opens Stub.bad_player)) [] =
    inr Stub.bad_player /\
  In "S1/Players/bogus.sav" (PyZip.namelist Stub.bad_player) /\
  Bundle.is_player_file (Bundle.root_id Stub.bad_player)
    "S1/Players/bogus.sav" = true /\
  (exists e,
     PyUUID.UUID_of_str (Bundle.player_id_of "S1/Players/bogus.sav") = inl e) /\
  exists e : Exn,
    Bundle.extract Stub.bad_player = inl e /\
    calls (load_zip_file_handler [])
      (Stub.fresh (Stub.externals true (Stub.opens Stub.bad_player)) 0) = [].
Proof.
  assert (Hin : In "S1/Players/bogus.sav" (PyZip.namelist Stub.bad_player))
    by (simpl; auto).
  assert (Hbad : exists e,
            PyUUID.UUID_of_str (Bundle.player_id_of "S1/Players/bogus.sav")
            = inl e) by (eexists; vm_compute; reflexivity).
  split; [reflexivity|]. split; [exact Hin|]. split; [reflexivity|].
  split; [exact Hbad|].
  destruct (bad_player_file_rejects_bundle
              (Stub.externals true (Stub.opens Stub.bad_player)) []
              Stub.bad_player
              (Stub.fresh (Stub.externals true (Stub.opens Stub.bad_player)) 0)
              "S1/Players/bogus.sav" eq_refl Hin eq_refl Hbad)
    as (e & He & _ & Hcalls & _).
  exists e. split; [exact He | exact Hcalls].
Defined.

(** The scenario of section 8: the listing has one player file and no
    [Level.sav]. *)
Lemma missing_level_sav_message_witness :
  ZipFile (Stub.externals true (Stub.opens Stub.no_level)) [] =
    inr Stub.no_level /\
  Stub.no_level <> [] /\
  PyStr.str_in (Bundle.level_sav_of (Bundle.root_id Stub.no_level))
    (PyZip.namelist Stub.no_level) = false /\
  Bundle.extract Stub.no_level =
    inl (ValueError
           "Zip file does not contain 'Level.sav', available files: ['S1/Players/bogus.sav']").
Proof.
  split; [reflexivity|]. split; [discriminate|]. split; [reflexivity|].
  exact (proj1 (missing_level_sav_message
                  (Stub.externals true (Stub.opens Stub.no_level)) []
                  Stub.no_level
                  (Stub.fresh (Stub.externals true (Stub.opens Stub.no_level)) 0)
                  eq_refl ltac:(discriminate) eq_refl)).
Defined.

(** C7 fails as stated: in the scenario of section 8 the text of the error
    does not hold [S1/Level.sav]. *)
Lemma message_lacks_root_id : ~ names_missing_entry Stub.no_level.
Proof.
  intros H. destruct H as (e & He & Hocc); [discriminate | reflexivity |].
  vm_compute in He. injection He as <-.
  apply occurs_in_contains in Hocc. vm_compute in Hocc. discriminate.
Qed.

(** ** Entries the bundle does not look at *)

Section IgnoredEntries.

Import PyZip.

Lemma find_app_first {A} (p : A -> bool) (l l' : list A) :
  find p (l ++ l')%list =
  match find p l with
  | Some x => Some x
  | None => find p l'
  end.
Proof.
  induction l as [|a l IH]; [reflexivity|]. simpl. now destruct (p a).
Qed.

(** Reading a name does not look at members of another name. *)
Lemma read_other_name (pre post : Archive) (m : ZipInfo) (name : str) :
  name <> filename m ->
  read (pre ++ m :: post)%list name = read (pre ++ post)%list name.
Proof.
  intros Hne. unfold read.
  rewrite !rev_app_distr. cbn [rev]. rewrite <- app_assoc.
  rewrite !find_app_first. cbn [find app].
  destruct (String.eqb_spec (filename m) name) as [Heq|_];
    [now elim Hne|reflexivity].
Qed.

Lemma str_in_app (x : str) (l l' : list str) :
  PyStr.str_in x (l ++ l')%list = PyStr.str_in x l || PyStr.str_in x l'.
Proof. unfold PyStr.str_in. apply existsb_app. Qed.

Lemma namelist_app (a b : Archive) :
  namelist (a ++ b)%list = (namelist a ++ namelist b)%list.
Proof. unfold namelist. apply map_app. Qed.

(** The loop reads the archive only at the names it is given. *)
Lemma read_players_ext (z z' : Archive) (files : list str)
  (d : list (PyUUID.UUID * bytes)) :
  (forall f, In f files -> read z f = read z' f) ->
  Bundle.read_players z files d = Bundle.read_players z' files d.
Proof.
  revert d. induction files as [|f files IH]; intros d Hread; [reflexivity|].
  cbn [Bundle.read_players].
  destruct (PyUUID.UUID_of_str (Bundle.player_id_of f)) as [e|u]; [reflexivity|].
  rewrite <- (Hread f) by (left; reflexivity).
  destruct (read z f) as [e|blob]; [reflexivity|].
  apply IH. intros g Hg. apply Hread. now right.
Qed.

Section OneEntry.

Variables (save_id : str) (pre post : Archive) (m : ZipInfo).
Hypothesis not_level : filename m <> Bundle.level_sav_of save_id.
Hypothesis not_player : Bundle.is_player_file save_id (filename m) = false.

Lemma level_listed_without :
  PyStr.str_in (Bundle.level_sav_of save_id) (namelist (pre ++ m :: post)%list) =
  PyStr.str_in (Bundle.level_sav_of save_id) (namelist (pre ++ post)%list).
Proof.
  rewrite !namelist_app, !str_in_app. cbn [namelist map PyStr.str_in existsb].
  destruct (String.eqb_spec (Bundle.level_sav_of save_id) (filename m)) as [Heq|_];
    [now elim not_level|reflexivity].
Qed.

Lemma player_files_without :
  filter (Bundle.is_player_file save_id) (namelist (pre ++ m :: post)%list) =
  filter (Bundle.is_player_file save_id) (namelist (pre ++ post)%list).
Proof.
  rewrite !namelist_app, !filter_app. cbn [namelist map filter].
  now rewrite not_player.
Qed.

Lemma player_file_other_name (f : str) (l : list str) :
  In f (filter (Bundle.is_player_file save_id) l) -> f <> filename m.
Proof.
  intros Hin Heq. apply filter_In in Hin. destruct Hin as [_ Hp].
  rewrite Heq, not_player in Hp. discriminate.
Qed.

(** With [Level.sav] listed, the extraction is the same with and without
    the entry. *)
Lemma extract_from_without :
  PyStr.str_in (Bundle.level_sav_of save_id) (namelist (pre ++ post)%list) = true ->
  Bundle.extract_from save_id (pre ++ m :: post)%list =
  Bundle.extract_from save_id (pre ++ post)%list.
Proof.
  intros Hlvl. unfold Bundle.extract_from.
  rewrite level_listed_without, Hlvl. cbn [negb].
  rewrite read_other_name by (intros Heq; now elim not_level).
  destruct (read (pre ++ post)%list _) as [e|lvl]; [reflexivity|].
  rewrite player_files_without.
  rewrite (read_players_ext (pre ++ m :: post)%list (pre ++ post)%list);
    [reflexivity|].
  intros f Hf. apply read_other_name. now apply player_file_other_name in Hf.
Qed.

(** Without [Level.sav] both are turned down. *)
Lemma extract_from_unlisted (z : Archive) :
  PyStr.str_in (Bundle.level_sav_of save_id) (namelist z) = false ->
  exists e, Bundle.extract_from save_id z = inl e.
Proof. intros H. unfold Bundle.extract_from. rewrite H. eexists; reflexivity. Qed.

Lemma extract_from_accepts_without (b : Bundle.t) :
  Bundle.extract_from save_id (pre ++ m :: post)%list = inr b <->
  Bundle.extract_from save_id (pre ++ post)%list = inr b.
Proof.
  destruct (PyStr.str_in (Bundle.level_sav_of save_id)
              (namelist (pre ++ post)%list)) eqn:Hlvl.
  - now rewrite extract_from_without.
  - destruct (extract_from_unlisted (pre ++ post)%list Hlvl) as (e & He).
    rewrite <- level_listed_without in Hlvl.
    destruct (extract_from_unlisted _ Hlvl) as (e' & He').
    rewrite He, He'. split; discriminate.
Qed.

End OneEntry.

Lemma root_id_without (pre post : Archive) (m : ZipInfo) :
  pre <> [] ->
  Bundle.root_id (pre ++ post)%list = Bundle.root_id (pre ++ m :: post)%list.
Proof. destruct pre as [|m0 pre]; [intros H; now elim H | reflexivity]. Qed.

Lemma extract_entry_nonempty (pre post : Archive) (m : ZipInfo) :
  Bundle.extract (pre ++ m :: post)%list =
  Bundle.extract_from (Bundle.root_id (pre ++ m :: post)%list)
    (pre ++ m :: post)%list.
Proof. apply extract_root. now destruct pre. Qed.

(** Where the listing without the entry has the same root identifier, the
    same bundles are accepted with and without it. *)
Lemma same_bundles_without_entry (pre post : Archive) (m : ZipInfo)
  (b : Bundle.t) :
  filename m <> Bundle.level_sav_of (Bundle.root_id (pre ++ m :: post)%list) ->
  Bundle.is_player_file (Bundle.root_id (pre ++ m :: post)%list) (filename m)
    = false ->
  Bundle.root_id (pre ++ post)%list = Bundle.root_id (pre ++ m :: post)%list ->
  Bundle.extract (pre ++ m :: post)%list = inr b <->
  Bundle.extract (pre ++ post)%list = inr b.
Proof.
  intros Hlvl Hpl Hroot. rewrite extract_entry_nonempty.
  rewrite (extract_from_accepts_without _ pre post m Hlvl Hpl b).
  destruct (pre ++ post)%list as [|m0 z0] eqn:Hpp.
  - split; [|discriminate]. unfold Bundle.extract_from.
    cbn [namelist map PyStr.str_in existsb negb]. discriminate.
  - rewrite <- Hroot. now rewrite (extract_root (m0 :: z0)) by discriminate.
Qed.

(** C9, as the code has it.  An entry that is neither
    [<root_id>/Level.sav] nor a player file, and without which the listing
    has the same root identifier (so it is for every entry that is not
    listed first, [root_id_without]), is ignored: it is not among the
    player files; what the archive holds for it is never read, so the
    extraction is the same for any other content, readable or not; and the
    listing with the entry is accepted exactly when the listing without it
    is, with the same save id, the same primary blob and the same keyed
    blobs. *)
Theorem other_entries_are_ignored (pre post : Archive) (m : ZipInfo) :
  let z := (pre ++ m :: post)%list in
  filename m <> Bundle.level_sav_of (Bundle.root_id z) ->
  Bundle.is_player_file (Bundle.root_id z) (filename m) = false ->
  Bundle.root_id (pre ++ post)%list = Bundle.root_id z ->
  ~ In (filename m) (Bundle.player_files z) /\
  (forall c : Exn + bytes,
     Bundle.extract (pre ++ mkZipInfo (filename m) c :: post)%list =
     Bundle.extract z) /\
  (forall b : Bundle.t,
     Bundle.extract z = inr b <->
     Bundle.extract (pre ++ post)%list = inr b).
Proof.
  intros z Hlvl Hpl Hsame. split; [|split].
  - intros Hin. apply filter_In in Hin. destruct Hin as [_ Hp].
    rewrite Hpl in Hp. discriminate.
  - intros c. subst z.
    assert (Hroot : Bundle.root_id (pre ++ mkZipInfo (filename m) c :: post)%list
                    = Bundle.root_id (pre ++ m :: post)%list).
    { unfold Bundle.root_id. rewrite !namelist_app. now destruct pre. }
    rewrite !extract_entry_nonempty, Hroot.
    set (r := Bundle.root_id (pre ++ m :: post)%list) in *.
    destruct (PyStr.str_in (Bundle.level_sav_of r) (namelist (pre ++ post)%list))
      eqn:Hl.
    + rewrite (extract_from_without r pre post m Hlvl Hpl Hl).
      apply (extract_from_without r pre post (mkZipInfo (filename m) c));
        assumption.
    + unfold Bundle.extract_from.
      rewrite (level_listed_without r pre post (mkZipInfo (filename m) c) Hlvl).
      rewrite (level_listed_without r pre post m Hlvl), Hl.
      cbn [negb]. do 3 f_equal. rewrite !namelist_app. reflexivity.
  - intros b. subst z. now apply same_bundles_without_entry.
Qed.

End IgnoredEntries.

(** An entry between [Level.sav] and a player file that cannot even be
    read: the bundle is accepted with it as without it. *)
Lemma other_entries_are_ignored_witness :
  PyZip.filename Stub.unread_entry <>
    Bundle.level_sav_of (Bundle.root_id Stub.mixed) /\
  Bundle.is_player_file (Bundle.root_id Stub.mixed)
    (PyZip.filename Stub.unread_entry) = false /\
  Bundle.root_id [Stub.level_entry; Stub.player_entry] =
    Bundle.root_id Stub.mixed /\
  Bundle.extract Stub.mixed =
    inr (Bundle.mk "S1" [Byte.x2a]
           [(0x11111111111111111111111111111111%N, [Byte.x01])]).
Proof.
  assert (H1 : PyZip.filename Stub.unread_entry <>
               Bundle.level_sav_of (Bundle.root_id Stub.mixed))
    by (vm_compute; discriminate).
  assert (H2 : Bundle.is_player_file (Bundle.root_id Stub.mixed)
                 (PyZip.filename Stub.unread_entry) = false) by reflexivity.
  assert (H3 : Bundle.root_id [Stub.level_entry; Stub.player_entry] =
               Bundle.root_id Stub.mixed) by reflexivity.
  split; [exact H1|]. split; [exact H2|]. split; [exact H3|].
  destruct (other_entries_are_ignored [Stub.level_entry] [Stub.player_entry]
              Stub.unread_entry H1 H2 H3) as (_ & _ & Hiff).
  apply (proj2 (Hiff _)). vm_compute. reflexivity.
Defined.

(** C9 fails as stated: an entry under another first path segment that is
    listed first is neither [Level.sav] nor a player file, and the bundle
    that is accepted without it is turned down with it. *)
Lemma first_entry_can_reject_bundle :
  ~ never_rejects [] [Stub.level_entry; Stub.player_entry] Stub.foreign_entry.
Proof.
  intros H.
  assert (H1 : PyZip.filename Stub.foreign_entry <>
               Bundle.level_sav_of
                 (Bundle.root_id
                    (Stub.foreign_entry ::
                       [Stub.level_entry; Stub.player_entry])))
    by (vm_compute; discriminate).
  specialize (H H1 eq_refl _ eq_refl).
  vm_compute in H. discriminate.
Qed.

(** ** The handler on bundles with entries it does not look at *)

Section ZipHandlerFacts.

Context (E : Externals).

Import PyZip.

(** An entry after the first one that is neither [Level.sav] nor a player
    file changes nothing in what the handler does, when [Level.sav] is
    listed: the same envelopes, the same call of the engine with the same
    octets, the same state. *)
Lemma load_zip_file_handler_without (data data' : bytes) (pre post : Archive)
  (m : ZipInfo) (w : World E) :
  ZipFile E data = inr (pre ++ m :: post)%list ->
  ZipFile E data' = inr (pre ++ post)%list ->
  pre <> [] ->
  filename m <> Bundle.level_sav_of (Bundle.root_id (pre ++ m :: post)%list) ->
  Bundle.is_player_file (Bundle.root_id (pre ++ m :: post)%list) (filename m)
    = false ->
  PyStr.str_in (Bundle.level_sav_of (Bundle.root_id (pre ++ m :: post)%list))
    (namelist (pre ++ post)%list) = true ->
  load_zip_file_handler data w = load_zip_file_handler data' w.
Proof.
  intros Hz Hz' Hpre Hlvl Hpl Hlisted.
  rewrite !load_zip_file_handler_run, Hz, Hz'.
  rewrite extract_entry_nonempty.
  rewrite (extract_from_without _ pre post m Hlvl Hpl Hlisted).
  rewrite <- (root_id_without pre post m Hpre).
  rewrite <- extract_root by (destruct pre; [now elim Hpre | discriminate]).
  reflexivity.
Qed.

End ZipHandlerFacts.

(** ** The spelling of a UUID *)

Module UUIDFacts.

Import PyUUID.

(** A fact about every character, checked on the 256 of them. *)
Ltac each_char c := destruct c as [[] [] [] [] [] [] [] []]; try reflexivity.

Lemma hex_value_lower (c : ascii) : hex_value (ascii_lower c) = hex_value c.
Proof. each_char c. Qed.

Lemma is_hex_lower (c : ascii) : is_hex (ascii_lower c) = is_hex c.
Proof. unfold is_hex. now rewrite hex_value_lower. Qed.

Lemma hyphen_lower (c : ascii) : Ascii.eqb (ascii_lower c) "-" = Ascii.eqb c "-".
Proof. each_char c. Qed.

Lemma underscore_lower (c : ascii) : Ascii.eqb (ascii_lower c) "_" = Ascii.eqb c "_".
Proof. each_char c. Qed.

Lemma int_space_lower (c : ascii) : int_space (ascii_lower c) = int_space c.
Proof. each_char c. Qed.

Lemma length_lower (s : str) : String.length (lower s) = String.length s.
Proof. induction s as [|c s IH]; simpl; congruence. Qed.

Lemma canonical_lower (s : str) : canonical (lower s) = canonical s.
Proof.
  induction s as [|c s IH]; [reflexivity|].
  cbn [lower canonical]. now rewrite is_hex_lower, hyphen_lower, IH.
Qed.

Lemma all_space_lower (s : str) : all_space (lower s) = all_space s.
Proof.
  induction s as [|c s IH]; [reflexivity|].
  cbn [lower all_space]. now rewrite int_space_lower, IH.
Qed.

(** The digits are read the same in both cases. *)
Lemma int_digits_lower (s : str) (acc : N) (prev_us seen : bool) :
  int_digits acc prev_us seen (lower s) = int_digits acc prev_us seen s.
Proof.
  revert acc prev_us seen. induction s as [|c s IH]; intros; [reflexivity|].
  cbn [lower int_digits]. rewrite hex_value_lower.
  destruct (hex_value c); [apply IH|].
  rewrite underscore_lower.
  change (String (ascii_lower c) (lower s)) with (lower (String c s)).
  rewrite all_space_lower. destruct (Ascii.eqb c "_"); [|reflexivity].
  destruct (prev_us || negb seen); [reflexivity | apply IH].
Qed.

(** A character of a canonical text is none of those the clean-up of
    [uuid.UUID] looks for. *)
Lemma canonical_char (c : ascii) :
  is_hex c || Ascii.eqb c "-" = true ->
  Ascii.eqb c "u" = false /\ PyStr.has_char c "{}" = false.
Proof.
  destruct c as [[] [] [] [] [] [] [] []]; intros H; vm_compute in H;
    try discriminate H; split; reflexivity.
Qed.

Lemma remove_from_absent (old : str) (c0 : ascii) (s : str) :
  PyStr.has_char c0 s = false ->
  PyStr.remove_from (String c0 old) 0 s = s.
Proof.
  induction s as [|c s IH]; [reflexivity|].
  cbn [PyStr.has_char PyStr.remove_from String.prefix]. intros H.
  apply orb_false_iff in H. destruct H as [Hc Hs].
  destruct (ascii_dec c0 c) as [->|_];
    [now rewrite Ascii.eqb_refl in Hc|].
  now rewrite IH.
Qed.

Lemma canonical_no_u (s : str) : canonical s = true -> PyStr.has_char "u" s = false.
Proof.
  induction s as [|c s IH]; [reflexivity|].
  cbn [canonical PyStr.has_char]. intros H.
  apply andb_true_iff in H. destruct H as [Hc Hs].
  destruct (canonical_char c Hc) as [Hu _]. now rewrite Hu, IH.
Qed.

Lemma lstrip_canonical (s : str) : canonical s = true -> PyStr.lstrip "{}" s = s.
Proof.
  destruct s as [|c s]; [reflexivity|].
  cbn [canonical PyStr.lstrip]. intros H.
  apply andb_true_iff in H. destruct H as [Hc _].
  destruct (canonical_char c Hc) as [_ Hb]. now rewrite Hb.
Qed.

Lemma rstrip_canonical (s : str) : canonical s = true -> PyStr.rstrip "{}" s = s.
Proof.
  induction s as [|c s IH]; [reflexivity|].
  cbn [canonical PyStr.rstrip]. intros H.
  apply andb_true_iff in H. destruct H as [Hc Hs].
  destruct (canonical_char c Hc) as [_ Hb]. rewrite (IH Hs), Hb.
  now destruct s.
Qed.

(** The clean-up leaves a canonical text as it is, up to its hyphens. *)
Lemma cleanup_canonical (s : str) :
  canonical s = true ->
  PyStr.strip "{}" (PyStr.replace_del "uuid:" (PyStr.replace_del "urn:" s)) = s.
Proof.
  intros H. unfold PyStr.replace_del, PyStr.strip.
  rewrite (remove_from_absent "rn:" "u" s) by now apply canonical_no_u.
  rewrite (remove_from_absent "uid:" "u" s) by now apply canonical_no_u.
  now rewrite lstrip_canonical, rstrip_canonical.
Qed.

Lemma remove_hyphens_lower (s : str) :
  PyStr.replace_del "-" (lower s) = lower (PyStr.replace_del "-" s).
Proof.
  unfold PyStr.replace_del. induction s as [|c s IH]; [reflexivity|].
  cbn [lower PyStr.remove_from String.prefix String.length Nat.sub].
  destruct (ascii_dec "-" (ascii_lower c)) as [Hl|Hl];
    destruct (ascii_dec "-" c) as [Hc|Hc].
  - destruct (lower s), s; exact IH.
  - exfalso. pose proof (hyphen_lower c) as H. rewrite <- Hl in H.
    rewrite Ascii.eqb_refl in H. symmetry in H. apply Ascii.eqb_eq in H.
    now elim Hc.
  - exfalso. subst c. now elim Hl.
  - cbn [lower]. now rewrite IH.
Qed.

Lemma remove_hyphens_all_hex (s : str) :
  canonical s = true -> all_hex (PyStr.replace_del "-" s) = true.
Proof.
  unfold PyStr.replace_del. induction s as [|c s IH]; [reflexivity|].
  cbn [canonical PyStr.remove_from String.prefix String.length Nat.sub].
  intros H. apply andb_true_iff in H. destruct H as [Hc Hs].
  destruct (ascii_dec "-" c) as [<-|Hne].
  - destruct s; now apply IH.
  - cbn [all_hex]. rewrite (IH Hs), andb_true_r.
    apply orb_true_iff in Hc. destruct Hc as [Hc|Hc]; [exact Hc|].
    apply Ascii.eqb_eq in Hc. now elim Hne.
Qed.

Lemma all_hex_lower (s : str) : all_hex (lower s) = all_hex s.
Proof.
  induction s as [|c s IH]; [reflexivity|].
  cbn [lower all_hex]. now rewrite is_hex_lower, IH.
Qed.

(** A hexadecimal digit is no white space, no sign and no [x]. *)
Lemma hex_char (c : ascii) :
  is_hex c = true ->
  int_space c = false /\ Ascii.eqb c "+" = false /\ Ascii.eqb c "-" = false /\
  Ascii.eqb c "x" = false /\ Ascii.eqb c "X" = false.
Proof.
  destruct c as [[] [] [] [] [] [] [] []]; intros H; vm_compute in H;
    try discriminate H; repeat split; reflexivity.
Qed.

Lemma int_after_sign_all_hex (h : str) :
  all_hex h = true -> int_after_sign h = int_digits 0 false false h.
Proof.
  destruct h as [|c [|x r]]; intros H.
  - reflexivity.
  - destruct c as [[] [] [] [] [] [] [] []]; reflexivity.
  - cbn [all_hex] in H. apply andb_true_iff in H. destruct H as [_ H].
    apply andb_true_iff in H. destruct H as [Hx _].
    destruct (hex_char x Hx) as (_ & _ & _ & Hx1 & Hx2).
    destruct c as [[] [] [] [] [] [] [] []]; try reflexivity.
    unfold int_after_sign. now rewrite Hx1, Hx2.
Qed.

Lemma int16_all_hex (h : str) :
  all_hex h = true ->
  int16 h = option_map (pair false) (int_digits 0 false false h).
Proof.
  intros H. rewrite <- (int_after_sign_all_hex h H).
  destruct h as [|c r]; [reflexivity|].
  cbn [all_hex] in H. apply andb_true_iff in H. destruct H as [Hc _].
  destruct (hex_char c Hc) as (Hsp & Hplus & Hminus & _).
  unfold int16. cbn [skip_space]. rewrite Hsp.
  destruct c as [[] [] [] [] [] [] [] []]; try reflexivity;
    vm_compute in Hplus, Hminus; discriminate.
Qed.

Lemma int_digits_all_hex (h : str) (acc : N) (seen : bool) :
  all_hex h = true -> seen = true \/ h <> EmptyString ->
  exists n, int_digits acc false seen h = Some n.
Proof.
  revert acc seen. induction h as [|c h IH]; intros acc seen H Hs.
  - destruct Hs as [-> | Hs]; [now exists acc | now elim Hs].
  - cbn [all_hex] in H. apply andb_true_iff in H. destruct H as [Hc Hh].
    cbn [int_digits]. unfold is_hex in Hc.
    destruct (hex_value c) as [d|]; [|discriminate].
    apply IH; [exact Hh | now left].
Qed.

(** A canonical text and its lower-case spelling are the same UUID. *)
Theorem UUID_of_str_lower (s : str) :
  canonical s = true -> UUID_of_str (lower s) = UUID_of_str s.
Proof.
  intros Hs. unfold UUID_of_str.
  rewrite (cleanup_canonical s Hs).
  rewrite (cleanup_canonical (lower s)) by now rewrite canonical_lower.
  rewrite remove_hyphens_lower, length_lower.
  pose proof (remove_hyphens_all_hex s Hs) as Hh.
  set (h := PyStr.replace_del "-" s) in *.
  destruct (String.length h =? 32)%nat eqn:Hlen; [|reflexivity].
  cbn [negb].
  rewrite (int16_all_hex h Hh).
  rewrite (int16_all_hex (lower h)) by now rewrite all_hex_lower.
  rewrite int_digits_lower.
  destruct (int_digits_all_hex h 0 false Hh) as (n & Hn).
  { right. intros ->. discriminate. }
  now rewrite Hn.
Qed.

(** Two canonical texts that differ in the case of letters only are the
    same UUID. *)
Corollary UUID_of_str_case (s1 s2 : str) :
  canonical s1 = true -> canonical s2 = true -> lower s1 = lower s2 ->
  UUID_of_str s1 = UUID_of_str s2.
Proof.
  intros H1 H2 Heq.
  now rewrite <- (UUID_of_str_lower s1 H1), <- (UUID_of_str_lower s2 H2), Heq.
Qed.

End UUIDFacts.

(** ** The keys of [player_data] *)

Section PlayerData.

Import PyZip.

#[local] Abbreviation dict := (list (PyUUID.UUID * bytes)).
#[local] Abbreviation setitem := (PyDict.setitem N.eqb).
#[local] Abbreviation get := (PyDict.get N.eqb).

Lemma get_setitem_same (d : dict) (k : PyUUID.UUID) (v : bytes) :
  get (setitem d k v) k = Some v.
Proof.
  induction d as [|[k' v'] d IH]; cbn [PyDict.setitem PyDict.get].
  - now rewrite N.eqb_refl.
  - destruct (N.eqb k' k) eqn:Hk; cbn [PyDict.get]; now rewrite Hk.
Qed.

Lemma get_setitem_other (d : dict) (k k' : PyUUID.UUID) (v : bytes) :
  k' <> k -> get (setitem d k v) k' = get d k'.
Proof.
  intros Hne. induction d as [|[k0 v0] d IH]; cbn [PyDict.setitem PyDict.get].
  - destruct (N.eqb_spec k k'); [now elim Hne | reflexivity].
  - destruct (N.eqb_spec k0 k) as [->|Hk0]; cbn [PyDict.get].
    + destruct (N.eqb_spec k k'); [now elim Hne | reflexivity].
    + now rewrite IH.
Qed.

(** Assigning to a present key keeps the number of entries; a new key adds
    one. *)
Lemma length_setitem (d : dict) (k : PyUUID.UUID) (v : bytes) :
  length (setitem d k v) =
  match get d k with
  | Some _ => length d
  | None => S (length d)
  end.
Proof.
  induction d as [|[k' v'] d IH]; cbn [PyDict.setitem PyDict.get]; [reflexivity|].
  destruct (N.eqb k' k); cbn [length]; [reflexivity|].
  rewrite IH. now destruct (get d k).
Qed.

Lemma In_setitem (d : dict) (k k' : PyUUID.UUID) (v v' : bytes) :
  In (k', v') (setitem d k v) -> In (k', v') d \/ (k' = k /\ v' = v).
Proof.
  induction d as [|[k0 v0] d IH]; cbn [PyDict.setitem].
  - intros [H|[]]. injection H as <- <-. now right.
  - destruct (N.eqb_spec k0 k) as [->|Hk0].
    + intros [H|H]; [injection H as <- <-; now right | left; now right].
    + intros [H|H]; [left; now left|].
      destruct (IH H) as [H'|H']; [left; now right | now right].
Qed.

Lemma read_players_app (z : Archive) (a b : list str) (d : dict) :
  Bundle.read_players z (a ++ b)%list d =
  match Bundle.read_players z a d with
  | inl e => inl e
  | inr d' => Bundle.read_players z b d'
  end.
Proof.
  revert d. induction a as [|f a IH]; intros d; [reflexivity|].
  cbn [app Bundle.read_players].
  destruct (PyUUID.UUID_of_str (Bundle.player_id_of f)); [reflexivity|].
  destruct (read z f); [reflexivity|]. apply IH.
Qed.

(** One turn of the loop that goes through. *)
Lemma read_players_cons (z : Archive) (f : str) (files : list str) (d d' : dict) :
  Bundle.read_players z (f :: files) d = inr d' ->
  exists u blob,
    PyUUID.UUID_of_str (Bundle.player_id_of f) = inr u /\
    read z f = inr blob /\
    Bundle.read_players z files (setitem d u blob) = inr d'.
Proof.
  cbn [Bundle.read_players].
  destruct (PyUUID.UUID_of_str (Bundle.player_id_of f)) as [e|u]; [discriminate|].
  destruct (read z f) as [e|blob]; [discriminate|].
  intros H. now exists u, blob.
Qed.

Lemma read_players_length (z : Archive) (files : list str) (d d' : dict) :
  Bundle.read_players z files d = inr d' ->
  length d' <= length d + length files.
Proof.
  revert d. induction files as [|f files IH]; intros d H.
  - injection H as <-. cbn [length]. lia.
  - apply read_players_cons in H. destruct H as (u & blob & _ & _ & H).
    apply IH in H. rewrite length_setitem in H. cbn [length].
    destruct (get d u); lia.
Qed.

Lemma read_players_keeps_keys (z : Archive) (files : list str) (d d' : dict)
  (u : PyUUID.UUID) :
  Bundle.read_players z files d = inr d' -> get d u <> None -> get d' u <> None.
Proof.
  revert d. induction files as [|f files IH]; intros d H Hu.
  - now injection H as <-.
  - apply read_players_cons in H. destruct H as (u' & blob & _ & _ & H).
    apply (IH _ H). destruct (N.eq_dec u u') as [->|Hne].
    + rewrite get_setitem_same. discriminate.
    + now rewrite get_setitem_other.
Qed.

Lemma read_players_other_keys (z : Archive) (files : list str) (d d' : dict)
  (u : PyUUID.UUID) :
  Bundle.read_players z files d = inr d' ->
  (forall f, In f files -> PyUUID.UUID_of_str (Bundle.player_id_of f) <> inr u) ->
  get d' u = get d u.
Proof.
  revert d. induction files as [|f files IH]; intros d H Hu.
  - now injection H as <-.
  - apply read_players_cons in H. destruct H as (u' & blob & Hf & _ & H).
    rewrite (IH _ H) by (intros g Hg; apply Hu; now right).
    apply get_setitem_other. intros ->. now apply (Hu f); [left|].
Qed.

(** Every key is the UUID parsed from a file of the loop, and its octets
    are what the archive holds under that file. *)
Lemma read_players_keys (z : Archive) (files : list str) (d d' : dict)
  (k : PyUUID.UUID) (v : bytes) :
  Bundle.read_players z files d = inr d' ->
  In (k, v) d' ->
  In (k, v) d \/
  exists f, In f files /\
            PyUUID.UUID_of_str (Bundle.player_id_of f) = inr k /\
            read z f = inr v.
Proof.
  revert d. induction files as [|f files IH]; intros d H Hin.
  - injection H as <-. now left.
  - apply read_players_cons in H. destruct H as (u & blob & Hf & Hr & H).
    destruct (IH _ H Hin) as [Hd | (g & Hg & Hk & Hv)].
    + apply In_setitem in Hd. destruct Hd as [Hd | [-> ->]]; [now left|].
      right. exists f. repeat split; [now left | exact Hf | exact Hr].
    + right. exists g. repeat split; [now right | exact Hk | exact Hv].
Qed.

Lemma get_None_iff (d : dict) (k : PyUUID.UUID) :
  get d k = None <-> ~ In k (map fst d).
Proof.
  induction d as [|[k' v'] d IH]; cbn [PyDict.get map fst In]; [tauto|].
  destruct (N.eqb_spec k' k) as [->|Hne].
  - split; [discriminate | intros H; elim H; now left].
  - rewrite IH. tauto.
Qed.

(** The keys after an assignment: as before for a present key, one more
    at the end for a new key. *)
Lemma keys_setitem (d : dict) (k : PyUUID.UUID) (v : bytes) :
  map fst (setitem d k v) =
  match get d k with
  | Some _ => map fst d
  | None => (map fst d ++ [k])%list
  end.
Proof.
  induction d as [|[k' v'] d IH]; cbn [PyDict.setitem PyDict.get map fst app];
    [reflexivity|].
  destruct (N.eqb_spec k' k) as [->|Hne]; cbn [map fst]; [reflexivity|].
  rewrite IH. now destruct (get d k).
Qed.

Lemma NoDup_setitem (d : dict) (k : PyUUID.UUID) (v : bytes) :
  NoDup (map fst d) -> NoDup (map fst (setitem d k v)).
Proof.
  intros H. rewrite keys_setitem. destruct (get d k) eqn:Hk; [exact H|].
  apply get_None_iff in Hk.
  apply NoDup_app; [exact H | repeat constructor; intros [] |].
  intros x Hx [<-|[]]. now elim Hk.
Qed.

(** A key occurs once in [player_data]. *)
Lemma read_players_NoDup (z : Archive) (files : list str) (d d' : dict) :
  Bundle.read_players z files d = inr d' ->
  NoDup (map fst d) -> NoDup (map fst d').
Proof.
  revert d. induction files as [|f files IH]; intros d H Hd.
  - now injection H as <-.
  - apply read_players_cons in H. destruct H as (u & blob & _ & _ & H).
    apply (IH _ H). now apply NoDup_setitem.
Qed.

(** Where the octets under a key come from: they were there before the
    loop, or they are those of a file of the loop with that UUID. *)
Lemma read_players_value (z : Archive) (files : list str) (d d' : dict)
  (u : PyUUID.UUID) :
  Bundle.read_players z files d = inr d' ->
  get d' u = get d u \/
  exists f blob,
    In f files /\ PyUUID.UUID_of_str (Bundle.player_id_of f) = inr u /\
    read z f = inr blob /\ get d' u = Some blob.
Proof.
  revert d. induction files as [|f files IH]; intros d H.
  - injection H as <-. now left.
  - apply read_players_cons in H. destruct H as (u' & blob & Hf & Hr & H).
    destruct (IH _ H) as [Heq | (g & bg & Hg & Hug & Hrg & Hget)].
    + destruct (N.eq_dec u u') as [->|Hne].
      * right. exists f, blob. rewrite Heq, get_setitem_same.
        repeat split; [now left | exact Hf | exact Hr].
      * left. now rewrite Heq, get_setitem_other.
    + right. exists g, bg. repeat split; [now right | exact Hug | exact Hrg | exact Hget].
Qed.

(** Two files of one UUID: fewer entries than files, and under the key the
    octets of the second file or of one listed after it. *)
Lemma read_players_collapse (z : Archive) (l1 l2 l3 : list str) (f1 f2 : str)
  (u : PyUUID.UUID) (d d' : dict) :
  Bundle.read_players z (l1 ++ f1 :: l2 ++ f2 :: l3)%list d = inr d' ->
  PyUUID.UUID_of_str (Bundle.player_id_of f1) = inr u ->
  PyUUID.UUID_of_str (Bundle.player_id_of f2) = inr u ->
  (exists f blob,
     In f (f2 :: l3) /\ PyUUID.UUID_of_str (Bundle.player_id_of f) = inr u /\
     read z f = inr blob /\ get d' u = Some blob) /\
  ((forall f, In f l3 -> PyUUID.UUID_of_str (Bundle.player_id_of f) <> inr u) ->
   exists blob, read z f2 = inr blob /\ get d' u = Some blob) /\
  length d' < length d + length (l1 ++ f1 :: l2 ++ f2 :: l3)%list.
Proof.
  intros H Hf1 Hf2.
  rewrite read_players_app in H.
  destruct (Bundle.read_players z l1 d) as [e|d1] eqn:H1; [discriminate|].
  apply read_players_cons in H. destruct H as (u1 & b1 & Hu1 & _ & H).
  rewrite Hf1 in Hu1. injection Hu1 as <-.
  rewrite read_players_app in H.
  destruct (Bundle.read_players z l2 (setitem d1 u b1)) as [e|d2] eqn:H2;
    [discriminate|].
  apply read_players_cons in H. destruct H as (u2 & b2 & Hu2 & Hr2 & H).
  rewrite Hf2 in Hu2. injection Hu2 as <-.
  split; [|split].
  - destruct (read_players_value _ _ _ _ u H)
      as [Heq | (g & bg & Hg & Hug & Hrg & Hget)].
    + exists f2, b2. rewrite Heq, get_setitem_same.
      repeat split; [now left | exact Hf2 | exact Hr2].
    + exists g, bg. repeat split; [now right | exact Hug | exact Hrg | exact Hget].
  - intros Hl3. exists b2. split; [exact Hr2|].
    rewrite (read_players_other_keys _ _ _ _ _ H Hl3). apply get_setitem_same.
  - apply read_players_length in H1.
    pose proof (read_players_length _ _ _ _ H2) as L2.
    apply read_players_length in H.
    assert (Hpresent : get d2 u <> None).
    { apply (read_players_keeps_keys _ _ _ _ _ H2).
      rewrite get_setitem_same. discriminate. }
    rewrite length_setitem in H, L2.
    rewrite !length_app. cbn [length]. rewrite length_app. cbn [length].
    destruct (get d2 u); [|now elim Hpresent].
    destruct (get d1 u); lia.
Qed.

(** C10.  The keys of [player_data] are the UUIDs parsed from the names of
    the player files, each key once.  When two player files carry the same
    UUID in different spellings, the two collapse into one key; it holds
    the octets of a file listed after the first of the two, those of the
    second when no later file has that UUID; and [player_data] has fewer
    entries than there are player files. *)
Theorem player_data_keyed_by_uuid (z : Archive) (b : Bundle.t)
  (l1 l2 l3 : list str) (f1 f2 : str) (u : PyUUID.UUID) :
  Bundle.extract z = inr b ->
  Bundle.player_files z = (l1 ++ f1 :: l2 ++ f2 :: l3)%list ->
  PyUUID.UUID_of_str (Bundle.player_id_of f1) = inr u ->
  PyUUID.UUID_of_str (Bundle.player_id_of f2) = inr u ->
  NoDup (map fst (Bundle.player_data b)) /\
  (exists f blob,
     In f (f2 :: l3) /\ PyUUID.UUID_of_str (Bundle.player_id_of f) = inr u /\
     read z f = inr blob /\ get (Bundle.player_data b) u = Some blob) /\
  ((forall f, In f l3 -> PyUUID.UUID_of_str (Bundle.player_id_of f) <> inr u) ->
   exists blob,
     read z f2 = inr blob /\ get (Bundle.player_data b) u = Some blob) /\
  length (Bundle.player_data b) < length (Bundle.player_files z) /\
  forall (k : PyUUID.UUID) (v : bytes),
    In (k, v) (Bundle.player_data b) ->
    exists f, In f (Bundle.player_files z) /\
              PyUUID.UUID_of_str (Bundle.player_id_of f) = inr k /\
              read z f = inr v.
Proof.
  intros Hex Hfiles Hf1 Hf2.
  assert (Hz : z <> []).
  { intros ->. discriminate. }
  rewrite (extract_root _ Hz) in Hex. unfold Bundle.extract_from in Hex.
  destruct (negb _); [discriminate|].
  destruct (read z (Bundle.level_sav_of _)) as [e|lvl]; [discriminate|].
  fold (Bundle.player_files z) in Hex.
  destruct (Bundle.read_players z (Bundle.player_files z) []) as [e|pd] eqn:Hpd;
    [discriminate|].
  injection Hex as <-. cbn [Bundle.player_data].
  pose proof Hpd as Hpd'. rewrite Hfiles in Hpd'.
  destruct (read_players_collapse _ _ _ _ _ _ _ _ _ Hpd' Hf1 Hf2)
    as (Hval & Hlast & Hlen).
  split; [|split; [exact Hval | split; [exact Hlast | split]]].
  - apply (read_players_NoDup _ _ _ _ Hpd). constructor.
  - now rewrite Hfiles.
  - intros k v Hin.
    destruct (read_players_keys _ _ _ _ _ _ Hpd Hin) as [[]|H]. exact H.
Qed.

End PlayerData.

(** The same UUID in upper and in lower case: one key, the octets of the
    file listed later. *)
Lemma player_data_keyed_by_uuid_witness :
  Bundle.extract Stub.twice =
    inr (Bundle.mk "S1" [Byte.x2a] [(Stub.twice_uuid, [Byte.x02])]) /\
  Bundle.player_files Stub.twice = [Stub.upper_name; Stub.lower_name] /\
  PyUUID.UUID_of_str (Bundle.player_id_of Stub.upper_name) = inr Stub.twice_uuid /\
  PyUUID.UUID_of_str (Bundle.player_id_of Stub.lower_name) = inr Stub.twice_uuid /\
  NoDup (map fst [(Stub.twice_uuid, [Byte.x02])]) /\
  1 < 2.
Proof.
  assert (Hex : Bundle.extract Stub.twice =
                inr (Bundle.mk "S1" [Byte.x2a] [(Stub.twice_uuid, [Byte.x02])]))
    by (vm_compute; reflexivity).
  assert (Hfiles : Bundle.player_files Stub.twice =
                   ([] ++ Stub.upper_name :: [] ++ Stub.lower_name :: [])%list)
    by (vm_compute; reflexivity).
  assert (Hup : PyUUID.UUID_of_str (Bundle.player_id_of Stub.upper_name) =
                inr Stub.twice_uuid) by (vm_compute; reflexivity).
  assert (Hlow : PyUUID.UUID_of_str (Bundle.player_id_of Stub.lower_name) =
                 inr Stub.twice_uuid) by (vm_compute; reflexivity).
  destruct (player_data_keyed_by_uuid Stub.twice _ [] [] [] _ _ _
              Hex Hfiles Hup Hlow) as (Hnodup & _ & _ & Hlen & _).
  split; [exact Hex|]. split; [exact Hfiles|]. split; [exact Hup|].
  split; [exact Hlow|]. split; [exact Hnodup | exact Hlen].
Defined.

(** The stub on the bundle with one UUID in two spellings: the engine is
    called with one keyed blob, the octets of the file listed later. *)
Example load_zip_file_handler_twice :
  calls (load_zip_file_handler [])
    (Stub.fresh (Stub.externals true (Stub.opens Stub.twice)) 0) =
  [CallLoadBundle "S1" [Byte.x2a] [(Stub.twice_uuid, [Byte.x02])];
   CallGetPlayers].
Proof. vm_compute. reflexivity. Qed.

(** The scenario of section 8 with one player file. *)
Example extract_one_player :
  Bundle.extract [Stub.level_entry; Stub.player_entry] =
  inr (Bundle.mk "S1" [Byte.x2a]
         [(0x11111111111111111111111111111111%N, [Byte.x01])]).
Proof. vm_compute. reflexivity. Qed.

(** * More on the handlers *)

(** ** The shape of what a handler writes *)

Section ShapeFacts.

Context (E : Externals).
Implicit Types (w : World E) (m : Inbound E).

Lemma progress_snoc (msgs : list str) (x : str)
  (rest : list (Envelope (Json E))) :
  (map progress msgs ++ progress x :: rest)%list =
  (map progress (msgs ++ [x]) ++ rest)%list.
Proof. now rewrite map_app, <- app_assoc. Qed.

Lemma loaded_shape m call res done w :
  m <> DownloadSaveFileMessage ->
  exists st ps tl cl,
    loaded call res (success_type m) done (error_prefix m) w =
      extend st (map progress ps ++ tl) cl w /\ ending m tl.
Proof.
  intros Hm. unfold loaded.
  destruct (snd res) as [e|sf].
  { eexists _, _, _, _. split; [reflexivity | constructor]. }
  destruct (get_players E sf) as [e|p].
  { eexists _, _, _, _. split; [reflexivity | constructor]. }
  unfold after_load. destruct (summary sf) as [e|d].
  { eexists _, _, _, _. split; [reflexivity | constructor]. }
  cbn [app]. rewrite progress_snoc.
  destruct (jsonable_encoder E p) as [e|j];
    eexists _, _, _, _; (split; [reflexivity|]).
  - now apply ending_late_error.
  - now apply ending_listing.
Qed.

Lemma updated_shape d sf w :
  exists st ps tl cl,
    updated d sf w = extend st (map progress ps ++ tl) cl w /\
    ending (UpdateSaveFileMessage d) tl.
Proof.
  unfold updated.
  destruct (apply_if (modified_pals d) (update_pals E) sf) as [[m1 sf1] [e|]].
  { eexists _, _, _, _. split; [reflexivity | apply (ending_error (UpdateSaveFileMessage d))]. }
  destruct (apply_if (modified_players d) (update_players E) sf1)
    as [[m2 sf2] [e|]]; rewrite <- map_app.
  { eexists _, _, _, _. split; [reflexivity | apply (ending_error (UpdateSaveFileMessage d))]. }
  destruct (get_players E sf2) as [e|p].
  { eexists _, _, _, _. split; [reflexivity | apply (ending_error (UpdateSaveFileMessage d))]. }
  unfold after_update.
  destruct (jsonable_encoder E p) as [e|j];
    eexists _, _, _, _; (split; [reflexivity|]).
  - now apply (ending_late_error (UpdateSaveFileMessage d)).
  - now apply (ending_listing (UpdateSaveFileMessage d)).
Qed.

Lemma rejected_shape m e w :
  exists st ps tl cl,
    rejected (error_prefix m) e w = extend st (map progress ps ++ tl) cl w /\
    ending m tl.
Proof.
  exists (app_state w), [], [error_envelope (error_prefix m) e], [].
  split; [reflexivity | constructor].
Qed.

(** Every handler returns normally and writes progress envelopes followed
    by one of its endings. *)
Lemma handle_shape m w :
  exists st ps tl cl,
    handle m w = (inr tt, extend st (map progress ps ++ tl) cl w) /\
    ending m tl.
Proof.
  destruct m as [data|data|d|]; cbn [handle].
  - rewrite load_save_file_handler_run.
    destruct (loaded_shape (LoadSaveFileMessage data) (CallLoad data)
                (engine_load E data)
                "File uploaded and processed successfully, results coming right up!"
                w) as (st & ps & tl & cl & Hw & Hend); [discriminate|].
    cbn [success_type error_prefix] in Hw. rewrite Hw. now exists st, ps, tl, cl.
  - rewrite load_zip_file_handler_run.
    destruct (ZipFile E data) as [e|z].
    { destruct (rejected_shape (LoadZipFileMessage data) e w)
        as (st & ps & tl & cl & Hw & Hend).
      cbn [error_prefix] in Hw. rewrite Hw. now exists st, ps, tl, cl. }
    destruct (Bundle.extract z) as [e|b].
    { destruct (rejected_shape (LoadZipFileMessage data) e w)
        as (st & ps & tl & cl & Hw & Hend).
      cbn [error_prefix] in Hw. rewrite Hw. now exists st, ps, tl, cl. }
    match goal with
    | |- context [loaded ?c ?r LOAD_ZIP_FILE ?d ?p w] =>
        destruct (loaded_shape (LoadZipFileMessage data) c r d w)
          as (st & ps & tl & cl & Hw & Hend); [discriminate|]
    end.
    cbn [success_type error_prefix] in Hw. rewrite Hw. now exists st, ps, tl, cl.
  - rewrite update_save_file_handler_run.
    destruct (save_file (app_state w)) as [sf|].
    + destruct (updated_shape d sf w) as (st & ps & tl & cl & Hw & Hend).
      rewrite Hw. now exists st, ps, tl, cl.
    + destruct (rejected_shape (UpdateSaveFileMessage d)
                  (ValueError "No save file loaded") w)
        as (st & ps & tl & cl & Hw & Hend).
      unfold refused. cbn [error_prefix] in Hw. rewrite Hw.
      now exists st, ps, tl, cl.
  - rewrite download_save_file_handler_run.
    destruct (save_file (app_state w)) as [sf|].
    + unfold downloaded. destruct (sav E sf) as [e|b].
      * exists (app_state w), ["Compressing GVAS to sav 💪..."],
          [error_envelope "Error downloading file: " e], [CallSav].
        split; [reflexivity | apply (ending_error DownloadSaveFileMessage)].
      * eexists (app_state w),
          ["Compressing GVAS to sav 💪...";
           "Encoding sav file to base64 🤖, get ready here it comes..."],
          [_], [CallSav].
        split; [reflexivity | now apply ending_file].
    + destruct (rejected_shape DownloadSaveFileMessage
                  (ValueError "No save file loaded") w)
        as (st & ps & tl & cl & Hw & Hend).
      unfold refused. cbn [error_prefix] in Hw. rewrite Hw.
      now exists st, ps, tl, cl.
Qed.

End ShapeFacts.

Section ShapeTheorems.

Context (E : Externals).
Implicit Types (w : World E) (m : Inbound E).

Lemma count_progress_ending m tl :
  ending m tl -> count_type PROGRESS_MESSAGE tl = 0 /\ tl <> [].
Proof.
  intros [e|d j Hm|d e Hm|d Hm]; (split; [|discriminate]);
    destruct m; reflexivity.
Qed.

(** X1.  In what any of the four handlers writes for one message, all
    progress envelopes come first: after the first envelope of another
    type no [PROGRESS_MESSAGE] follows, and at least one envelope of
    another type is written. *)
Theorem progress_envelopes_come_first m w :
  exists (texts : list str) (rest : list (Envelope (Json E))),
    emitted (handle m) w = (map progress texts ++ rest)%list /\
    count_type PROGRESS_MESSAGE rest = 0 /\ rest <> [].
Proof.
  destruct (handle_shape E m w) as (st & ps & tl & cl & H & Hend).
  observe_in H. exists ps, tl. split; [exact Hout|].
  now apply count_progress_ending with (m := m).
Qed.

(** X2.  Every handler writes at least one envelope, and [ERROR] and
    [GET_PLAYERS] are only ever the last one: the last envelope is an
    [ERROR], or a [GET_PLAYERS] that comes right after the handler's
    success envelope, or the [DOWNLOAD_SAVE_FILE] of the download. *)
Theorem last_envelope_ends_the_exchange m w :
  exists (init : list (Envelope (Json E))) (fin : Envelope (Json E)),
    emitted (handle m) w = (init ++ [fin])%list /\
    count_type ERROR init = 0 /\ count_type GET_PLAYERS init = 0 /\
    (msg_type fin = ERROR \/
     (msg_type fin = GET_PLAYERS /\ last_type init = Some (success_type m)) \/
     (msg_type fin = DOWNLOAD_SAVE_FILE /\ m = DownloadSaveFileMessage)).
Proof.
  destruct (handle_shape E m w) as (st & ps & tl & cl & H & Hend).
  observe_in H. rewrite Hout.
  destruct Hend as [e | d j Hm | d e Hm | d Hm].
  - exists (map progress ps), (error_envelope (error_prefix m) e).
    rewrite !count_type_progress by discriminate.
    repeat split. now left.
  - exists (map progress ps ++ [build_response (success_type m) d])%list,
      (build_response GET_PLAYERS (PJson j)).
    rewrite <- app_assoc, !count_type_app, !count_type_progress by discriminate.
    split; [reflexivity|]. split; [now destruct m|]. split; [now destruct m|].
    right; left. split; [reflexivity|].
    unfold last_type. now rewrite rev_app_distr.
  - exists (map progress ps ++ [build_response (success_type m) d])%list,
      (error_envelope (error_prefix m) e).
    rewrite <- app_assoc, !count_type_app, !count_type_progress by discriminate.
    split; [reflexivity|]. split; [now destruct m|]. split; [now destruct m|].
    now left.
  - exists (map progress ps), (build_response DOWNLOAD_SAVE_FILE d).
    rewrite !count_type_progress by discriminate.
    repeat split. right; right. now split.
Qed.

(** X3.  Every [ERROR] envelope a handler writes carries the text of the
    exception after that handler's own prefix: [Error processing file: ],
    [Error processing zip file: ], [Error processing changes: ] or
    [Error downloading file: ]. *)
Theorem error_text_names_the_operation m w (env : Envelope (Json E)) :
  In env (emitted (handle m) w) -> msg_type env = ERROR ->
  exists e : Exn, msg_data env = PStr (error_prefix m ++ str_of_exn e).
Proof.
  intros Hin Hty.
  destruct (handle_shape E m w) as (st & ps & tl & cl & H & Hend).
  observe_in H. rewrite Hout in Hin. apply in_app_or in Hin.
  destruct Hin as [Hin | Hin].
  - apply in_map_iff in Hin. destruct Hin as (x & <- & _). discriminate.
  - destruct Hend as [e | d j Hm | d e Hm | d Hm]; cbn [In] in Hin.
    + destruct Hin as [<- | []]. now exists e.
    + destruct Hin as [<- | [<- | []]]; [now destruct m | discriminate].
    + destruct Hin as [<- | [<- | []]]; [now destruct m | now exists e].
    + destruct Hin as [<- | []]. discriminate.
Qed.

End ShapeTheorems.

(** An update without a loaded save: its only envelope is the [ERROR] of
    the update handler. *)
Lemma error_text_names_the_operation_witness :
  In (build_response ERROR
        (PStr "Error processing changes: No save file loaded"))
     (emitted (handle (UpdateSaveFileMessage Stub.bad_update))
        (Stub.fresh Stub.plain 0)) /\
  exists e : Exn,
    @PStr (Json Stub.plain) "Error processing changes: No save file loaded" =
    PStr ("Error processing changes: " ++ str_of_exn e).
Proof.
  assert (Hin : In (build_response ERROR
                      (PStr "Error processing changes: No save file loaded"))
                   (emitted (handle (UpdateSaveFileMessage Stub.bad_update))
                      (Stub.fresh Stub.plain 0))) by (vm_compute; auto).
  split; [exact Hin|].
  exact (error_text_names_the_operation Stub.plain
           (UpdateSaveFileMessage Stub.bad_update) (Stub.fresh Stub.plain 0)
           _ Hin eq_refl).
Defined.

(** ** The download *)

Section DownloadTheorems.

Context (E : Externals).
Implicit Types (w : World E).

(** X4.  A download never changes the application state, whatever the
    engine does, and calls the engine at most once, for [sav()]; no
    exception leaves the handler. *)
Theorem download_leaves_state w :
  state_after download_save_file_handler w = app_state w /\
  escaped download_save_file_handler w = None /\
  (calls download_save_file_handler w = [] \/
   calls download_save_file_handler w = [CallSav]).
Proof.
  pose proof (download_save_file_handler_run w) as H.
  destruct (save_file (app_state w)) as [sf|].
  - unfold downloaded in H. destruct (sav E sf); observe_in H; auto.
  - unfold refused, rejected in H. observe_in H. auto.
Qed.

(** X5.  With a save loaded whose [sav()] returns the octets [b], the
    download writes its two progress envelopes and then one
    [DOWNLOAD_SAVE_FILE] envelope; its [name] is always [Level.sav],
    whatever the name of the loaded save, and its [content] is base64 text
    that decodes to exactly [b]. *)
Theorem download_content_is_sav w (sf : SaveFile E) (b : bytes) :
  save_file (app_state w) = Some sf -> sav E sf = inr b ->
  exists content : str,
    emitted download_save_file_handler w =
      [progress "Compressing GVAS to sav 💪...";
       progress "Encoding sav file to base64 🤖, get ready here it comes...";
       build_response DOWNLOAD_SAVE_FILE
         (PDict [("name", SStr "Level.sav"); ("content", SStr content)])] /\
    PyBase64.b64decode content = Some b.
Proof.
  intros Hsf Hsav.
  pose proof (download_save_file_handler_run w) as H.
  rewrite Hsf in H. unfold downloaded in H. rewrite Hsav in H.
  observe_in H. exists (PyBase64.b64encode b).
  split; [exact Hout | apply Base64Facts.b64decode_b64encode].
Qed.

(** X6.  When [sav()] raises, the first progress envelope has already been
    written; the [ERROR] envelope with the text of the exception follows
    it, and no [DOWNLOAD_SAVE_FILE] envelope is written. *)
Theorem download_when_sav_raises w (sf : SaveFile E) (e : Exn) :
  save_file (app_state w) = Some sf -> sav E sf = inl e ->
  emitted download_save_file_handler w =
    [progress "Compressing GVAS to sav 💪...";
     build_response ERROR (PStr ("Error downloading file: " ++ str_of_exn e))].
Proof.
  intros Hsf Hsav.
  pose proof (download_save_file_handler_run w) as H.
  rewrite Hsf in H. unfold downloaded in H. rewrite Hsav in H.
  observe_in H. exact Hout.
Qed.

(** X7.  There is no rollback: after an update that failed at a patch
    application or at the listing, a download serializes the save object as
    the engine left it. *)
Theorem download_after_failed_update
  (d : UpdateData (PalPatch E) (PlayerPatch E)) w
  (sf sf' : SaveFile E) (e : Exn) (b : bytes) :
  save_file (app_state w) = Some sf ->
  update_fails E d sf e sf' ->
  sav E sf' = inr b ->
  exists content : str,
    emitted download_save_file_handler (snd (update_save_file_handler d w)) =
      [progress "Compressing GVAS to sav 💪...";
       progress "Encoding sav file to base64 🤖, get ready here it comes...";
       build_response DOWNLOAD_SAVE_FILE
         (PDict [("name", SStr "Level.sav"); ("content", SStr content)])] /\
    PyBase64.b64decode content = Some b.
Proof.
  intros Hsf Hfail Hsav.
  assert (Hafter : save_file (app_state (snd (update_save_file_handler d w)))
                   = Some sf').
  { rewrite update_save_file_handler_run, Hsf. cbn [snd].
    unfold updated. unfold update_fails in Hfail.
    destruct (apply_if (modified_pals d) (update_pals E) sf) as [[m1 sf1] r1].
    cbn [fst snd] in Hfail.
    destruct (apply_if (modified_players d) (update_players E) sf1)
      as [[m2 sf2] r2].
    cbn [fst snd] in Hfail.
    destruct Hfail as [(-> & ->) | [(-> & -> & ->) | (-> & -> & Hg & ->)]];
      rewrite ?Hg; reflexivity. }
  pose proof (download_save_file_handler_run
                (snd (update_save_file_handler d w))) as H.
  rewrite Hafter in H. unfold downloaded in H. rewrite Hsav in H.
  observe_in H. exists (PyBase64.b64encode b).
  split; [exact Hout | apply Base64Facts.b64decode_b64encode].
Qed.

End DownloadTheorems.

Lemma download_content_is_sav_witness :
  save_file (app_state (Stub.session Stub.plain [Byte.x2a; Byte.x2b] 2)) =
    Some [Byte.x2a; Byte.x2b] /\
  sav Stub.plain [Byte.x2a; Byte.x2b] = inr [Byte.x2a; Byte.x2b] /\
  exists content : str,
    emitted download_save_file_handler
      (Stub.session Stub.plain [Byte.x2a; Byte.x2b] 2) =
      [progress "Compressing GVAS to sav 💪...";
       progress "Encoding sav file to base64 🤖, get ready here it comes...";
       build_response DOWNLOAD_SAVE_FILE
         (PDict [("name", SStr "Level.sav"); ("content", SStr content)])] /\
    PyBase64.b64decode content = Some [Byte.x2a; Byte.x2b].
Proof.
  split; [reflexivity|]. split; [reflexivity|].
  exact (download_content_is_sav Stub.plain
           (Stub.session Stub.plain [Byte.x2a; Byte.x2b] 2)
           [Byte.x2a; Byte.x2b] [Byte.x2a; Byte.x2b] eq_refl eq_refl).
Defined.

Lemma download_when_sav_raises_witness :
  save_file (app_state (Stub.session Stub2.unsavable [Byte.x2a] 1)) =
    Some [Byte.x2a] /\
  sav Stub2.unsavable [Byte.x2a] = inl (Raised "cannot compress") /\
  emitted download_save_file_handler
    (Stub.session Stub2.unsavable [Byte.x2a] 1) =
    [progress "Compressing GVAS to sav 💪...";
     build_response ERROR (PStr "Error downloading file: cannot compress")].
Proof.
  split; [reflexivity|]. split; [reflexivity|].
  exact (download_when_sav_raises Stub2.unsavable
           (Stub.session Stub2.unsavable [Byte.x2a] 1) [Byte.x2a]
           (Raised "cannot compress") eq_refl eq_refl).
Defined.

Lemma download_after_failed_update_witness :
  update_fails Stub.plain Stub.bad_update [Byte.x2a] (Raised "bad patch")
    [Byte.x2a; Byte.x00] /\
  exists content : str,
    emitted download_save_file_handler
      (snd (update_save_file_handler Stub.bad_update
              (Stub.session Stub.plain [Byte.x2a] 1))) =
      [progress "Compressing GVAS to sav 💪...";
       progress "Encoding sav file to base64 🤖, get ready here it comes...";
       build_response DOWNLOAD_SAVE_FILE
         (PDict [("name", SStr "Level.sav"); ("content", SStr content)])] /\
    PyBase64.b64decode content = Some [Byte.x2a; Byte.x00].
Proof.
  assert (Hf : update_fails Stub.plain Stub.bad_update [Byte.x2a]
                 (Raised "bad patch") [Byte.x2a; Byte.x00])
    by (left; split; reflexivity).
  split; [exact Hf|].
  exact (download_after_failed_update Stub.plain Stub.bad_update
           (Stub.session Stub.plain [Byte.x2a] 1) [Byte.x2a]
           [Byte.x2a; Byte.x00] (Raised "bad patch") [Byte.x2a; Byte.x00]
           eq_refl Hf eq_refl).
Defined.

(** ** The update *)

Section UpdateTheorems.

Context (E : Externals).
Implicit Types (w : World E) (d : UpdateData (PalPatch E) (PlayerPatch E)).

(** X8.  An update whose two patch sequences are both absent or empty is
    no error: no patch operation of the engine is called, the save object
    stays as it is, the listing is computed anew from it and stored, and
    the acknowledgement [UPDATE_SAVE_FILE] and the [GET_PLAYERS] listing
    are written. *)
Theorem update_without_patches d w (sf : SaveFile E) (p : Players E)
  (j : Json E) :
  save_file (app_state w) = Some sf ->
  truthy (modified_pals d) = false -> truthy (modified_players d) = false ->
  get_players E sf = inr p -> jsonable_encoder E p = inr j ->
  calls (update_save_file_handler d) w = [CallGetPlayers] /\
  state_after (update_save_file_handler d) w = mkAppState (Some sf) p /\
  emitted (update_save_file_handler d) w =
    [build_response UPDATE_SAVE_FILE (PStr "Changes saved");
     build_response GET_PLAYERS (PJson j)].
Proof.
  intros Hsf Hpals Hplayers Hget Henc.
  pose proof (update_save_file_handler_run d w) as H.
  rewrite Hsf in H. unfold updated, apply_if, call_if, after_update in H.
  rewrite Hpals, Hplayers, Hget, Henc in H. observe_in H. auto.
Qed.

(** X9.  With both patch sequences given, the pals are patched first and
    the players are patched on the object as the pal patch left it; the
    listing is computed from the object after both, stored, and sent after
    the acknowledgement, the progress texts of the two operations coming
    first in that order. *)
Theorem update_applies_pals_then_players d w (sf sf1 sf2 : SaveFile E)
  (m1 m2 : list str) (p : Players E) (j : Json E) :
  save_file (app_state w) = Some sf ->
  truthy (modified_pals d) = true -> truthy (modified_players d) = true ->
  update_pals E (seq_of (modified_pals d)) sf = (m1, sf1, None) ->
  update_players E (seq_of (modified_players d)) sf1 = (m2, sf2, None) ->
  get_players E sf2 = inr p -> jsonable_encoder E p = inr j ->
  calls (update_save_file_handler d) w =
    [CallUpdatePals (seq_of (modified_pals d));
     CallUpdatePlayers (seq_of (modified_players d));
     CallGetPlayers] /\
  state_after (update_save_file_handler d) w = mkAppState (Some sf2) p /\
  emitted (update_save_file_handler d) w =
    (map progress m1 ++ map progress m2 ++
     [build_response UPDATE_SAVE_FILE (PStr "Changes saved");
      build_response GET_PLAYERS (PJson j)])%list.
Proof.
  intros Hsf Hpals Hplayers H1 H2 Hget Henc.
  pose proof (update_save_file_handler_run d w) as H.
  rewrite Hsf in H. unfold updated, apply_if, call_if, after_update in H.
  rewrite Hpals, H1, Hplayers, H2, Hget, Henc in H. observe_in H.
  rewrite Hout, <- app_assoc. auto.
Qed.

(** X10.  When the pal patch raises, the remaining steps are dropped:
    neither [update_players] nor [get_players] is called, also when player
    patches were given; the stored listing is not touched, the save object
    is the one the pal patch left; and the only envelope after the progress
    texts of the pal patch is the [ERROR]. *)
Theorem failed_pals_skips_players d w (sf sf1 : SaveFile E)
  (m1 : list str) (e : Exn) :
  save_file (app_state w) = Some sf ->
  truthy (modified_pals d) = true ->
  update_pals E (seq_of (modified_pals d)) sf = (m1, sf1, Some e) ->
  calls (update_save_file_handler d) w =
    [CallUpdatePals (seq_of (modified_pals d))] /\
  players (state_after (update_save_file_handler d) w) =
    players (app_state w) /\
  save_file (state_after (update_save_file_handler d) w) = Some sf1 /\
  emitted (update_save_file_handler d) w =
    (map progress m1 ++ [error_envelope "Error processing changes: " e])%list.
Proof.
  intros Hsf Hpals H1.
  pose proof (update_save_file_handler_run d w) as H.
  rewrite Hsf in H. unfold updated, apply_if, call_if in H.
  rewrite Hpals, H1 in H. observe_in H. rewrite Hst. auto.
Qed.

End UpdateTheorems.

Lemma update_without_patches_witness :
  truthy (modified_pals Stub2.no_patches) = false /\
  truthy (modified_players Stub2.no_patches) = false /\
  calls (update_save_file_handler Stub2.no_patches)
    (Stub.session Stub.plain [Byte.x2a] 7) = [CallGetPlayers] /\
  state_after (update_save_file_handler Stub2.no_patches)
    (Stub.session Stub.plain [Byte.x2a] 7) =
    app_state (Stub.session Stub.plain [Byte.x2a] 1).
Proof.
  split; [reflexivity|]. split; [reflexivity|].
  destruct (update_without_patches Stub.plain Stub2.no_patches
              (Stub.session Stub.plain [Byte.x2a] 7) [Byte.x2a] 1 1
              eq_refl eq_refl eq_refl eq_refl eq_refl) as (Hc & Hs & _).
  split; [exact Hc | exact Hs].
Defined.

Lemma update_applies_pals_then_players_witness :
  update_pals Stub.plain (seq_of (modified_pals Stub2.both_patches)) [Byte.x2a]
    = (["patching"], [Byte.x2a; Byte.x01], None) /\
  update_players Stub.plain (seq_of (modified_players Stub2.both_patches))
    [Byte.x2a; Byte.x01] = (["patching"], [Byte.x2a; Byte.x01; Byte.x02], None) /\
  state_after (update_save_file_handler Stub2.both_patches)
    (Stub.session Stub.plain [Byte.x2a] 1) =
    app_state (Stub.session Stub.plain [Byte.x2a; Byte.x01; Byte.x02] 3).
Proof.
  split; [reflexivity|]. split; [reflexivity|].
  exact (proj1 (proj2 (update_applies_pals_then_players Stub.plain
           Stub2.both_patches (Stub.session Stub.plain [Byte.x2a] 1)
           [Byte.x2a] [Byte.x2a; Byte.x01] [Byte.x2a; Byte.x01; Byte.x02]
           ["patching"] ["patching"] 3 3
           eq_refl eq_refl eq_refl eq_refl eq_refl eq_refl eq_refl))).
Defined.

Lemma failed_pals_skips_players_witness :
  truthy (modified_players Stub2.bad_pals_then_players) = true /\
  update_pals Stub.plain (seq_of (modified_pals Stub2.bad_pals_then_players))
    [Byte.x2a] = (["patching"], [Byte.x2a; Byte.x00], Some (Raised "bad patch")) /\
  calls (update_save_file_handler Stub2.bad_pals_then_players)
    (Stub.session Stub.plain [Byte.x2a] 1) =
    [@CallUpdatePals Stub.plain [Byte.x00]] /\
  state_after (update_save_file_handler Stub2.bad_pals_then_players)
    (Stub.session Stub.plain [Byte.x2a] 1) =
    app_state (Stub.session Stub.plain [Byte.x2a; Byte.x00] 1).
Proof.
  split; [reflexivity|]. split; [reflexivity|].
  destruct (failed_pals_skips_players Stub.plain
              Stub2.bad_pals_then_players (Stub.session Stub.plain [Byte.x2a] 1)
              [Byte.x2a] [Byte.x2a; Byte.x00] ["patching"] (Raised "bad patch")
              eq_refl eq_refl eq_refl) as (Hcalls & Hplayers & Hsave & _).
  split; [exact Hcalls|].
  destruct (state_after (update_save_file_handler Stub2.bad_pals_then_players)
              (Stub.session Stub.plain [Byte.x2a] 1)) as [s p].
  cbn [players save_file] in Hplayers, Hsave. cbn [app_state Stub.session].
  now rewrite Hplayers, Hsave.
Defined.

(** ** The zip upload *)

Section ZipTheorems.

Context (E : Externals).
Implicit Types (w : World E).

Import PyZip.

(** X11.  When the octets are no zip archive, or the bundle cannot be
    extracted for whatever reason (no [Level.sav], a member that cannot be
    read, a player file without a UUID), the handler writes exactly one
    envelope, the [ERROR] with the text of that exception, calls no engine
    operation and leaves the application state as it was. *)
Theorem unusable_archive_is_rejected (data : bytes) w (e : Exn) :
  ZipFile E data = inl e \/
  (exists z, ZipFile E data = inr z /\ Bundle.extract z = inl e) ->
  emitted (load_zip_file_handler data) w =
    [build_response ERROR (PStr ("Error processing zip file: " ++ str_of_exn e))] /\
  calls (load_zip_file_handler data) w = [] /\
  state_after (load_zip_file_handler data) w = app_state w.
Proof.
  intros Hbad. pose proof (load_zip_file_handler_run data w) as H.
  destruct Hbad as [Hz | (z & Hz & Hex)]; rewrite Hz, ?Hex in H;
    unfold rejected in H; observe_in H; auto.
Qed.

End ZipTheorems.

Lemma unusable_archive_is_rejected_witness :
  ZipFile Stub2.unsavable [Byte.x2a] = inl (Raised "File is not a zip file") /\
  emitted (load_zip_file_handler [Byte.x2a])
    (Stub.session Stub2.unsavable [Byte.x2a] 1) =
    [build_response ERROR
       (PStr "Error processing zip file: File is not a zip file")].
Proof.
  split; [reflexivity|].
  exact (proj1 (unusable_archive_is_rejected Stub2.unsavable [Byte.x2a]
                  (Stub.session Stub2.unsavable [Byte.x2a] 1)
                  (Raised "File is not a zip file") (or_introl eq_refl))).
Defined.

Section ListingTheorems.

Import PyZip.

Lemma has_char_append (c : ascii) (a b : str) :
  PyStr.has_char c (a ++ String c b) = true.
Proof.
  induction a as [|x a IH]; cbn [append PyStr.has_char].
  - now rewrite Ascii.eqb_refl.
  - rewrite IH. apply orb_true_r.
Qed.

Lemma split_first_no_sep (sep : ascii) (s : str) :
  PyStr.has_char sep (PyStr.split_first sep s) = false.
Proof.
  induction s as [|c s IH]; [reflexivity|]. cbn [PyStr.split_first].
  destruct (Ascii.eqb c sep) eqn:Hc; [reflexivity|].
  cbn [PyStr.has_char]. now rewrite Hc, IH.
Qed.

(** X12.  The required entry is [<root_id>/Level.sav], which always has a
    [/]: an archive whose entries all lie at the top level, [Level.sav]
    among them or not, is turned down for a missing [Level.sav]. *)
Theorem flat_archive_is_rejected (z : Archive) :
  z <> [] -> flat_listing z = true ->
  Bundle.extract z =
    inl (ValueError
           ("Zip file does not contain 'Level.sav', available files: "
              ++ PyRepr.repr_list (namelist z))).
Proof.
  intros Hz Hflat. rewrite extract_root by exact Hz.
  unfold Bundle.extract_from.
  destruct (PyStr.str_in (Bundle.level_sav_of (Bundle.root_id z)) (namelist z))
    eqn:Hin; [|reflexivity].
  exfalso. unfold PyStr.str_in in Hin. apply existsb_exists in Hin.
  destruct Hin as (f & Hf & Heq). apply String.eqb_eq in Heq. subst f.
  unfold flat_listing in Hflat. rewrite forallb_forall in Hflat.
  specialize (Hflat _ Hf). unfold Bundle.level_sav_of in Hflat.
  change "/Level.sav" with (String "/" "Level.sav") in Hflat.
  now rewrite has_char_append in Hflat.
Qed.

End ListingTheorems.

Lemma flat_archive_is_rejected_witness :
  Stub3.flat <> [] /\ flat_listing Stub3.flat = true /\
  Bundle.extract Stub3.flat =
    inl (ValueError
           "Zip file does not contain 'Level.sav', available files: ['Level.sav', '11111111-1111-1111-1111-111111111111.sav']").
Proof.
  split; [discriminate|]. split; [reflexivity|].
  exact (flat_archive_is_rejected Stub3.flat ltac:(discriminate) eq_refl).
Defined.

Section PlayerDataTheorems.

Import PyZip.

#[local] Abbreviation dict := (list (PyUUID.UUID * bytes)).
#[local] Abbreviation setitem := (PyDict.setitem N.eqb).
#[local] Abbreviation get := (PyDict.get N.eqb).

(** What an accepted extraction went through. *)
Lemma extract_accepted (z : Archive) (b : Bundle.t) :
  Bundle.extract z = inr b ->
  z <> [] /\
  Bundle.save_id b = Bundle.root_id z /\
  read z (Bundle.level_sav_of (Bundle.root_id z)) = inr (Bundle.level_sav_data b) /\
  Bundle.read_players z (Bundle.player_files z) [] = inr (Bundle.player_data b).
Proof.
  intros Hex. assert (Hz : z <> []) by (intros ->; discriminate).
  rewrite (extract_root _ Hz) in Hex. unfold Bundle.extract_from in Hex.
  destruct (negb _); [discriminate|].
  destruct (read z (Bundle.level_sav_of _)) as [e|lvl]; [discriminate|].
  fold (Bundle.player_files z) in Hex.
  destruct (Bundle.read_players z (Bundle.player_files z) []) as [e|pd];
    [discriminate|].
  injection Hex as <-. auto.
Qed.

Lemma read_players_covers (z : Archive) (files : list str) (d d' : dict) :
  Bundle.read_players z files d = inr d' ->
  forall f, In f files ->
    exists u blob,
      PyUUID.UUID_of_str (Bundle.player_id_of f) = inr u /\
      read z f = inr blob /\ get d' u <> None.
Proof.
  revert d. induction files as [|g files IH]; intros d H f Hin; [contradiction|].
  apply read_players_cons in H. destruct H as (u & blob & Hu & Hr & H).
  destruct Hin as [<- | Hin].
  - exists u, blob. repeat split; [exact Hu | exact Hr |].
    apply (read_players_keeps_keys _ _ _ _ _ H).
    rewrite get_setitem_same. discriminate.
  - now apply (IH _ H).
Qed.

(** X13.  In an accepted bundle the save id is the root identifier and
    has no [/], the primary blob is what the archive holds under
    [<root_id>/Level.sav], and no player file is dropped: each one has a
    readable member and a UUID that is a key of the keyed blobs. *)
Theorem accepted_bundle_covers_player_files (z : Archive) (b : Bundle.t) :
  Bundle.extract z = inr b ->
  Bundle.save_id b = Bundle.root_id z /\
  PyStr.has_char "/" (Bundle.save_id b) = false /\
  read z (Bundle.save_id b ++ "/Level.sav") = inr (Bundle.level_sav_data b) /\
  forall f, In f (Bundle.player_files z) ->
    exists u blob,
      PyUUID.UUID_of_str (Bundle.player_id_of f) = inr u /\
      read z f = inr blob /\
      get (Bundle.player_data b) u <> None.
Proof.
  intros Hex. destruct (extract_accepted z b Hex) as (Hz & Hid & Hlvl & Hpd).
  split; [exact Hid|]. split; [|split].
  - rewrite Hid. unfold Bundle.root_id. destruct (namelist z); [reflexivity|].
    apply split_first_no_sep.
  - rewrite Hid. exact Hlvl.
  - now apply read_players_covers with (d := []).
Qed.

Lemma get_app_new (d : dict) (u u' : PyUUID.UUID) (blob : bytes) :
  get d u' = None -> u' <> u -> get (d ++ [(u, blob)])%list u' = None.
Proof.
  intros Hd Hne. induction d as [|[k v] d IH]; cbn [app PyDict.get] in *.
  - destruct (N.eqb_spec u u'); [now elim Hne | reflexivity].
  - destruct (N.eqb k u'); [discriminate | now apply IH].
Qed.

Lemma setitem_new (d : dict) (u : PyUUID.UUID) (blob : bytes) :
  get d u = None -> setitem d u blob = (d ++ [(u, blob)])%list.
Proof.
  induction d as [|[k v] d IH]; cbn [app PyDict.get PyDict.setitem];
    [reflexivity|].
  destruct (N.eqb k u); [discriminate|]. intros H. now rewrite IH.
Qed.

(** With files of pairwise different UUIDs, none of them a key yet, the
    loop appends one entry per file, in order. *)
Lemma read_players_in_order (z : Archive) (files : list str) (d d' : dict) :
  Bundle.read_players z files d = inr d' ->
  NoDup (map uuid_of_file files) ->
  (forall f u, In f files -> uuid_of_file f = Some u -> get d u = None) ->
  exists tail, d' = (d ++ tail)%list /\ Forall2 (keyed_from z) files tail.
Proof.
  revert d. induction files as [|f files IH]; intros d H Hnd Hnew.
  - injection H as <-. exists []. now rewrite app_nil_r.
  - apply read_players_cons in H. destruct H as (u & blob & Hu & Hr & H).
    assert (Hf : uuid_of_file f = Some u) by (unfold uuid_of_file; now rewrite Hu).
    rewrite setitem_new in H by (apply (Hnew f); [now left | exact Hf]).
    cbn [map] in Hnd. apply NoDup_cons_iff in Hnd. destruct Hnd as [Hnotin Hnd].
    destruct (IH _ H Hnd) as (tail & -> & Hall).
    + intros g v Hg Hv. apply get_app_new.
      * apply (Hnew g); [now right | exact Hv].
      * intros ->. apply Hnotin. rewrite Hf, <- Hv. now apply in_map.
    + exists ((u, blob) :: tail). rewrite <- app_assoc. split; [reflexivity|].
      constructor; [now split | exact Hall].
Qed.

(** X14.  When the player files of an accepted bundle carry pairwise
    different UUIDs, the keyed blobs are exactly the player files in the
    order of the listing: the n-th entry has the UUID of the n-th player
    file as its key and that file's octets as its value. *)
Theorem distinct_uuids_keep_listing_order (z : Archive) (b : Bundle.t) :
  Bundle.extract z = inr b ->
  NoDup (map uuid_of_file (Bundle.player_files z)) ->
  Forall2 (keyed_from z) (Bundle.player_files z) (Bundle.player_data b).
Proof.
  intros Hex Hnd. destruct (extract_accepted z b Hex) as (_ & _ & _ & Hpd).
  destruct (read_players_in_order _ _ _ _ Hpd Hnd) as (tail & -> & Hall);
    [reflexivity | exact Hall].
Qed.

End PlayerDataTheorems.

Lemma accepted_bundle_covers_player_files_witness :
  Bundle.extract Stub.twice =
    inr (Bundle.mk "S1" [Byte.x2a] [(Stub.twice_uuid, [Byte.x02])]) /\
  PyZip.read Stub.twice "S1/Level.sav" = inr [Byte.x2a] /\
  forall f, In f (Bundle.player_files Stub.twice) ->
    exists u blob,
      PyUUID.UUID_of_str (Bundle.player_id_of f) = inr u /\
      PyZip.read Stub.twice f = inr blob /\
      PyDict.get N.eqb [(Stub.twice_uuid, [Byte.x02])] u <> None.
Proof.
  assert (Hex : Bundle.extract Stub.twice =
                inr (Bundle.mk "S1" [Byte.x2a] [(Stub.twice_uuid, [Byte.x02])]))
    by (vm_compute; reflexivity).
  destruct (accepted_bundle_covers_player_files Stub.twice _ Hex)
    as (_ & _ & Hlvl & Hall).
  split; [exact Hex|]. split; [exact Hlvl | exact Hall].
Defined.

Lemma distinct_uuids_keep_listing_order_witness :
  NoDup (map uuid_of_file (Bundle.player_files Stub3.two_players)) /\
  Bundle.extract Stub3.two_players =
    inr (Bundle.mk "S1" [Byte.x2a]
           [(0x22222222222222222222222222222222%N, [Byte.x02]);
            (0x11111111111111111111111111111111%N, [Byte.x01])]) /\
  Forall2 (keyed_from Stub3.two_players)
    (Bundle.player_files Stub3.two_players)
    [(0x22222222222222222222222222222222%N, [Byte.x02]);
     (0x11111111111111111111111111111111%N, [Byte.x01])].
Proof.
  assert (Hnd : NoDup (map uuid_of_file (Bundle.player_files Stub3.two_players))).
  { vm_compute. repeat constructor; cbn [In]; intros H;
      repeat (destruct H as [H|H]; [discriminate H|]); exact H. }
  assert (Hex : Bundle.extract Stub3.two_players =
    inr (Bundle.mk "S1" [Byte.x2a]
           [(0x22222222222222222222222222222222%N, [Byte.x02]);
            (0x11111111111111111111111111111111%N, [Byte.x01])]))
    by (vm_compute; reflexivity).
  split; [exact Hnd|]. split; [exact Hex|].
  exact (distinct_uuids_keep_listing_order Stub3.two_players _ Hex Hnd).
Defined.

(** ** Names of player files *)

Section NameTheorems.

Import PyUUID.

Lemma hex_value_lt (c : ascii) (d : N) : hex_value c = Some d -> (d < 16)%N.
Proof.
  destruct c as [[] [] [] [] [] [] [] []]; intros H; vm_compute in H;
    try discriminate H; injection H as <-; reflexivity.
Qed.

(** The digits read so far bound the value. *)
Lemma int_digits_bound (h : str) (acc n : N) (seen : bool) :
  all_hex h = true -> int_digits acc false seen h = Some n ->
  (n < (acc + 1) * 16 ^ N.of_nat (String.length h))%N.
Proof.
  revert acc seen. induction h as [|c h IH]; intros acc seen Hh H.
  - cbn [int_digits] in H. destruct (seen && negb false); [|discriminate].
    injection H as <-. cbn. lia.
  - cbn [all_hex] in Hh. apply andb_true_iff in Hh. destruct Hh as [Hc Hh].
    cbn [int_digits] in H. unfold is_hex in Hc.
    destruct (hex_value c) as [d|] eqn:Hd; [|discriminate].
    apply hex_value_lt in Hd. apply IH in H; [|exact Hh].
    cbn [String.length]. rewrite Nat2N.inj_succ, N.pow_succ_r'.
    eapply N.lt_le_trans; [exact H|].
    rewrite N.mul_assoc. apply N.mul_le_mono_r. lia.
Qed.

(** X15.  A stem made of hexadecimal digits and hyphens only is a UUID
    exactly when it has 32 hexadecimal digits, wherever its hyphens stand:
    it then parses to a value below [2^128]; with any other number of
    digits [uuid.UUID] raises [badly formed hexadecimal UUID string]. *)
Theorem uuid_is_32_hex_digits (s : str) :
  canonical s = true ->
  if (String.length (PyStr.replace_del "-" s) =? 32)%nat
  then exists u, UUID_of_str s = inr u /\ (u < 2 ^ 128)%N
  else UUID_of_str s = inl (ValueError "badly formed hexadecimal UUID string").
Proof.
  intros Hs. unfold UUID_of_str.
  rewrite (UUIDFacts.cleanup_canonical s Hs).
  pose proof (UUIDFacts.remove_hyphens_all_hex s Hs) as Hh.
  set (h := PyStr.replace_del "-" s) in *.
  destruct (String.length h =? 32)%nat eqn:Hlen; [|reflexivity].
  cbn [negb]. apply Nat.eqb_eq in Hlen.
  rewrite (UUIDFacts.int16_all_hex h Hh).
  destruct (UUIDFacts.int_digits_all_hex h 0 false Hh) as (n & Hn).
  { right. intros Heq. rewrite Heq in Hlen. discriminate. }
  rewrite Hn. cbn [option_map negb andb].
  pose proof (int_digits_bound h 0 n false Hh Hn) as Hb.
  rewrite Hlen in Hb. change ((0 + 1) * 16 ^ N.of_nat 32)%N with (2 ^ 128)%N in Hb.
  apply N.ltb_lt in Hb. rewrite Hb. exists n. split; [reflexivity|].
  now apply N.ltb_lt.
Qed.

(** X16.  Two player files whose stems are made of hexadecimal digits and
    hyphens and differ in the case of letters only get the same key: the
    parse of the one is the parse of the other. *)
Theorem player_keys_ignore_case (f1 f2 : str) :
  canonical (Bundle.player_id_of f1) = true ->
  canonical (Bundle.player_id_of f2) = true ->
  lower (Bundle.player_id_of f1) = lower (Bundle.player_id_of f2) ->
  UUID_of_str (Bundle.player_id_of f1) = UUID_of_str (Bundle.player_id_of f2).
Proof.
  intros H1 H2 Heq.
  rewrite <- (UUIDFacts.UUID_of_str_lower _ H1).
  rewrite <- (UUIDFacts.UUID_of_str_lower _ H2).
  now rewrite Heq.
Qed.

Lemma length_append (a b : str) :
  String.length (a ++ b) = String.length a + String.length b.
Proof. induction a as [|c a IH]; simpl; [reflexivity | now rewrite IH]. Qed.

Lemma substring_all (p : str) : substring 0 (String.length p) p = p.
Proof. induction p as [|c p IH]; simpl; [reflexivity | now rewrite IH]. Qed.

Lemma substring_tail (a p : str) :
  substring (String.length a) (String.length p) (a ++ p) = p.
Proof.
  induction a as [|c a IH]; [apply substring_all | exact IH].
Qed.

Lemma endswith_append (a p : str) : PyStr.endswith (a ++ p) p = true.
Proof.
  unfold PyStr.endswith. rewrite length_append.
  replace (String.length a + String.length p - String.length p)
    with (String.length a) by lia.
  rewrite substring_tail, String.eqb_refl, andb_true_r.
  apply Nat.leb_le. lia.
Qed.

Lemma basename_last_segment (dir t : str) :
  PyStr.has_char "/" t = false -> PyStr.basename (dir ++ String "/" t) = t.
Proof.
  intros Ht. induction dir as [|c dir IH]; cbn [append PyStr.basename].
  - now rewrite Ht.
  - now rewrite has_char_append.
Qed.

Lemma has_char_app_false (c : ascii) (a b : str) :
  PyStr.has_char c a = false -> PyStr.has_char c b = false ->
  PyStr.has_char c (a ++ b) = false.
Proof.
  intros Ha Hb. induction a as [|x a IH]; [exact Hb|].
  cbn [append PyStr.has_char] in *. apply orb_false_iff in Ha.
  destruct Ha as [Hx Ha]. now rewrite Hx, IH.
Qed.

Lemma splitext_root_sav (stem : str) (seen : bool) :
  PyStr.has_char "." stem = false -> seen = true \/ stem <> EmptyString ->
  PyStr.splitext_root_aux seen (stem ++ ".sav") = stem.
Proof.
  revert seen. induction stem as [|c stem IH]; intros seen Hdot Hs.
  - destruct Hs as [-> | Hs]; [reflexivity | now elim Hs].
  - cbn [PyStr.has_char] in Hdot. apply orb_false_iff in Hdot.
    destruct Hdot as [Hc Hdot].
    cbn [append PyStr.splitext_root_aux]. rewrite Hc. cbn [andb negb].
    rewrite orb_true_r. f_equal. apply IH; [exact Hdot | now left].
Qed.

(** X17.  The test for player files does not look at the depth of the
    path: a name under [<root_id>/Players/] in any subdirectory that ends
    in [.sav] is a player file, and its id is its last path segment without
    the extension. *)
Theorem nested_player_file (save_id dir stem : str) :
  PyStr.has_char "/" stem = false -> PyStr.has_char "." stem = false ->
  stem <> EmptyString ->
  let f := save_id ++ "/Players/" ++ dir ++ "/" ++ stem ++ ".sav" in
  Bundle.is_player_file save_id f = true /\ Bundle.player_id_of f = stem.
Proof.
  intros Hslash Hdot Hne f. split.
  - unfold Bundle.is_player_file, PyStr.startswith. subst f.
    rewrite <- (append_assoc save_id "/Players/"), prefix_append.
    replace ((save_id ++ "/Players/") ++ dir ++ "/" ++ stem ++ ".sav")
      with ((((save_id ++ "/Players/") ++ dir) ++ "/" ++ stem) ++ ".sav")
      by (rewrite !append_assoc; reflexivity).
    now rewrite endswith_append.
  - unfold Bundle.player_id_of. subst f.
    assert (Hb : PyStr.basename
                   (save_id ++ "/Players/" ++ dir ++ "/" ++ stem ++ ".sav")
                 = stem ++ ".sav").
    { transitivity
        (PyStr.basename
           ((save_id ++ "/Players/" ++ dir) ++ String "/" (stem ++ ".sav"))).
      - f_equal. rewrite !append_assoc. reflexivity.
      - apply basename_last_segment. now apply has_char_app_false. }
    rewrite Hb. unfold PyStr.splitext_root.
    apply splitext_root_sav; [exact Hdot | now right].
Qed.

End NameTheorems.


Lemma uuid_is_32_hex_digits_witness :
  PyUUID.canonical "1111-11111111-1111-1111-111111111111" = true /\
  exists u,
    PyUUID.UUID_of_str "1111-11111111-1111-1111-111111111111" = inr u /\
    (u < 2 ^ 128)%N.
Proof.
  split; [reflexivity|].
  exact (uuid_is_32_hex_digits "1111-11111111-1111-1111-111111111111" eq_refl).
Defined.

Lemma player_keys_ignore_case_witness :
  PyUUID.canonical (Bundle.player_id_of Stub.upper_name) = true /\
  PyUUID.canonical (Bundle.player_id_of Stub.lower_name) = true /\
  PyUUID.lower (Bundle.player_id_of Stub.upper_name) =
    PyUUID.lower (Bundle.player_id_of Stub.lower_name) /\
  PyUUID.UUID_of_str (Bundle.player_id_of Stub.upper_name) =
    PyUUID.UUID_of_str (Bundle.player_id_of Stub.lower_name).
Proof.
  assert (H1 : PyUUID.canonical (Bundle.player_id_of Stub.upper_name) = true)
    by (vm_compute; reflexivity).
  assert (H2 : PyUUID.canonical (Bundle.player_id_of Stub.lower_name) = true)
    by (vm_compute; reflexivity).
  assert (H3 : PyUUID.lower (Bundle.player_id_of Stub.upper_name) =
               PyUUID.lower (Bundle.player_id_of Stub.lower_name))
    by (vm_compute; reflexivity).
  split; [exact H1|]. split; [exact H2|]. split; [exact H3|].
  exact (player_keys_ignore_case Stub.upper_name Stub.lower_name H1 H2 H3).
Defined.

Lemma nested_player_file_witness :
  PyStr.has_char "/" "22222222-2222-2222-2222-222222222222" = false /\
  PyStr.has_char "." "22222222-2222-2222-2222-222222222222" = false /\
  Bundle.is_player_file "S1"
    "S1/Players/backup/old/22222222-2222-2222-2222-222222222222.sav" = true /\
  Bundle.player_id_of
    "S1/Players/backup/old/22222222-2222-2222-2222-222222222222.sav" =
    "22222222-2222-2222-2222-222222222222".
Proof.
  split; [reflexivity|]. split; [reflexivity|].
  exact (nested_player_file "S1" "backup/old"
           "22222222-2222-2222-2222-222222222222" eq_refl eq_refl
           ltac:(discriminate)).
Defined.

(** ** The text of a download *)

Section Base64Theorems.

Import PyBase64.

Lemma base64_sextet (k g : N) : dec_char (sextet k g) <> None.
Proof. rewrite Base64Facts.dec_sextet. discriminate. Qed.

(** [b64encode] gives four characters for every three octets, the last
    group filled up, and every character is one of the 64 of the base64
    alphabet or [=]. *)
Lemma b64encode_is_text (s : bytes) :
  String.length (b64encode s) = 4 * ((length s + 2) / 3) /\
  base64_text (b64encode s) = true.
Proof.
  induction s as [|a|a b|a b c s [IHl IHt]] using Base64Facts.list_ind3.
  - split; reflexivity.
  - split; [reflexivity|]. cbn [b64encode base64_text].
    destruct (dec_char (sextet 3 _)) eqn:H3; [|now apply base64_sextet in H3].
    destruct (dec_char (sextet 2 _)) eqn:H2; [|now apply base64_sextet in H2].
    reflexivity.
  - split; [reflexivity|]. cbn [b64encode base64_text].
    destruct (dec_char (sextet 3 _)) eqn:H3; [|now apply base64_sextet in H3].
    destruct (dec_char (sextet 2 _)) eqn:H2; [|now apply base64_sextet in H2].
    destruct (dec_char (sextet 1 _)) eqn:H1; [|now apply base64_sextet in H1].
    reflexivity.
  - split.
    + cbn [b64encode String.length length]. rewrite IHl.
      replace (S (S (S (length s))) + 2) with (length s + 2 + 1 * 3) by lia.
      rewrite Nat.div_add by discriminate. lia.
    + cbn [b64encode base64_text].
      destruct (dec_char (sextet 3 _)) eqn:H3; [|now apply base64_sextet in H3].
      destruct (dec_char (sextet 2 _)) eqn:H2; [|now apply base64_sextet in H2].
      destruct (dec_char (sextet 1 _)) eqn:H1; [|now apply base64_sextet in H1].
      destruct (dec_char (sextet 0 _)) eqn:H0; [|now apply base64_sextet in H0].
      exact IHt.
Qed.

End Base64Theorems.

Section DownloadText.

Context (E : Externals).

(** X18.  Whatever the engine's [sav()] returns, the file envelope of a
    download is ready for a JSON text field: its [data] has the two keys
    [name] and [content], the name is [Level.sav], and the content has a
    length that is a multiple of four and only characters of the base64
    alphabet and [=]. *)
Theorem download_content_is_text (w : World E) (env : Envelope (Json E)) :
  In env (emitted download_save_file_handler w) ->
  msg_type env = DOWNLOAD_SAVE_FILE ->
  exists content : str,
    msg_data env =
      PDict [("name", SStr "Level.sav"); ("content", SStr content)] /\
    String.length content mod 4 = 0 /\ base64_text content = true.
Proof.
  intros Hin Hty.
  pose proof (download_save_file_handler_run w) as H.
  destruct (save_file (app_state w)) as [sf|].
  - unfold downloaded in H. destruct (sav E sf) as [e|b]; observe_in H;
      rewrite Hout in Hin; cbn [In] in Hin.
    + destruct Hin as [<- | [<- | []]]; discriminate.
    + destruct Hin as [<- | [<- | [<- | []]]]; try discriminate.
      exists (PyBase64.b64encode b).
      destruct (b64encode_is_text b) as [Hlen Htext].
      split; [reflexivity|]. split; [|exact Htext].
      rewrite Hlen, Nat.mul_comm. apply Nat.Div0.mod_mul.
  - unfold refused, rejected in H. observe_in H.
    rewrite Hout in Hin; cbn [In] in Hin.
    destruct Hin as [<- | []]. discriminate.
Qed.

End DownloadText.

Lemma download_content_is_text_witness :
  In (build_response DOWNLOAD_SAVE_FILE
        (PDict [("name", SStr "Level.sav"); ("content", SStr "Kis=")]))
     (emitted download_save_file_handler
        (Stub.session Stub.plain [Byte.x2a; Byte.x2b] 2)) /\
  exists content : str,
    PDict [("name", SStr "Level.sav"); ("content", SStr "Kis=")] =
      @PDict (Json Stub.plain)
        [("name", SStr "Level.sav"); ("content", SStr content)] /\
    String.length content mod 4 = 0 /\ base64_text content = true.
Proof.
  assert (Hin : In (build_response DOWNLOAD_SAVE_FILE
                      (PDict [("name", SStr "Level.sav");
                              ("content", SStr "Kis=")]))
                   (emitted download_save_file_handler
                      (Stub.session Stub.plain [Byte.x2a; Byte.x2b] 2)))
    by (vm_compute; right; right; left; reflexivity).
  split; [exact Hin|].
  exact (download_content_is_text Stub.plain
           (Stub.session Stub.plain [Byte.x2a; Byte.x2b] 2) _ Hin eq_refl).
Defined.

(** ** A load that goes through *)

Section LoadSuccess.

Context (E : Externals).
Implicit Types (w : World E).

(** X20.  When the engine takes the octets and the summary and the listing
    can be built, the upload handler forwards the engine's progress texts,
    then writes its own progress text, the summary of the new save under
    [LOAD_SAVE_FILE] and the new listing under [GET_PLAYERS]; name, size
    and listing are those of the save just loaded, not of the one before;
    the engine was asked to load the octets of the message as they came
    and for the listing, once each. *)
Theorem upload_success_trace (data : bytes) w (msgs : list str)
  (sf : SaveFile E) (p : Players E) (name : str) (size : Z) (j : Json E) :
  engine_load E data = (msgs, inr sf) ->
  get_players E sf = inr p ->
  sf_name E sf = inr name -> sf_size E sf = inr size ->
  jsonable_encoder E p = inr j ->
  emitted (load_save_file_handler data) w =
    (map progress msgs ++
     [progress "File uploaded and processed successfully, results coming right up!";
      build_response LOAD_SAVE_FILE
        (PDict [("name", SStr name); ("size", SInt size)]);
      build_response GET_PLAYERS (PJson j)])%list /\
  calls (load_save_file_handler data) w = [CallLoad data; CallGetPlayers] /\
  state_after (load_save_file_handler data) w = mkAppState (Some sf) p.
Proof.
  intros Hload Hp Hname Hsize Hj.
  pose proof (load_save_file_handler_run data w) as H.
  unfold loaded, after_load, summary in H.
  rewrite Hload in H. cbn [fst snd] in H.
  rewrite Hp, Hname, Hsize, Hj in H. observe_in H. auto.
Qed.

(** X21.  For an archive the handler accepts, the engine's bundle
    ingestion gets what the handler read from the archive: the root
    identifier, the octets of [<root_id>/Level.sav] and the player data;
    when the engine takes them the exchange goes on as for an upload, with
    the summary under [LOAD_ZIP_FILE]. *)
Theorem zip_success_trace (data : bytes) w (z : PyZip.Archive)
  (b : Bundle.t) (msgs : list str)
  (sf : SaveFile E) (p : Players E) (name : str) (size : Z) (j : Json E) :
  ZipFile E data = inr z -> Bundle.extract z = inr b ->
  engine_load_bundle E (Bundle.save_id b) (Bundle.level_sav_data b)
    (Bundle.player_data b) = (msgs, inr sf) ->
  get_players E sf = inr p ->
  sf_name E sf = inr name -> sf_size E sf = inr size ->
  jsonable_encoder E p = inr j ->
  emitted (load_zip_file_handler data) w =
    (map progress msgs ++
     [progress "Zip file uploaded and processed successfully, results coming right up!";
      build_response LOAD_ZIP_FILE
        (PDict [("name", SStr name); ("size", SInt size)]);
      build_response GET_PLAYERS (PJson j)])%list /\
  calls (load_zip_file_handler data) w =
    [CallLoadBundle (Bundle.root_id z) (Bundle.level_sav_data b)
       (Bundle.player_data b);
     CallGetPlayers] /\
  PyZip.read z (Bundle.level_sav_of (Bundle.root_id z)) =
    inr (Bundle.level_sav_data b) /\
  state_after (load_zip_file_handler data) w = mkAppState (Some sf) p.
Proof.
  intros Hz Hb Hload Hp Hname Hsize Hj.
  pose proof (load_zip_file_handler_run data w) as H.
  rewrite Hz, Hb in H. unfold loaded, after_load, summary in H.
  rewrite Hload in H. cbn [fst snd] in H.
  rewrite Hp, Hname, Hsize, Hj in H. observe_in H.
  destruct (extract_accepted z b Hb) as (_ & Hid & Hlvl & _).
  split; [exact Hout|]. split; [now rewrite <- Hid|].
  split; [exact Hlvl | exact Hst].
Qed.

End LoadSuccess.

Lemma upload_success_trace_witness :
  engine_load Stub.plain [Byte.x2a; Byte.x2b] =
    (["loading"], inr [Byte.x2a; Byte.x2b]) /\
  emitted (load_save_file_handler [Byte.x2a; Byte.x2b])
    (Stub.session Stub.plain [Byte.x01] 1) =
    [progress "loading";
     progress "File uploaded and processed successfully, results coming right up!";
     build_response LOAD_SAVE_FILE
       (PDict [("name", SStr "Level.sav"); ("size", SInt 2)]);
     build_response GET_PLAYERS (@PJson (Json Stub.plain) 2)].
Proof.
  split; [reflexivity|].
  exact (proj1 (upload_success_trace Stub.plain [Byte.x2a; Byte.x2b]
                  (Stub.session Stub.plain [Byte.x01] 1)
                  ["loading"] [Byte.x2a; Byte.x2b] 2 "Level.sav" 2%Z 2
                  eq_refl eq_refl eq_refl eq_refl eq_refl)).
Defined.

Lemma zip_success_trace_witness :
  Bundle.extract Stub3.two_players =
    inr (Bundle.mk "S1" [Byte.x2a] Stub3.two_keys) /\
  calls (load_zip_file_handler [Byte.x00]) (Stub.fresh Stub3.reads_two 0) =
    [@CallLoadBundle Stub3.reads_two "S1" [Byte.x2a] Stub3.two_keys;
     CallGetPlayers] /\
  state_after (load_zip_file_handler [Byte.x00])
    (Stub.fresh Stub3.reads_two 0) =
    @mkAppState Stub3.reads_two (Some [Byte.x2a]) 1.
Proof.
  assert (Hb : Bundle.extract Stub3.two_players =
               inr (Bundle.mk "S1" [Byte.x2a] Stub3.two_keys))
    by (vm_compute; reflexivity).
  split; [exact Hb|].
  destruct (zip_success_trace Stub3.reads_two [Byte.x00]
              (Stub.fresh Stub3.reads_two 0) Stub3.two_players _
              ["loading bundle"] [Byte.x2a] 1 "Level.sav" 1%Z 1
              eq_refl Hb eq_refl eq_refl eq_refl eq_refl eq_refl)
    as (_ & Hcalls & _ & Hst).
  split; [|exact Hst].
  rewrite Hcalls. f_equal.
Defined.

(** ** The place of an entry in the listing *)

Section ListingOrder.

Import PyZip.

Lemma split_first_prefix (sep : ascii) (a b s : str) :
  PyStr.has_char sep a = false ->
  String.prefix (a ++ String sep b) s = true ->
  PyStr.split_first sep s = a.
Proof.
  revert s. induction a as [|x a IH]; intros s Ha Hp.
  - destruct s as [|c r]; [discriminate|]. cbn [append String.prefix] in Hp.
    destruct (ascii_dec sep c) as [<-|]; [|discriminate].
    cbn [PyStr.split_first]. now rewrite Ascii.eqb_refl.
  - destruct s as [|c r]; [discriminate|]. cbn [append String.prefix] in Hp.
    destruct (ascii_dec x c) as [<-|]; [|discriminate].
    cbn [PyStr.has_char] in Ha. apply orb_false_iff in Ha.
    destruct Ha as [Hx Ha]. cbn [PyStr.split_first]. rewrite Hx.
    f_equal. now apply IH.
Qed.

Lemma root_id_no_slash (z : Archive) : PyStr.has_char "/" (Bundle.root_id z) = false.
Proof.
  unfold Bundle.root_id. destruct (namelist z); [reflexivity|].
  apply split_first_no_sep.
Qed.

(** X22.  The root identifier is taken from the first listed entry alone.
    An entry under another first path segment, with no [Level.sav] listed
    under that segment, changes nothing when it is listed after an
    accepted bundle, and makes the handler turn the same bundle down when
    it is listed first. *)
Theorem foreign_entry_matters_only_first (z : Archive) (b : Bundle.t)
  (m : ZipInfo) :
  Bundle.extract z = inr b ->
  PyStr.split_first "/" (filename m) <> Bundle.root_id z ->
  PyStr.str_in (Bundle.level_sav_of (PyStr.split_first "/" (filename m)))
    (namelist (m :: z)) = false ->
  Bundle.extract (z ++ [m])%list = inr b /\
  Bundle.extract (m :: z) =
    inl (ValueError
           ("Zip file does not contain 'Level.sav', available files: "
              ++ PyRepr.repr_list (namelist (m :: z)))).
Proof.
  intros Hb Hroot Hlvl.
  assert (Hz : z <> []) by (intros ->; discriminate).
  assert (Hr : Bundle.root_id (z ++ [m])%list = Bundle.root_id z).
  { rewrite <- (root_id_without z [] m Hz). now rewrite app_nil_r. }
  split.
  - apply (same_bundles_without_entry z [] m b).
    + rewrite Hr. intros Heq. apply Hroot.
      apply split_first_prefix with (b := "Level.sav");
        [apply root_id_no_slash|].
      rewrite Heq. unfold Bundle.level_sav_of.
      rewrite <- (append_nil_r (Bundle.root_id z ++ "/Level.sav")) at 2.
      apply prefix_append.
    + rewrite Hr. unfold Bundle.is_player_file, PyStr.startswith.
      destruct (String.prefix (Bundle.root_id z ++ "/Players/") (filename m))
        eqn:Hp; [|reflexivity].
      exfalso. apply Hroot.
      now apply split_first_prefix with (b := "Players/");
        [apply root_id_no_slash|].
    + rewrite Hr. now rewrite app_nil_r.
    + now rewrite app_nil_r.
  - cbn [Bundle.extract namelist map Bundle.is_None Bundle.first_item].
    unfold Bundle.extract_from. cbn [namelist map] in Hlvl |- *.
    now rewrite Hlvl.
Qed.

End ListingOrder.

Lemma foreign_entry_matters_only_first_witness :
  let m := PyZip.mkZipInfo "__MACOSX/._S1" (inr [Byte.x00]) in
  Bundle.extract Stub3.two_players =
    inr (Bundle.mk "S1" [Byte.x2a] Stub3.two_keys) /\
  Bundle.extract (Stub3.two_players ++ [m])%list =
    inr (Bundle.mk "S1" [Byte.x2a] Stub3.two_keys) /\
  exists e, Bundle.extract (m :: Stub3.two_players) = inl e.
Proof.
  intros m.
  assert (Hb : Bundle.extract Stub3.two_players =
               inr (Bundle.mk "S1" [Byte.x2a] Stub3.two_keys))
    by (vm_compute; reflexivity).
  assert (Hroot : PyStr.split_first "/" (PyZip.filename m) <>
                  Bundle.root_id Stub3.two_players)
    by (vm_compute; discriminate).
  assert (Hlvl : PyStr.str_in
                   (Bundle.level_sav_of
                      (PyStr.split_first "/" (PyZip.filename m)))
                   (PyZip.namelist (m :: Stub3.two_players)) = false)
    by (vm_compute; reflexivity).
  destruct (foreign_entry_matters_only_first Stub3.two_players _ m
              Hb Hroot Hlvl) as [Hlast Hfirst].
  split; [exact Hb|]. split; [exact Hlast|].
  eexists. exact Hfirst.
Defined.
